(** * Dataset metadata reconciliation (src/src/xr_parser.py)

    A shallow embedding of the attribute normaliser, the axis classifier and
    the attribute reconciler of [xr_parser.py], with the properties of its
    specification stated and settled against the embedded code.

    Conventions of the embedding.
    - Python [str] is [string] (ASCII text); attribute values are [value].
    - A Python [dict] is an insertion-ordered association list ([dict]).
    - A function that can raise returns [res]; a method that mutates the
      objects it is handed threads them as an explicit state and returns an
      [outcome], which keeps the state reached when an exception propagates.
    - [guess_attr] and [compare_attr] are declared [@staticmethod] and yet
      read [self.log]: the name [self] is unbound in their bodies, so the
      statement raises [NameError] when it is reached ([static_self_log]). *)

From Stdlib Require Import String Ascii List Bool Arith ZArith Lia DecimalString.
From Stdlib Require Import Sorting.Sorted Sorting.Permutation.
Import ListNotations.
Open Scope string_scope.

Set Implicit Arguments.

(* ------------------------------------------------------------------ *)
(** ** Strings *)

Module Str.

Definition code (c : ascii) : nat := nat_of_ascii c.

Definition in_range (lo hi : nat) (c : ascii) : bool :=
  ((lo <=? code c) && (code c <=? hi))%nat.

Definition is_upper : ascii -> bool := in_range 65 90.
Definition is_lower : ascii -> bool := in_range 97 122.
Definition is_digit : ascii -> bool := in_range 48 57.

(** The character class [[a-zA-Z]]. *)
Definition is_letter (c : ascii) : bool := is_upper c || is_lower c.

(** The character class [[a-z0-9]]. *)
Definition is_lower_alnum (c : ascii) : bool := is_lower c || is_digit c.

(** [str.isspace] on ASCII: tab, LF, VT, FF, CR, FS, GS, RS, US, space. *)
Definition is_space (c : ascii) : bool :=
  in_range 9 13 c || in_range 28 32 c.

Definition lower_char (c : ascii) : ascii :=
  if is_upper c then ascii_of_nat (code c + 32) else c.

(** [s.lower()] *)
Fixpoint lower (s : string) : string :=
  match s with
  | EmptyString => EmptyString
  | String c s' => String (lower_char c) (lower s')
  end.

(** [re.sub(r'[^a-z0-9]+', '', s)]: every run of characters outside
    [[a-z0-9]] is deleted. *)
Fixpoint drop_non_alnum (s : string) : string :=
  match s with
  | EmptyString => EmptyString
  | String c s' =>
      if is_lower_alnum c then String c (drop_non_alnum s') else drop_non_alnum s'
  end.

(** [x.startswith(y)] *)
Definition startswith (x y : string) : bool := String.prefix y x.

Fixpoint lstrip (s : string) : string :=
  match s with
  | EmptyString => EmptyString
  | String c s' => if is_space c then lstrip s' else s
  end.

Fixpoint rstrip (s : string) : string :=
  match s with
  | EmptyString => EmptyString
  | String c s' =>
      match rstrip s' with
      | EmptyString => if is_space c then EmptyString else String c EmptyString
      | r => String c r
      end
  end.

(** [s.strip()] *)
Definition strip (s : string) : string := rstrip (lstrip s).

Definition is_m (c : ascii) : bool := ((code c =? 109) || (code c =? 77))%nat.
Definition is_b (c : ascii) : bool := ((code c =? 98) || (code c =? 66))%nat.

(** The lookbehind [(?<![^a-zA-Z])]: it fails exactly when a character
    precedes and that character is not a letter. *)
Definition lookbehind_ok (prev : option ascii) : bool :=
  match prev with
  | None => true
  | Some p => negb (negb (is_letter p))
  end.

(** The lookahead [(?![^a-zA-Z])]: it fails exactly when a character follows
    and that character is not a letter. *)
Definition lookahead_ok (rest : string) : bool :=
  match rest with
  | EmptyString => true
  | String n _ => negb (negb (is_letter n))
  end.

(** [re.sub(r"(?<![^a-zA-Z])([mM][bB])(?![^a-zA-Z])", "millibar", s)],
    scanning left to right; [prev] is the character before the cursor. A
    match consumes its two characters and the scan goes on behind them. *)
Fixpoint sub_mb (prev : option ascii) (s : string) : string :=
  match s with
  | EmptyString => EmptyString
  | String c1 rest =>
      match rest with
      | EmptyString => String c1 EmptyString
      | String c2 rest2 =>
          if lookbehind_ok prev && (is_m c1 && is_b c2) && lookahead_ok rest2
          then "millibar" ++ sub_mb (Some c2) rest2
          else String c1 (sub_mb (Some c1) rest)
      end
  end.

(** [s1 in s2] for strings. *)
Fixpoint contains (sub s : string) : bool :=
  String.prefix sub s ||
  match s with
  | EmptyString => false
  | String _ s' => contains sub s'
  end.

Fixpoint insert_sorted (x : string) (l : list string) : list string :=
  match l with
  | [] => [x]
  | y :: l' => if String.leb x y then x :: l else y :: insert_sorted x l'
  end.

(** [sorted(v)] on a list of strings. *)
Definition sorted (l : list string) : list string :=
  fold_right insert_sorted [] l.

End Str.

(* ------------------------------------------------------------------ *)
(** ** Attribute values, messages, exceptions *)

(** An attribute value. [ATTR_NOT_FOUND] is the sentinel of the module;
    [VUnits] is a unit object as [units.to_cfunits] builds it, named by its
    definition; [VArray] is a [DataArray] of the dataset, named by its
    variable. *)
Inductive value : Type :=
| ATTR_NOT_FOUND
| VNone
| VStr (s : string)
| VNum (z : Z)
| VUnits (definition : string)
| VArray (name : string).

Definition value_eqb (a b : value) : bool :=
  match a, b with
  | ATTR_NOT_FOUND, ATTR_NOT_FOUND => true
  | VNone, VNone => true
  | VStr x, VStr y => String.eqb x y
  | VNum x, VNum y => Z.eqb x y
  | VUnits x, VUnits y => String.eqb x y
  | VArray x, VArray y => String.eqb x y
  | _, _ => false
  end.

(** Python truth value: [None], the empty string and zero are false; the
    sentinel is an ordinary object, hence true. *)
Definition truthy (v : value) : bool :=
  match v with
  | VNone => false
  | VStr s => negb (String.eqb s "")
  | VNum z => negb (Z.eqb z 0)
  | _ => true
  end.

(** A formatted message before rendering: the literal pieces of the f-string
    and the values interpolated into it. *)
Inductive fragment : Type :=
| Lit (s : string)
| Fmt (v : value).

Definition message : Type := list fragment.

Inductive exn : Type :=
| KeyError (key : string)
| NameError (name : string)
| IndexError
| AssertionError
| AttributeError (what : string)
| TypeError (msg : message)
| ValueError (msg : message).

Inductive res (A : Type) : Type :=
| Ok (a : A)
| Err (e : exn).

Arguments Ok {A} a.
Arguments Err {A} e.

Definition rbind {A B} (c : res A) (k : A -> res B) : res B :=
  match c with
  | Ok a => k a
  | Err e => Err e
  end.

Declare Scope res_scope.
Delimit Scope res_scope with res.
Notation "x <- c ;; k" := (rbind c (fun x => k))
  (at level 61, c at next level, right associativity) : res_scope.
Notation "c ;;; k" := (rbind c (fun _ => k))
  (at level 61, right associativity) : res_scope.

(** Reading [self.log] inside a [@staticmethod]: [self] is neither a
    parameter nor a module-level name. *)
Definition static_self_log : res unit := Err (NameError "self").

(* ------------------------------------------------------------------ *)
(** ** Dictionaries *)

(** An insertion-ordered mapping with string keys; the operations below keep
    the keys of a mapping distinct, as those of a Python dict are. *)
Definition mapping (V : Type) : Type := list (string * V).

Definition dict : Type := mapping value.

Fixpoint dict_get {V} (d : mapping V) (k : string) : option V :=
  match d with
  | [] => None
  | (k', v) :: d' => if String.eqb k' k then Some v else dict_get d' k
  end.

(** [k in d] *)
Definition dict_in {V} (k : string) (d : mapping V) : bool :=
  match dict_get d k with Some _ => true | None => false end.

(** [d[k] = v]: an existing key keeps its place, a new one goes last. *)
Fixpoint dict_set {V} (d : mapping V) (k : string) (v : V) : mapping V :=
  match d with
  | [] => [(k, v)]
  | (k', v') :: d' =>
      if String.eqb k' k then (k', v) :: d' else (k', v') :: dict_set d' k v
  end.

(** [del d[k]] *)
Fixpoint dict_del {V} (d : mapping V) (k : string) : mapping V :=
  match d with
  | [] => []
  | (k', v') :: d' =>
      if String.eqb k' k then dict_del d' k else (k', v') :: dict_del d' k
  end.

(** [d.keys()] *)
Definition dict_keys {V} (d : mapping V) : list string := map fst d.

(** [d.get(k, default)] *)
Definition dict_get_default {V} (d : mapping V) (k : string) (default : V) : V :=
  match dict_get d k with Some v => v | None => default end.

(** [d1.update(d2)] *)
Definition dict_update {V} (d1 d2 : mapping V) : mapping V :=
  fold_left (fun acc kv => dict_set acc (fst kv) (snd kv)) d2 d1.

(* ------------------------------------------------------------------ *)
(** ** Attribute normaliser *)

Definition _cf_calendars : list string :=
  [ "gregorian"; "standard"; "proleptic_gregorian"; "julian"; "noleap";
    "365_day"; "all_leap"; "366_day"; "360_day"; "none" ].

(** [sum(...)] over booleans. *)
Fixpoint sum_bool (l : list bool) : nat :=
  match l with
  | [] => 0
  | b :: l' => ((if b then 1 else 0) + sum_bool l')%nat
  end.

(** [str_munge] of [guess_attr]: lower case, then drop every character that
    is not a lower-case letter or a digit. *)
Definition str_munge (s : string) : string :=
  Str.drop_non_alnum (Str.lower s).

(** [guess_attr(attr_desc, attr_name, options, default, comparison_func)];
    [options] is the list [util.to_iter] makes of the keys or names given.
    Both statements that log do so through [self]. *)
Definition guess_attr (attr_desc attr_name : string) (options : list string)
    (default : option string)
    (comparison_func : option (string -> string -> bool)) : res string :=
  let comparison_func :=
    match comparison_func with
    | None => fun x y => String.eqb x y
    | Some f => f
    end in
  let test_count :=
    sum_bool (map (fun opt => comparison_func opt attr_name) options) in
  (_ <- (if (1 <? test_count)%nat then static_self_log else Ok tt) ;;
   if (1 <=? test_count)%nat then Ok attr_name
   else
     let munged_opts :=
       map (fun opt =>
              (comparison_func (str_munge opt) (str_munge attr_name), opt))
           options in
     if (sum_bool (map fst munged_opts) =? 1)%nat then
       guessed_attr <-
         match map snd (filter fst munged_opts) with
         | g :: _ => Ok g
         | [] => Err IndexError
         end ;;
       static_self_log ;;;
       Ok guessed_attr
     else
       match default with
       | Some dflt => Ok dflt
       | None => Err (KeyError attr_name)
       end)%res.

(** [normalize_attr(new_attr_d, d, key_name, key_startswith)]. The result is
    the new content of [new_attr_d]; [d] is only read, and every read comes
    before the single write, so the same function describes the call where
    both names denote one dict. *)
Definition normalize_attr (new_attr_d d : dict) (key_name : string)
    (key_startswith : option string) : res dict :=
  (k <-
     match guess_attr key_name key_name (dict_keys d) None None with
     | Ok k => Ok (Some k)
     | Err (KeyError _) =>
         match key_startswith with
         | None => Ok None
         | Some pre =>
             match guess_attr key_name pre (dict_keys d) None
                     (Some Str.startswith) with
             | Ok k => Ok (Some k)
             | Err (KeyError _) => Ok None
             | Err e => Err e
             end
         end
     | Err e => Err e
     end ;;
   match k with
   | None => Ok (dict_set new_attr_d key_name ATTR_NOT_FOUND)
   | Some k =>
       if negb (String.eqb k key_name) then
         Ok (dict_set new_attr_d key_name (dict_get_default d k ATTR_NOT_FOUND))
       else
         match dict_get d key_name with
         | Some v => Ok (dict_set new_attr_d key_name v)
         | None => Err (KeyError key_name)
         end
   end)%res.

Definition normalize_standard_name (new_attr_d attr_d : dict) : res dict :=
  normalize_attr new_attr_d attr_d "standard_name" (Some "standard").

(** [normalize_unit(new_attr_d, attr_d)]; [re.sub] accepts a string only. *)
Definition normalize_unit (new_attr_d attr_d : dict) : res dict :=
  (new_attr_d <- normalize_attr new_attr_d attr_d "units" (Some "unit") ;;
   match dict_get new_attr_d "units" with
   | None => Err (KeyError "units")
   | Some ATTR_NOT_FOUND => Ok new_attr_d
   | Some (VStr unit_str) =>
       Ok (dict_set new_attr_d "units" (VStr (Str.sub_mb None unit_str)))
   | Some _ => Err (TypeError [Lit "expected string or bytes-like object"])
   end)%res.

(** [normalize_calendar(attr_d)] with [self.fallback_cal] as [fallback_cal];
    the result is the new content of [attr_d]. A value that is not a string
    reaches [s.lower()] in [str_munge]. *)
Definition normalize_calendar (fallback_cal : string) (attr_d : dict) : res dict :=
  (attr_d <- normalize_attr attr_d attr_d "calendar" (Some "cal") ;;
   match dict_get attr_d "calendar" with
   | None => Err (KeyError "calendar")
   | Some ATTR_NOT_FOUND => Ok (dict_del attr_d "calendar")
   | Some (VStr cal) =>
       c <- guess_attr "calendar" cal _cf_calendars (Some fallback_cal) None ;;
       Ok (dict_set attr_d "calendar" (VStr c))
   | Some _ => Err (AttributeError "lower")
   end)%res.

(** The comparison [guess_attr] uses: [comparison_func], or equality. *)
Definition compare_with (comparison_func : option (string -> string -> bool))
    : string -> string -> bool :=
  match comparison_func with
  | None => fun x y => String.eqb x y
  | Some f => f
  end.

(** No key of [keys] spells [key_name]: none is [key_name] or folds to it,
    and none starts with [key_startswith], verbatim or folded. These are the
    four comparisons [normalize_attr] makes through [guess_attr]. *)
Definition no_spelling_of (key_name key_startswith : string)
    (keys : list string) : bool :=
  forallb (fun k =>
             negb (String.eqb k key_name)
             && negb (String.eqb (str_munge k) (str_munge key_name))
             && negb (Str.startswith k key_startswith)
             && negb (Str.startswith (str_munge k) (str_munge key_startswith)))
          keys.

(* ------------------------------------------------------------------ *)
(** ** Mutable state and exceptions *)

(** The result of running a method on the objects [S] it can mutate: it
    returns, or an exception propagates; both carry the state reached. *)
Inductive outcome (S A : Type) : Type :=
| Returns (s : S) (a : A)
| Raises (s : S) (e : exn).

Arguments Returns {S A} s a.
Arguments Raises {S A} s e.

Definition M (S A : Type) : Type := S -> outcome S A.

Definition ret {S A} (a : A) : M S A := fun s => Returns s a.
Definition raise {S A} (e : exn) : M S A := fun s => Raises s e.

Definition bind {S A B} (c : M S A) (k : A -> M S B) : M S B :=
  fun s =>
    match c s with
    | Returns s' a => k a s'
    | Raises s' e => Raises s' e
    end.

Definition get {S} : M S S := fun s => Returns s s.
Definition put {S} (s : S) : M S unit := fun _ => Returns s tt.
Definition modify {S} (f : S -> S) : M S unit := fun s => Returns (f s) tt.

(** A computation that only raises or returns a value. *)
Definition lift {S A} (r : res A) : M S A :=
  fun s => match r with Ok a => Returns s a | Err e => Raises s e end.

(** Run [c] on the part [view s] of the state and store what it leaves. *)
Definition zoom {S T A} (view : S -> T) (store : S -> T -> S) (c : M T A)
    : M S A :=
  fun s =>
    match c (view s) with
    | Returns t a => Returns (store s t) a
    | Raises t e => Raises (store s t) e
    end.

(** [try: c  except <caught>: handler] *)
Definition try_except {S A} (c : M S A) (caught : exn -> bool)
    (handler : exn -> M S A) : M S A :=
  fun s =>
    match c s with
    | Returns s' a => Returns s' a
    | Raises s' e => if caught e then handler e s' else Raises s' e
    end.

Declare Scope m_scope.
Delimit Scope m_scope with M.
Notation "x <- c ;; k" := (bind c (fun x => k))
  (at level 61, c at next level, right associativity) : m_scope.
Notation "c ;;; k" := (bind c (fun _ => k))
  (at level 61, right associativity) : m_scope.

Definition is_KeyError (e : exn) : bool :=
  match e with KeyError _ => true | _ => false end.
Definition is_TypeError (e : exn) : bool :=
  match e with TypeError _ => true | _ => false end.
Definition is_ValueError (e : exn) : bool :=
  match e with ValueError _ => true | _ => false end.

(* ------------------------------------------------------------------ *)
(** ** The parser object, datasets, expected variables *)

Inductive level : Type := DEBUG | WARNING | ERROR.

Inductive log_arg : Type :=
| AStr (s : string)
| AVal (v : value)
| AExn (e : exn).

(** One call of a logger method: the level, the format string and the
    arguments the call passes (an f-string of the source is a format string
    without arguments). *)
Record log_record : Type := LogRecord
  { lr_level : level; lr_format : string; lr_args : list log_arg }.

(** [DatasetParser]; [log] is [None] until [parse] sets it. *)
Record DatasetParser : Type := mkDatasetParser
  { skip_std_name : bool;
    skip_units : bool;
    fallback_cal : string;
    attrs_backup : dict;
    var_attrs_restore : mapping dict;
    log : option (list log_record) }.

(** [DatasetParser.__init__]: [config] is the empty dict. *)
Definition __init__ : DatasetParser :=
  {| skip_std_name := false;
     skip_units := false;
     fallback_cal := "proleptic_gregorian";
     attrs_backup := [];
     var_attrs_restore := [];
     log := None |}.

Definition set_attrs_backup (p : DatasetParser) (d : dict) : DatasetParser :=
  {| skip_std_name := skip_std_name p; skip_units := skip_units p;
     fallback_cal := fallback_cal p; attrs_backup := d;
     var_attrs_restore := var_attrs_restore p; log := log p |}.

Definition set_var_attrs_restore (p : DatasetParser) (m : mapping dict)
    : DatasetParser :=
  {| skip_std_name := skip_std_name p; skip_units := skip_units p;
     fallback_cal := fallback_cal p; attrs_backup := attrs_backup p;
     var_attrs_restore := m; log := log p |}.

Definition set_log (p : DatasetParser) (l : option (list log_record))
    : DatasetParser :=
  {| skip_std_name := skip_std_name p; skip_units := skip_units p;
     fallback_cal := fallback_cal p; attrs_backup := attrs_backup p;
     var_attrs_restore := var_attrs_restore p; log := l |}.

(** [self.log.<level>(format, *args)] in a method of the parser. *)
Definition self_log (lvl : level) (format : string) (args : list log_arg)
    : M DatasetParser unit :=
  fun p =>
    match log p with
    | None => Raises p (AttributeError "log")
    | Some records =>
        Returns (set_log p (Some (records ++ [LogRecord lvl format args])%list)) tt
    end.

(** A variable of the dataset as [ds[name]] hands it out; its [attrs] dict is
    the one stored in the dataset. *)
Record DataArray : Type := mkDataArray
  { da_name : string; da_attrs : dict; da_dims : list string }.

Definition set_da_attrs (da : DataArray) (d : dict) : DataArray :=
  {| da_name := da_name da; da_attrs := d; da_dims := da_dims da |}.

Record Dataset : Type := mkDataset
  { ds_attrs : dict; ds_variables : mapping DataArray }.

Definition set_ds_attrs (ds : Dataset) (d : dict) : Dataset :=
  {| ds_attrs := d; ds_variables := ds_variables ds |}.

Definition set_ds_variables (ds : Dataset) (vs : mapping DataArray) : Dataset :=
  {| ds_attrs := ds_attrs ds; ds_variables := vs |}.

(** Store the attribute dict [d] on variable [var] of [ds]. *)
Definition set_var_attrs (ds : Dataset) (var : string) (d : dict) : Dataset :=
  match dict_get (ds_variables ds) var with
  | Some da => set_ds_variables ds (dict_set (ds_variables ds) var (set_da_attrs da d))
  | None => ds
  end.

Definition var_attrs (ds : Dataset) (var : string) : dict :=
  match dict_get (ds_variables ds) var with
  | Some da => da_attrs da
  | None => []
  end.

(* ------------------------------------------------------------------ *)
(** ** Normalising and restoring the attributes of a dataset *)

Definition strip_ (v : value) : value :=
  match v with
  | VStr s => VStr (Str.strip s)
  | _ => v
  end.

(** [{strip_(k): strip_(v) for k,v in d.items()}] *)
Definition strip_attrs (d : dict) : dict :=
  fold_left (fun acc kv => dict_set acc (Str.strip (fst kv)) (strip_ (snd kv)))
            d [].

(** The body of the loop of [normalize_ds_attrs] for a variable with
    attributes [attrs]: the dict it stores in [var_attrs_restore]. *)
Definition normalized_var_attrs (fallback : string) (attrs : dict) : res dict :=
  let d := strip_attrs attrs in
  (new_d <- normalize_standard_name [] d ;;
   new_d <- normalize_unit new_d d ;;
   d <- normalize_calendar fallback d ;;
   Ok (dict_update d new_d))%res.

Definition lookup_or_KeyError {V} (d : mapping V) (k : string) : res V :=
  match dict_get d k with
  | Some v => Ok v
  | None => Err (KeyError k)
  end.

Fixpoint normalize_vars (vars : list string) : M (DatasetParser * Dataset) unit :=
  match vars with
  | [] => ret tt
  | var :: rest =>
      (st <- get ;;
       da <- lift (lookup_or_KeyError (ds_variables (snd st)) var) ;;
       entry <- lift (normalized_var_attrs (fallback_cal (fst st)) (da_attrs da)) ;;
       put (set_var_attrs_restore (fst st)
              (dict_set (var_attrs_restore (fst st)) var entry), snd st) ;;;
       normalize_vars rest)%M
  end.

Definition normalize_ds_attrs : M (DatasetParser * Dataset) unit :=
  (st <- get ;;
   let ds := set_ds_attrs (snd st) (strip_attrs (ds_attrs (snd st))) in
   put (set_attrs_backup (fst st) (ds_attrs ds), ds) ;;;
   normalize_vars (dict_keys (ds_variables ds)))%M.

(** [_restore_one(name, backup_d, attrs_d)] of [restore_attrs], on the items
    of [backup_d]; the state holds the parser (for its log) and [attrs_d]. *)
Fixpoint _restore_one (name : string) (items : list (string * value))
    : M (DatasetParser * dict) unit :=
  match items with
  | [] => ret tt
  | (k, v) :: rest =>
      (modify (fun st =>
                 (fst st,
                  if negb (dict_in k (snd st)) then dict_set (snd st) k v
                  else snd st)) ;;;
       st <- get ;;
       cur <- lift (lookup_or_KeyError (snd st) k) ;;
       (if negb (value_eqb v cur) && negb (value_eqb v ATTR_NOT_FOUND) then
          zoom fst (fun st p => (p, snd st))
            (self_log DEBUG "%s: discrepancy for attr '%s': '%s' != '%s'."
               [AStr name; AStr k; AVal v; AVal cur])
        else ret tt) ;;;
       _restore_one name rest)%M
  end.

Fixpoint restore_vars (vars : list string) : M (DatasetParser * Dataset) unit :=
  match vars with
  | [] => ret tt
  | var :: rest =>
      (st <- get ;;
       backup <- lift (lookup_or_KeyError (var_attrs_restore (fst st)) var) ;;
       zoom (fun st => (fst st, var_attrs (snd st) var))
            (fun st t => (fst t, set_var_attrs (snd st) var (snd t)))
            (_restore_one var backup) ;;;
       restore_vars rest)%M
  end.

Definition restore_attrs : M (DatasetParser * Dataset) unit :=
  (st <- get ;;
   zoom (fun st => (fst st, ds_attrs (snd st)))
        (fun st t => (fst t, set_ds_attrs (snd st) (snd t)))
        (_restore_one "Dataset" (attrs_backup (fst st))) ;;;
   st <- get ;;
   restore_vars (dict_keys (ds_variables (snd st))))%M.

(* ------------------------------------------------------------------ *)
(** ** Final presence checks *)

(** [check_unit(ds_var)] *)
Definition check_unit (ds_var : DataArray) : M DatasetParser unit :=
  (p <- get ;;
   if value_eqb (dict_get_default (da_attrs ds_var) "units" ATTR_NOT_FOUND)
                ATTR_NOT_FOUND then
     if skip_units p then
       self_log WARNING
                ("'units' attribute not found on " ++ da_name ds_var ++ ".") []
     else
       raise (TypeError
                [Lit "Netcdf metadata attribute 'units' not found on variable ";
                 Lit (da_name ds_var);
                 Lit ". Please provide this attribute in input model data or run with --disable_unit_checks."])
   else ret tt)%M.

(** [check_standard_name(ds_var)] *)
Definition check_standard_name (ds_var : DataArray) : M DatasetParser unit :=
  (p <- get ;;
   if value_eqb (dict_get_default (da_attrs ds_var) "standard_name" ATTR_NOT_FOUND)
                ATTR_NOT_FOUND then
     if skip_std_name p then
       self_log WARNING
                ("'standard_name' attribute not found on " ++ da_name ds_var
                 ++ ".") []
     else
       raise (TypeError
                [Lit "Netcdf metadata attribute 'standard_name' not found on variable ";
                 Lit (da_name ds_var);
                 Lit ". Please provide this attribute in input model data or run with --disable_CF_name_checks."])
   else ret tt)%M.

(* ------------------------------------------------------------------ *)
(** ** Attribute reconciler *)

(** The unit subsystem [src.units], which the module only calls. *)
Class Units : Type :=
  { units_equivalent : value -> value -> bool;
    units_equal : value -> value -> bool;
    to_cfunits : value -> value }.

(** The expected-variable record (a variable or a coordinate of the data
    request): its declared fields, and [ov_extra] for attributes set on it
    with [setattr] beyond those. *)
Record OurVar : Type := mkOurVar
  { ov_name : value;
    ov_standard_name : value;
    ov_units : value;
    ov_axis : value;
    ov_bounds_var : value;
    ov_extra : dict }.

(** [getattr(our_var, attr)] *)
Definition getattr (v : OurVar) (attr : string) : res value :=
  if String.eqb attr "name" then Ok (ov_name v)
  else if String.eqb attr "standard_name" then Ok (ov_standard_name v)
  else if String.eqb attr "units" then Ok (ov_units v)
  else if String.eqb attr "axis" then Ok (ov_axis v)
  else if String.eqb attr "bounds_var" then Ok (ov_bounds_var v)
  else match dict_get (ov_extra v) attr with
       | Some x => Ok x
       | None => Err (AttributeError attr)
       end.

(** [setattr(our_var, attr, x)] *)
Definition setattr (v : OurVar) (attr : string) (x : value) : OurVar :=
  if String.eqb attr "name" then
    mkOurVar x (ov_standard_name v) (ov_units v) (ov_axis v) (ov_bounds_var v) (ov_extra v)
  else if String.eqb attr "standard_name" then
    mkOurVar (ov_name v) x (ov_units v) (ov_axis v) (ov_bounds_var v) (ov_extra v)
  else if String.eqb attr "units" then
    mkOurVar (ov_name v) (ov_standard_name v) x (ov_axis v) (ov_bounds_var v) (ov_extra v)
  else if String.eqb attr "axis" then
    mkOurVar (ov_name v) (ov_standard_name v) (ov_units v) x (ov_bounds_var v) (ov_extra v)
  else if String.eqb attr "bounds_var" then
    mkOurVar (ov_name v) (ov_standard_name v) (ov_units v) (ov_axis v) x (ov_extra v)
  else
    mkOurVar (ov_name v) (ov_standard_name v) (ov_units v) (ov_axis v) (ov_bounds_var v)
             (dict_set (ov_extra v) attr x).

(** [str(v)] *)
Definition py_str (v : value) : string :=
  match v with
  | ATTR_NOT_FOUND => "sentinel.AttrNotFound"
  | VNone => "None"
  | VStr s => s
  | VNum z => NilZero.string_of_int (Z.to_int z)
  | VUnits d => d
  | VArray n => n
  end.

(** [tiebreaker not in [None, 'our_var', 'ds']] *)
Definition bad_tiebreaker (tiebreaker : option string) : bool :=
  match tiebreaker with
  | None => false
  | Some t => negb (String.eqb t "our_var" || String.eqb t "ds")
  end.

Definition mismatch_message (our_attr_name : string) (our_name ds_attr our_attr : value)
    : message :=
  [ Lit "Found unexpected "; Lit our_attr_name; Lit " for variable '";
    Fmt our_name; Lit "': '"; Fmt ds_attr; Lit "' (expected '"; Fmt our_attr;
    Lit "')." ].

(** [compare_attr((our_var, our_attr_name, our_attr),
                  (ds_var, ds_attr_name, ds_attr), ...)]. The two objects of
    the tuples are the state: [our_var], and [ds_var], which is [None] in the
    call that [reconcile_name] makes. *)
Definition compare_attr (our_attr_name : string) (our_attr : value)
    (ds_attr_name : string) (ds_attr : value)
    (comparison_func : option (value -> value -> bool))
    (update_our_var update_ds : bool) (tiebreaker : option string)
    : M (OurVar * option DataArray) unit :=
  let comparison_func :=
    match comparison_func with
    | None => value_eqb
    | Some f => f
    end in
  let can_update_our_var :=
    update_our_var && negb (value_eqb ds_attr ATTR_NOT_FOUND) in
  (if bad_tiebreaker tiebreaker then raise (ValueError [])
   else if value_eqb ds_attr ATTR_NOT_FOUND || negb (truthy ds_attr) then
     if update_ds then
       lift static_self_log ;;;
       st <- get ;;
       match snd st with
       | None => raise (AttributeError "attrs")
       | Some ds_var =>
           put (fst st,
                Some (set_da_attrs ds_var
                        (dict_set (da_attrs ds_var) ds_attr_name
                                  (VStr (py_str our_attr)))))
       end
     else
       st <- get ;;
       raise (TypeError [Lit "No "; Lit ds_attr_name; Lit " for '";
                         Fmt (ov_name (fst st)); Lit "' (= "; Fmt our_attr;
                         Lit ") found in dataset."])
   else if negb (truthy our_attr) then
     if can_update_our_var then
       st <- get ;;
       (if negb (String.eqb our_attr_name "name"
                 && value_eqb (ov_name (fst st)) ds_attr)
        then lift static_self_log else ret tt) ;;;
       modify (fun st => (setattr (fst st) our_attr_name ds_attr, snd st))
     else
       st <- get ;;
       raise (TypeError [Lit "'"; Fmt (ov_name (fst st)); Lit "' not set but ";
                         Lit ds_attr_name; Lit " (= "; Fmt ds_attr;
                         Lit ") present in dataset."])
   else if negb (comparison_func our_attr ds_attr) then
     (if can_update_our_var then
        modify (fun st => (setattr (fst st) our_attr_name ds_attr, snd st))
      else ret tt) ;;;
     st <- get ;;
     raise (ValueError (mismatch_message our_attr_name (ov_name (fst st))
                                         ds_attr our_attr))
   else ret tt)%M.

Definition on_self {T A} (c : M DatasetParser A) : M (DatasetParser * T) A :=
  zoom fst (fun st p => (p, snd st)) c.

Definition on_objects {T A} (c : M T A) : M (DatasetParser * T) A :=
  zoom snd (fun st t => (fst st, t)) c.

(** [reconcile_name(our_var, ds_var_name, update_name)] *)
Definition reconcile_name (ds_var_name : value) (update_name : bool)
    : M OurVar unit :=
  let attr_name := "name" in
  (our_var <- get ;;
   let our_attr := if update_name then VStr "" else ov_name our_var in
   zoom (fun v => (v, None)) (fun _ t => fst t)
        (compare_attr attr_name our_attr attr_name ds_var_name None
                      true false None))%M.

(** [reconcile_attr(our_var, ds_var, our_attr_name, ds_attr_name,
                    comparison_func, update_our_var, update_ds)] *)
Definition reconcile_attr (our_attr_name : string) (ds_attr_name : option string)
    (comparison_func : option (value -> value -> bool))
    (update_our_var update_ds : bool) : M (OurVar * DataArray) unit :=
  let ds_attr_name :=
    match ds_attr_name with
    | None => our_attr_name
    | Some n => n
    end in
  (st <- get ;;
   our_attr <- lift (getattr (fst st) our_attr_name) ;;
   let ds_attr := dict_get_default (da_attrs (snd st)) ds_attr_name ATTR_NOT_FOUND in
   zoom (fun st => (fst st, Some (snd st)))
        (fun st t => (fst t, match snd t with Some da => da | None => snd st end))
        (compare_attr our_attr_name our_attr ds_attr_name ds_attr
                      comparison_func update_our_var update_ds None))%M.

(** Run a method on [our_var] and the variable [ds[name]] of the dataset;
    what it does to the attributes of that variable is done to the dataset. *)
Definition on_ds_var {A} (name : string) (c : M (OurVar * DataArray) A)
    : M (OurVar * Dataset) A :=
  (st <- get ;;
   da <- lift (lookup_or_KeyError (ds_variables (snd st)) name) ;;
   zoom (fun st => (fst st, da))
        (fun st t => (fst t, set_var_attrs (snd st) name (da_attrs (snd t))))
        c)%M.

(** [reconcile_names(our_var, ds, ds_var_name, update_name)] *)
Definition reconcile_names (ds_var_name : string) (update_name : bool)
    : M (OurVar * Dataset) unit :=
  (st <- get ;;
   if negb (dict_in ds_var_name (ds_variables (snd st))) then
     raise (ValueError
              ([Lit "Variable name '"; Lit ds_var_name;
                Lit "' not found in dataset: ("]
               ++ map Lit (dict_keys (ds_variables (snd st))) ++ [Lit ")."])%list)
   else
     zoom fst (fun st v => (v, snd st))
          (reconcile_name (VStr ds_var_name) update_name) ;;;
     on_ds_var ds_var_name
       (reconcile_attr "standard_name" None None true true))%M.

Section WithUnits.
Context {U : Units}.

(** [reconcile_units(our_var, ds_var)] *)
Definition reconcile_units : M (DatasetParser * (OurVar * DataArray)) unit :=
  (st <- get ;;
   on_self (check_unit (snd (snd st))) ;;;
   on_objects
     (reconcile_attr "units" None (Some units_equivalent) true
                     (skip_units (fst st))) ;;;
   try_except
     (on_objects
        (reconcile_attr "units" None (Some units_equal) true
                        (skip_units (fst st))))
     is_ValueError
     (fun exc =>
        on_self (self_log WARNING "Caught %s." [AExn exc]) ;;;
        modify (fun st =>
                  (fst st,
                   (setattr (fst (snd st)) "units"
                            (to_cfunits (ov_units (fst (snd st)))),
                    snd (snd st))))))%M.

End WithUnits.

(* ------------------------------------------------------------------ *)
(** ** Axis and coordinate classifier *)

(** What the module consumes from the [cf_xarray] accessor.
    [axis_names ds var_name key] is
    [apply_mapper(_get_axis_coord, axes_obj, key, error=False)] with
    [axes_obj] the dataset ([var_name = None]) or [ds[var_name]];
    [get_bounds ds name] is [ds.cf.get_bounds(name)], giving the name of the
    bounds variable. *)
Class CFAccessor : Type :=
  { axis_names : Dataset -> option string -> string -> list string;
    get_bounds : Dataset -> string -> res string }.

(** [cf_xarray.accessor._AXIS_NAMES] *)
Definition _AXIS_NAMES : list string := ["X"; "Y"; "Z"; "T"].

Record PlaceholderScalarCoordinate : Type := mkPlaceholder
  { psc_name : string;
    psc_axis : string;
    psc_standard_name : value;
    psc_units : value }.

(** A coordinate as [axes] hands it out: a variable of the dataset or a
    placeholder for a name the dataset has no variable for. *)
Inductive coord : Type :=
| CoordArray (da : DataArray)
| CoordPlaceholder (c : PlaceholderScalarCoordinate).

(** A value of the dict [axes] returns: the one coordinate of the axis when
    a variable was named, the list of its coordinates otherwise. *)
Inductive axis_entry : Type :=
| One (c : coord)
| Many (cs : list coord).

Definition str_in (x : string) (l : list string) : bool :=
  existsb (String.eqb x) l.

(** [l.remove(x)] for [x] in [l]. *)
Fixpoint list_remove (x : string) (l : list string) : list string :=
  match l with
  | [] => []
  | y :: l' => if String.eqb y x then l' else y :: list_remove x l'
  end.

(** [{k: sorted(v) for k, v in vardict.items() if v}] *)
Definition sorted_nonempty (vardict : mapping (list string))
    : mapping (list string) :=
  map (fun kv => (fst kv, Str.sorted (snd kv)))
      (filter (fun kv => match snd kv with [] => false | _ => true end) vardict).

(** The validation loop of [_old_axes_dict] over [vardict.items()], with the
    lists it fills. *)
Fixpoint validate_axes (var_name : string) (items : mapping (list string))
    (empty_keys delete_keys dims_list : list string)
    : res (list string * list string * list string) :=
  match items with
  | [] => Ok (empty_keys, delete_keys, dims_list)
  | (k, v) :: rest =>
      match v with
      | _ :: _ :: _ =>
          Err (TypeError [Lit "Too many "; Lit k; Lit " axes for ";
                          Lit var_name; Lit "."])
      | [v0] =>
          if negb (str_in v0 dims_list) then
            validate_axes var_name rest empty_keys (delete_keys ++ [k])%list dims_list
          else
            validate_axes var_name rest empty_keys delete_keys
                          (list_remove v0 dims_list)
      | [] =>
          validate_axes var_name rest (empty_keys ++ [k])%list delete_keys dims_list
      end
  end.

Section WithAccessor.
Context {CF : CFAccessor}.

(** [_old_axes_dict(var_name)] on the accessor of dataset [ds]. *)
Definition _old_axes_dict (ds : Dataset) (var_name : option string)
    : res (mapping (list string)) :=
  match var_name with
  | None =>
      let vardict := map (fun key => (key, axis_names ds None key)) _AXIS_NAMES in
      Ok (sorted_nonempty vardict)
  | Some name =>
      (axes_obj <- lookup_or_KeyError (ds_variables ds) name ;;
       let vardict :=
         map (fun key => (key, axis_names ds (Some name) key)) _AXIS_NAMES in
       lists <- validate_axes name vardict [] [] (da_dims axes_obj) ;;
       let '(empty_keys, delete_keys, dims_list) := lists in
       vardict <-
         match dims_list with
         | [] => Ok vardict
         | [d] =>
             match empty_keys with
             | [e] => Ok (dict_set vardict e [d])
             | _ => Err (TypeError [Lit "Missing axes for "; Lit name; Lit "."])
             end
         | _ => Err (TypeError [Lit "Missing axes for "; Lit name; Lit "."])
         end ;;
       let vardict :=
         fold_left (fun vd k => dict_set vd k []) delete_keys vardict in
       Ok (sorted_nonempty vardict))%res
  end.

(** The inner loop of [axes] over the names [coord_names] of one axis. *)
Fixpoint collect_coords (ds : Dataset) (var_name : option string)
    (filter_set : option (list string)) (ax : string)
    (coord_names : list string) (new_coords : list coord) : res (list coord) :=
  match coord_names with
  | [] => Ok new_coords
  | c :: rest =>
      if String.eqb c ""
         || match filter_set with
            | Some fs => negb (str_in c fs)
            | None => false
            end
      then collect_coords ds var_name filter_set ax rest new_coords
      else
        match dict_get (ds_variables ds) c with
        | Some da =>
            collect_coords ds var_name filter_set ax rest
                           (new_coords ++ [CoordArray da])%list
        | None =>
            (match var_name with
             | Some name =>
                 var <- lookup_or_KeyError (ds_variables ds) name ;;
                 if str_in c (da_dims var) then Err AssertionError else Ok tt
             | None => Ok tt
             end ;;;
             collect_coords ds var_name filter_set ax rest
               (new_coords
                ++ [CoordPlaceholder
                      (mkPlaceholder c ax ATTR_NOT_FOUND ATTR_NOT_FOUND)])%list)%res
        end
  end.

(** The outer loop of [axes] over [axes_d.items()], filling the dict [d]. *)
Fixpoint fill_axes (ds : Dataset) (var_name : option string)
    (filter_set : option (list string)) (items : mapping (list string))
    (d : mapping axis_entry) : res (mapping axis_entry) :=
  match items with
  | [] => Ok d
  | (ax, coord_names) :: rest =>
      (new_coords <- collect_coords ds var_name filter_set ax coord_names [] ;;
       match new_coords with
       | [] => fill_axes ds var_name filter_set rest d
       | c0 :: more =>
           match var_name with
           | Some name =>
               match more with
               | [] => fill_axes ds var_name filter_set rest (dict_set d ax (One c0))
               | _ :: _ =>
                   Err (TypeError
                          ([Lit "More than one "; Lit ax; Lit " axis found for '";
                            Lit name; Lit "': "]
                           ++ map (fun c =>
                                     Lit match c with
                                         | CoordArray da => da_name da
                                         | CoordPlaceholder p => psc_name p
                                         end) new_coords
                           ++ [Lit "."])%list)
               end
           | None =>
               fill_axes ds var_name filter_set rest (dict_set d ax (Many new_coords))
           end
       end)%res
  end.

(** [axes(var_name, filter_set)] on the accessor of dataset [ds]. *)
Definition axes (ds : Dataset) (var_name : option string)
    (filter_set : option (list string)) : res (mapping axis_entry) :=
  (axes_d <- _old_axes_dict ds var_name ;;
   fill_axes ds var_name filter_set axes_d [])%res.

(** [ds.cf.get_bounds(name)]: the bounds variable, taken from the dataset
    under the name the accessor gives. *)
Definition ds_get_bounds (ds : Dataset) (name : string)
    : res (string * DataArray) :=
  (b <- get_bounds ds name ;;
   da <- lookup_or_KeyError (ds_variables ds) b ;;
   Ok (b, da))%res.

Section WithUnitsToo.
Context {U : Units}.

(** [reconcile_coord_bounds(our_coord, ds, ds_coord_name)] *)
Definition reconcile_coord_bounds (ds_coord_name : string)
    : M (DatasetParser * (OurVar * Dataset)) unit :=
  (st <- get ;;
   match ds_get_bounds (snd (snd st)) ds_coord_name with
   | Err (KeyError _) =>
       modify (fun st => (fst st, (setattr (fst (snd st)) "bounds_var" VNone,
                                   snd (snd st))))
   | Err e => raise e
   | Ok (b, bounds) =>
       on_objects (on_ds_var b
                     (reconcile_attr "standard_name" None None false true)) ;;;
       on_objects (on_ds_var b
                     (reconcile_attr "units" None (Some units_equal) false true)) ;;;
       st <- get ;;
       (if negb (value_eqb (ov_name (fst (snd st))) (VStr (da_name bounds))) then
          on_self (self_log DEBUG "Updating %s for '%s' to value '%s' from dataset."
                     [AStr "bounds"; AVal (ov_name (fst (snd st)));
                      AStr (da_name bounds)])
        else ret tt) ;;;
       modify (fun st => (fst st, (setattr (fst (snd st)) "bounds_var"
                                           (VArray (da_name bounds)),
                                   snd (snd st))))
   end)%M.

End WithUnitsToo.
End WithAccessor.

(* ------------------------------------------------------------------ *)
(** ** The patch of the accessor *)

(** [_ax_to_coord] of [patch_cf_xarray_accessor] *)
Definition _ax_to_coord : mapping (list string) :=
  [ ("X", ["longitude"]); ("Y", ["latitude"]); ("Z", ["vertical"]);
    ("T", ["time"]) ].

(** [new_get_axis_coord(var, key)], the function [patch_cf_xarray_accessor]
    puts in the place of [old_get_axis_coord]. *)
Definition new_get_axis_coord {Obj : Type}
    (old_get_axis_coord : Obj -> string -> list string)
    (var : Obj) (key : string) : list string :=
  let var_names := old_get_axis_coord var key in
  if match var_names with [] => false | _ => true end
     || negb (dict_in key _ax_to_coord)
  then var_names
  else
    fold_left (fun var_names new_key =>
                 (var_names ++ old_get_axis_coord var new_key)%list)
              (dict_get_default _ax_to_coord key []) var_names.

(* ------------------------------------------------------------------ *)
(** ** Formula terms *)

Definition is_colon (c : ascii) : bool := (Str.code c =? 58)%nat.

(** [re.sub(r"\s*:\s*", ":", s)], scanning left to right. [pending] is the
    white space read since the last other character: a colon drops it, any
    other character puts it out. [after_colon] says that the scan is in the
    white space behind the colon of a match, which the match takes. *)
Fixpoint sub_colon (after_colon : bool) (pending s : string) : string :=
  match s with
  | EmptyString => pending
  | String c s' =>
      if is_colon c then String c (sub_colon true EmptyString s')
      else if Str.is_space c then
        if after_colon then sub_colon true EmptyString s'
        else sub_colon false (pending ++ String c EmptyString) s'
      else pending ++ String c (sub_colon false EmptyString s')
  end.

(** [s.split()]: the maximal runs of characters that are not white space;
    [cur] is the run being read. *)
Fixpoint split_ws (cur s : string) : list string :=
  match s with
  | EmptyString => if String.eqb cur "" then [] else [cur]
  | String c s' =>
      if Str.is_space c then
        if String.eqb cur "" then split_ws EmptyString s'
        else cur :: split_ws EmptyString s'
      else split_ws (cur ++ String c EmptyString) s'
  end.

(** [s.split(":")]; [cur] is the piece being read. *)
Fixpoint split_colon (cur s : string) : list string :=
  match s with
  | EmptyString => [cur]
  | String c s' =>
      if is_colon c then cur :: split_colon EmptyString s'
      else split_colon (cur ++ String c EmptyString) s'
  end.

(** The loop of [formula_terms] over the mappings, filling [terms];
    [key, value = mapping.split(":")] needs exactly two pieces. *)
Fixpoint read_terms (mappings : list string) (terms : mapping string)
    : res (mapping string) :=
  match mappings with
  | [] => Ok terms
  | m :: rest =>
      match split_colon EmptyString m with
      | [key; value] => read_terms rest (dict_set terms key value)
      | [_] => Err (ValueError
                      [Lit "not enough values to unpack (expected 2, got 1)"])
      | _ => Err (ValueError [Lit "too many values to unpack (expected 2)"])
      end
  end.

(** The property [formula_terms] of the accessor of a [DataArray] with
    attributes [attrs]. *)
Definition formula_terms (attrs : dict) : res (mapping string) :=
  match dict_get_default attrs "formula_terms" (VStr "") with
  | VStr formula_terms =>
      read_terms (split_ws EmptyString
                    (sub_colon false EmptyString formula_terms)) []
  | _ => Err (TypeError [Lit "expected string or bytes-like object"])
  end.

(* ------------------------------------------------------------------ *)
(** ** Notions used in the statements *)

(** What [_restore_one] makes of [attrs_d]: each item of the backup whose key
    [attrs_d] lacks is added, in turn. *)
Definition restored (items : list (string * value)) (attrs_d : dict) : dict :=
  fold_left (fun a kv =>
               if negb (dict_in (fst kv) a) then dict_set a (fst kv) (snd kv)
               else a)
            items attrs_d.

(** [a'] has every attribute of [a], with its value. *)
Definition extends (a a' : dict) : Prop :=
  forall k v, dict_get a k = Some v -> dict_get a' k = Some v.

(** The entry of [var] in the backup is what the normaliser makes of the
    attributes of [var] in [ds]. *)
Definition entry_of (fallback : string) (ds : Dataset) (m : mapping dict)
    (var : string) (e : dict) : Prop :=
  dict_get m var = Some e
  /\ normalized_var_attrs fallback (var_attrs ds var) = Ok e.

(** What [restore_vars] leaves of a variable, given its backup entry [e]:
    the keys of [e] are there, and a key the variable lacked has the value
    it has in [e]. *)
Definition var_restored (ds ds' : Dataset) (var : string) (e : dict) : Prop :=
  (forall k, In k (dict_keys e) -> dict_in k (var_attrs ds' var) = true)
  /\ (forall k v, dict_get (var_attrs ds var) k = None ->
        dict_get e k = Some v -> dict_get (var_attrs ds' var) k = Some v).

(** The state in which a method returns or raises. *)
Definition state_after {S A} (o : outcome S A) : S :=
  match o with
  | Returns s _ => s
  | Raises s _ => s
  end.

(** The string has an "m" followed by a "b", in either case. *)
Fixpoint has_mb (s : string) : bool :=
  match s with
  | EmptyString => false
  | String c1 rest =>
      match rest with
      | EmptyString => false
      | String c2 _ => (Str.is_m c1 && Str.is_b c2) || has_mb rest
      end
  end.

(** The name of a coordinate handed out by [axes]. *)
Definition coord_name (c : coord) : string :=
  match c with
  | CoordArray da => da_name da
  | CoordPlaceholder p => psc_name p
  end.

(** The coordinate [axes] makes of the name [c] under the axis [ax]: the
    variable of that name, or a placeholder when the dataset has none. *)
Definition coord_for (ds : Dataset) (ax c : string) : coord :=
  match dict_get (ds_variables ds) c with
  | Some da => CoordArray da
  | None => CoordPlaceholder (mkPlaceholder c ax ATTR_NOT_FOUND ATTR_NOT_FOUND)
  end.

(** [axes] keeps the name [c]: it is not empty and, if there is a filter, it
    is in the filter. *)
Definition kept_name (filter_set : option (list string)) (c : string) : bool :=
  negb (String.eqb c "")
  && match filter_set with
     | Some fs => str_in c fs
     | None => true
     end.

(** The string does not start with white space. *)
Definition no_leading_space (s : string) : bool :=
  match s with
  | EmptyString => true
  | String c _ => negb (Str.is_space c)
  end.

(** An item whose key and value are stripped already. *)
Definition stripped (kv : string * value) : Prop :=
  Str.strip (fst kv) = fst kv /\ strip_ (snd kv) = snd kv.

(** The order of [sorted] on names. *)
Definition str_le (a b : string) : Prop := String.leb a b = true.

(** A character, a string, without white space or colon. *)
Definition plain_char (c : ascii) : Prop :=
  Str.is_space c = false /\ is_colon c = false.

Definition plain (s : string) : Prop :=
  Forall plain_char (list_ascii_of_string s).

(** A name of a formula term: not empty, without white space or colon. *)
Definition term_name (s : string) : Prop :=
  s <> ""
  /\ Forall (fun c => Str.is_space c = false /\ is_colon c = false)
            (list_ascii_of_string s).

(** The attribute that lists [terms]: "k1: v1 k2: v2 ...". *)
Fixpoint render_terms (terms : list (string * string)) : string :=
  match terms with
  | [] => ""
  | [(k, v)] => k ++ ": " ++ v
  | (k, v) :: rest => k ++ ": " ++ v ++ " " ++ render_terms rest
  end.

(** The mappings of [terms] as [formula_terms] reads them. *)
Definition mapping_of (kv : string * string) : string :=
  (fst kv ++ ":" ++ snd kv)%string.

(** [" ".join(l)] *)
Fixpoint join_space (l : list string) : string :=
  match l with
  | [] => ""
  | [t] => t
  | t :: rest => t ++ " " ++ join_space rest
  end.

(** Every term has a name on both sides. *)
Definition term_names (terms : list (string * string)) : Prop :=
  Forall (fun kv => term_name (fst kv) /\ term_name (snd kv)) terms.

(* ------------------------------------------------------------------ *)
(** ** Instances used in the examples *)

(** A unit system for the examples; the reconciler above is stated over any
    [Units]. Two units are equivalent when they measure the same quantity
    ([dimension]) and equal when their definitions agree: metres and
    kilometres are equivalent and not equal, and a mass flux ("kg m-2 s-1")
    is not equivalent to a depth per time ("mm/day"). The canonical form of
    a unit is the unit object of its definition. *)
Module ExampleUnits.

Definition definition (v : value) : string :=
  match v with
  | VStr s => s
  | VUnits d => d
  | _ => ""
  end.

Definition dimension (d : string) : string :=
  if String.eqb d "m" || String.eqb d "km" then "length" else d.

#[export] Instance units : Units :=
  {| units_equivalent a b :=
       String.eqb (dimension (definition a)) (dimension (definition b));
     units_equal a b := String.eqb (definition a) (definition b);
     to_cfunits v := VUnits (definition v) |}.

End ExampleUnits.

(** An accessor for the examples: it classifies coordinates by the [axis]
    attribute they carry (for a variable, among its dimensions), and finds
    the bounds of a coordinate in its [bounds] attribute. *)
Module ExampleAccessor.

Definition has_axis (ds : Dataset) (key : string) (name : string) : bool :=
  value_eqb (dict_get_default (var_attrs ds name) "axis" VNone) (VStr key).

Definition names_on_axis (ds : Dataset) (var_name : option string) (key : string)
    : list string :=
  match var_name with
  | None => filter (has_axis ds key) (dict_keys (ds_variables ds))
  | Some name =>
      match dict_get (ds_variables ds) name with
      | Some da => filter (has_axis ds key) (da_dims da)
      | None => []
      end
  end.

Definition bounds_of (ds : Dataset) (name : string) : res string :=
  match dict_get (var_attrs ds name) "bounds" with
  | Some (VStr b) => Ok b
  | _ => Err (KeyError "bounds")
  end.

#[export] Instance accessor : CFAccessor :=
  {| axis_names := names_on_axis; get_bounds := bounds_of |}.

End ExampleAccessor.

Definition coordinate (name axis : string) (more : dict) : string * DataArray :=
  (name, mkDataArray name (("axis", VStr axis) :: more) [name]).

(** A dataset whose variable [pr] has two dimensions classified as X. *)
Definition two_lon_ds : Dataset :=
  {| ds_attrs := [];
     ds_variables :=
       [ ("pr", mkDataArray "pr" [("units", VStr "mm/day")]
                            ["time"; "lat"; "lon"; "lon2"]);
         coordinate "time" "T" [];
         coordinate "lat" "Y" [];
         coordinate "lon" "X" [];
         coordinate "lon2" "X" [] ] |}.

(** The same with one X dimension. *)
Definition pr_ds : Dataset :=
  {| ds_attrs := [(" title ", VStr " precipitation ")];
     ds_variables :=
       [ ("pr", mkDataArray "pr" [("units", VStr "mm/day"); ("standard_name", VStr "precipitation_flux")]
                            ["time"; "lat"; "lon"]);
         coordinate "time" "T" [("calendar", VStr "noleap")];
         coordinate "lat" "Y" [];
         coordinate "lon" "X" [("bounds", VStr "lon_bnds")] ] |}.

Definition pr_var : OurVar :=
  {| ov_name := VStr "pr"; ov_standard_name := VStr "precipitation_flux";
     ov_units := VStr "kg m-2 s-1"; ov_axis := VNone; ov_bounds_var := VNone;
     ov_extra := [] |}.

(** A dataset whose time coordinate spells its calendar "Gregorian" and
    whose latitude has no units. *)
Definition gregorian_ds : Dataset :=
  {| ds_attrs := [];
     ds_variables :=
       [ coordinate "time" "T"
           [("units", VStr "days since 1850-01-01");
            ("calendar", VStr "Gregorian")];
         coordinate "lat" "Y" [] ] |}.

(** An expected variable in metres, and the dataset's variable for it, in
    kilometres. *)
Definition zg_var : OurVar :=
  {| ov_name := VStr "zg"; ov_standard_name := VStr "geopotential_height";
     ov_units := VStr "m"; ov_axis := VNone; ov_bounds_var := VNone;
     ov_extra := [] |}.

Definition zg_km : DataArray :=
  mkDataArray "zg" [("units", VStr "km")] ["time"; "lat"; "lon"].

Definition parser : DatasetParser := set_log __init__ (Some []).

(** A longitude with its bounds variable, and the coordinate asked for. *)
Definition lon_bnds_ds : Dataset :=
  {| ds_attrs := [];
     ds_variables :=
       [ coordinate "lon" "X"
           [("bounds", VStr "lon_bnds"); ("standard_name", VStr "longitude");
            ("units", VStr "degrees_east")];
         ("lon_bnds",
          mkDataArray "lon_bnds"
            [("standard_name", VStr "longitude"); ("units", VStr "degrees_east")]
            ["lon"; "bnds"]) ] |}.

Definition lon_coord : OurVar :=
  {| ov_name := VStr "lon"; ov_standard_name := VStr "longitude";
     ov_units := VStr "degrees_east"; ov_axis := VStr "X";
     ov_bounds_var := VNone; ov_extra := [] |}.

(* ------------------------------------------------------------------ *)
(** * Properties *)

(** ** Dictionaries *)

Section DictFacts.
Context {V : Type}.
Implicit Types (d : mapping V) (k : string) (v : V).

Lemma dict_get_set_eq d k v : dict_get (dict_set d k v) k = Some v.
Proof.
  induction d as [|[k' v'] d IH]; simpl.
  - now rewrite String.eqb_refl.
  - destruct (String.eqb k' k) eqn:E; simpl; rewrite E; auto.
Qed.

Lemma dict_get_set_ne d k k' v :
  k <> k' -> dict_get (dict_set d k v) k' = dict_get d k'.
Proof.
  intros Hne. induction d as [|[k0 v0] d IH]; simpl.
  - destruct (String.eqb_spec k k'); congruence.
  - destruct (String.eqb_spec k0 k); simpl.
    + subst. destruct (String.eqb_spec k k'); congruence.
    + now rewrite IH.
Qed.

Lemma dict_get_In d k v : dict_get d k = Some v -> In (k, v) d.
Proof.
  induction d as [|[k' v'] d IH]; simpl; [discriminate|].
  destruct (String.eqb_spec k' k); intros H.
  - left. congruence.
  - right. auto.
Qed.

Lemma dict_get_None d k : dict_get d k = None <-> ~ In k (dict_keys d).
Proof.
  induction d as [|[k' v'] d IH]; simpl.
  - tauto.
  - destruct (String.eqb_spec k' k); split; intros H.
    + discriminate.
    + exfalso. apply H. now left.
    + intros [->|Hin]; [congruence|]. now apply IH in H.
    + apply IH. intros Hin. apply H. now right.
Qed.

Lemma dict_in_keys d k : dict_in k d = true <-> In k (dict_keys d).
Proof.
  unfold dict_in. destruct (dict_get d k) eqn:E.
  - split; [intros _|reflexivity].
    apply dict_get_In in E. change k with (fst (k, v)). now apply in_map.
  - split; [discriminate|]. intros Hin. now apply dict_get_None in E.
Qed.

Lemma dict_in_get d k v : dict_get d k = Some v -> dict_in k d = true.
Proof. unfold dict_in. now intros ->. Qed.

Lemma dict_get_NoDup d k v :
  NoDup (dict_keys d) -> In (k, v) d -> dict_get d k = Some v.
Proof.
  induction d as [|[k' v'] d IH]; simpl; [tauto|].
  intros Hnd [Heq|Hin].
  - inversion Heq; subst. now rewrite String.eqb_refl.
  - inversion Hnd as [|? ? Hnotin Hnd']; subst.
    destruct (String.eqb_spec k' k).
    + subst. exfalso. apply Hnotin. change k with (fst (k, v)). now apply in_map.
    + auto.
Qed.

Lemma dict_keys_set_incl d k v x :
  In x (dict_keys (dict_set d k v)) -> x = k \/ In x (dict_keys d).
Proof.
  induction d as [|[k' v'] d IH]; simpl.
  - intros [<-|[]]. now left.
  - destruct (String.eqb_spec k' k); simpl.
    + tauto.
    + intros [<-|Hin]; [right; now left|]. apply IH in Hin. tauto.
Qed.

Lemma dict_keys_set_present d k v :
  dict_in k d = true -> dict_keys (dict_set d k v) = dict_keys d.
Proof.
  unfold dict_in. induction d as [|[k' v'] d IH]; simpl; [discriminate|].
  destruct (String.eqb_spec k' k); simpl; intros H; [reflexivity|].
  now rewrite IH.
Qed.

Lemma dict_set_NoDup d k v :
  NoDup (dict_keys d) -> NoDup (dict_keys (dict_set d k v)).
Proof.
  induction d as [|[k' v'] d IH]; simpl; intros Hnd.
  - constructor; [tauto|constructor].
  - inversion Hnd as [|? ? Hnotin Hnd']; subst.
    destruct (String.eqb_spec k' k); simpl.
    + now constructor.
    + constructor; [|auto].
      intros Hin. apply dict_keys_set_incl in Hin. destruct Hin; congruence.
Qed.

Lemma dict_set_same d k v : dict_get d k = Some v -> dict_set d k v = d.
Proof.
  induction d as [|[k' v'] d IH]; simpl; [discriminate|].
  destruct (String.eqb_spec k' k); intros H.
  - congruence.
  - now rewrite IH.
Qed.

Lemma dict_del_fresh d k : dict_get d k = None -> dict_del d k = d.
Proof.
  induction d as [|[k' v'] d IH]; simpl; [reflexivity|].
  destruct (String.eqb_spec k' k); intros H; [discriminate|].
  now rewrite IH.
Qed.

Lemma dict_del_set_fresh d k v :
  dict_get d k = None -> dict_del (dict_set d k v) k = d.
Proof.
  induction d as [|[k' v'] d IH]; simpl.
  - now rewrite String.eqb_refl.
  - destruct (String.eqb_spec k' k); intros H; [discriminate|].
    simpl. destruct (String.eqb_spec k' k); [congruence|]. now rewrite IH.
Qed.

Lemma dict_get_del d k : dict_get (dict_del d k) k = None.
Proof.
  induction d as [|[k' v'] d IH]; simpl; [reflexivity|].
  destruct (String.eqb_spec k' k); simpl; [assumption|].
  destruct (String.eqb_spec k' k); congruence.
Qed.

Lemma dict_update_keys d1 d2 k :
  In k (dict_keys d2) -> dict_in k (dict_update d1 d2) = true.
Proof.
  unfold dict_update. revert d1.
  induction d2 as [|[k' v'] d2 IH]; simpl; [tauto|].
  intros d1 [->|Hin]; [|now apply IH].
  destruct (in_dec string_dec k (dict_keys d2)) as [Hin|Hout]; [now apply IH|].
  assert (Hkeep : forall d, dict_in k d = true ->
            dict_in k (fold_left (fun acc kv => dict_set acc (fst kv) (snd kv)) d2 d) = true).
  { clear. induction d2 as [|[k2 v2] d2 IH]; simpl; [auto|].
    intros d H. apply IH. unfold dict_in in *.
    destruct (String.eqb_spec k2 k).
    - subst. now rewrite dict_get_set_eq.
    - now rewrite dict_get_set_ne. }
  apply Hkeep. unfold dict_in. now rewrite dict_get_set_eq.
Qed.

End DictFacts.

Lemma value_eqb_refl (v : value) : value_eqb v v = true.
Proof.
  destruct v; simpl; auto using String.eqb_refl, Z.eqb_refl.
Qed.

Lemma value_eqb_eq (a b : value) : value_eqb a b = true <-> a = b.
Proof.
  split.
  - destruct a, b; simpl; try discriminate; try reflexivity;
      intros H; try (apply String.eqb_eq in H); try (apply Z.eqb_eq in H);
      congruence.
  - intros ->. apply value_eqb_refl.
Qed.

Lemma value_eqb_neq (a b : value) : value_eqb a b = false <-> a <> b.
Proof.
  split.
  - intros H Heq. apply value_eqb_eq in Heq. congruence.
  - intros H. destruct (value_eqb a b) eqn:E; [|reflexivity].
    apply value_eqb_eq in E. contradiction.
Qed.

Lemma getattr_setattr (v : OurVar) (attr : string) (x : value) :
  getattr (setattr v attr x) attr = Ok x.
Proof.
  unfold getattr, setattr.
  repeat match goal with
         | |- context [String.eqb attr ?s] =>
             let E := fresh "E" in destruct (String.eqb attr s) eqn:E
         end; simpl; try reflexivity.
  now rewrite dict_get_set_eq.
Qed.

Lemma setattr_setattr (v : OurVar) (attr : string) (x y : value) :
  setattr (setattr v attr x) attr y = setattr v attr y.
Proof.
  unfold setattr.
  repeat match goal with
         | |- context [String.eqb attr ?s] =>
             let E := fresh "E" in destruct (String.eqb attr s) eqn:E
         end; simpl; try reflexivity.
  f_equal. induction (ov_extra v) as [|[k' v'] d IH]; simpl.
  - now rewrite String.eqb_refl.
  - destruct (String.eqb_spec k' attr); simpl.
    + subst. now rewrite String.eqb_refl.
    + destruct (String.eqb_spec k' attr); [congruence|]. now rewrite IH.
Qed.

(* ------------------------------------------------------------------ *)
(** ** compare_attr *)

Section CompareAttr.
Variables (our_attr_name ds_attr_name : string) (our_attr ds_attr : value).
Variable comparison_func : option (value -> value -> bool).
Variables (update_our_var update_ds : bool) (tiebreaker : option string).
Hypothesis tiebreaker_ok : bad_tiebreaker tiebreaker = false.
Hypothesis ds_found : value_eqb ds_attr ATTR_NOT_FOUND = false.
Hypothesis ds_set : truthy ds_attr = true.
Hypothesis our_set : truthy our_attr = true.

Let compare : value -> value -> bool :=
  match comparison_func with None => value_eqb | Some f => f end.

Lemma compare_attr_agree (st : OurVar * option DataArray) :
  compare our_attr ds_attr = true ->
  compare_attr our_attr_name our_attr ds_attr_name ds_attr comparison_func
               update_our_var update_ds tiebreaker st
  = Returns st tt.
Proof.
  intros Hcmp. unfold compare_attr.
  rewrite tiebreaker_ok, ds_found, ds_set, our_set. simpl.
  fold compare. now rewrite Hcmp.
Qed.

Lemma compare_attr_differ (our_var : OurVar) (ds_var : option DataArray) :
  compare our_attr ds_attr = false ->
  let our_var' :=
    if update_our_var then setattr our_var our_attr_name ds_attr else our_var in
  compare_attr our_attr_name our_attr ds_attr_name ds_attr comparison_func
               update_our_var update_ds tiebreaker (our_var, ds_var)
  = Raises (our_var', ds_var)
           (ValueError (mismatch_message our_attr_name (ov_name our_var')
                                         ds_attr our_attr)).
Proof.
  intros Hcmp. unfold compare_attr.
  rewrite tiebreaker_ok, ds_found, ds_set, our_set. simpl.
  fold compare. rewrite Hcmp. simpl. rewrite andb_true_r.
  now destruct update_our_var.
Qed.

End CompareAttr.

Section ReconcileAttr.
Variables (attr : string) (ours theirs : value).
Variable comparison_func : value -> value -> bool.
Variables (update_our_var update_ds : bool).
Variables (our_var : OurVar) (ds_var : DataArray).
Hypothesis our_value : getattr our_var attr = Ok ours.
Hypothesis ds_value : dict_get (da_attrs ds_var) attr = Some theirs.
Hypothesis ds_found : value_eqb theirs ATTR_NOT_FOUND = false.
Hypothesis ds_set : truthy theirs = true.
Hypothesis our_set : truthy ours = true.

Lemma reconcile_attr_agree :
  comparison_func ours theirs = true ->
  reconcile_attr attr None (Some comparison_func) update_our_var update_ds
                 (our_var, ds_var)
  = Returns (our_var, ds_var) tt.
Proof.
  intros Hcmp. unfold reconcile_attr, bind, get, lift, zoom, dict_get_default.
  cbn [fst snd]. rewrite our_value, ds_value.
  now rewrite compare_attr_agree.
Qed.

Lemma reconcile_attr_differ :
  comparison_func ours theirs = false ->
  let our_var' :=
    if update_our_var then setattr our_var attr theirs else our_var in
  reconcile_attr attr None (Some comparison_func) update_our_var update_ds
                 (our_var, ds_var)
  = Raises (our_var', ds_var)
           (ValueError (mismatch_message attr (ov_name our_var') theirs ours)).
Proof.
  intros Hcmp. unfold reconcile_attr, bind, get, lift, zoom, dict_get_default.
  cbn [fst snd]. rewrite our_value, ds_value.
  now rewrite compare_attr_differ.
Qed.

End ReconcileAttr.

(** The guard of [compare_attr]: with a [tiebreaker] other than [None],
    ['our_var'] and ['ds'] the call raises a [ValueError] without a message
    and changes nothing. No call of the module passes a [tiebreaker]. *)
Lemma compare_attr_bad_tiebreaker
    (our_attr_name ds_attr_name : string) (our_attr ds_attr : value)
    (comparison_func : option (value -> value -> bool))
    (update_our_var update_ds : bool) (tiebreaker : option string)
    (st : OurVar * option DataArray) :
  bad_tiebreaker tiebreaker = true ->
  compare_attr our_attr_name our_attr ds_attr_name ds_attr comparison_func
               update_our_var update_ds tiebreaker st
  = Raises st (ValueError []).
Proof. intros H. unfold compare_attr. now rewrite H. Qed.

(** C1: for every call of [compare_attr] (its [tiebreaker] left at the
    default, as in every call of the module) where the dataset-side value is
    neither the sentinel nor empty and the expected-side value is not empty:
    if the comparison is false the call raises a [ValueError] whose message
    carries both values, and when updating the expected side is allowed the
    attribute of the expected variable holds the dataset's value in the
    state the error leaves; if the comparison is true the call returns and
    neither side is changed. *)
Theorem compare_attr_both_present
    (our_attr_name ds_attr_name : string) (our_attr ds_attr : value)
    (comparison_func : option (value -> value -> bool))
    (update_our_var update_ds : bool)
    (our_var : OurVar) (ds_var : option DataArray) :
  ds_attr <> ATTR_NOT_FOUND ->
  truthy ds_attr = true ->
  truthy our_attr = true ->
  let compare :=
    match comparison_func with None => value_eqb | Some f => f end in
  let run :=
    compare_attr our_attr_name our_attr ds_attr_name ds_attr comparison_func
                 update_our_var update_ds None (our_var, ds_var) in
  (compare our_attr ds_attr = false ->
   let our_var' :=
     if update_our_var then setattr our_var our_attr_name ds_attr else our_var in
   let msg := mismatch_message our_attr_name (ov_name our_var') ds_attr our_attr in
   run = Raises (our_var', ds_var) (ValueError msg)
   /\ In (Fmt ds_attr) msg /\ In (Fmt our_attr) msg
   /\ (update_our_var = true -> getattr our_var' our_attr_name = Ok ds_attr))
  /\ (compare our_attr ds_attr = true -> run = Returns (our_var, ds_var) tt).
Proof.
  intros Hds Hdst Hourt compare run.
  apply value_eqb_neq in Hds. subst run. split; intros Hcmp.
  - cbv zeta. rewrite compare_attr_differ by (assumption || reflexivity).
    split; [reflexivity|]. unfold mismatch_message.
    split; [simpl; tauto|]. split; [simpl; tauto|].
    intros ->. apply getattr_setattr.
  - apply compare_attr_agree; assumption || reflexivity.
Qed.

Lemma compare_attr_both_present_witness :
  compare_attr "units" (VStr "kg m-2 s-1") "units" (VStr "mm/day") None
               true false None (pr_var, None)
  = Raises (setattr pr_var "units" (VStr "mm/day"), None)
           (ValueError (mismatch_message "units" (VStr "pr") (VStr "mm/day")
                                         (VStr "kg m-2 s-1"))).
Proof.
  exact (proj1 (proj1
    (@compare_attr_both_present "units" "units" (VStr "kg m-2 s-1")
       (VStr "mm/day") None true false pr_var None
       ltac:(discriminate) eq_refl eq_refl) eq_refl)).
Defined.

(* ------------------------------------------------------------------ *)
(** ** reconcile_units *)

Import ExampleUnits.

(** C2, as stated, fails: with expected units "m" and dataset units "km",
    equivalent and not equal, [reconcile_units] returns and has logged one
    warning, and the expected units are the canonical form of the dataset's
    units, which is not that of the original expected units. *)
Lemma reconcile_units_keeps_dataset_units :
  units_equivalent (ov_units zg_var) (VStr "km") = true
  /\ units_equal (ov_units zg_var) (VStr "km") = false
  /\ exists p' our_var',
       reconcile_units (parser, (zg_var, zg_km)) = Returns (p', (our_var', zg_km)) tt
       /\ option_map (@List.length _) (log p') = Some 1
       /\ ov_units our_var' = to_cfunits (VStr "km")
       /\ ov_units our_var' <> to_cfunits (VStr "m").
Proof.
  split; [reflexivity|]. split; [reflexivity|].
  eexists. eexists. split; [reflexivity|].
  split; [reflexivity|]. split; [reflexivity|]. discriminate.
Qed.

(** C2 (amended): when the expected variable and the dataset variable both
    carry units that are equivalent and not equal, [reconcile_units] returns
    without raising, logs one warning (about the mismatch that [compare_attr]
    raised), and leaves the expected variable's units set to the canonical
    form of the dataset's units, which [compare_attr] copied over the
    expected ones before raising; the dataset variable is unchanged. *)
Theorem reconcile_units_equivalent_not_equal {U : Units}
    (p : DatasetParser) (records : list log_record)
    (our_var : OurVar) (ds_var : DataArray) (ours theirs : value) :
  log p = Some records ->
  ov_units our_var = ours ->
  dict_get (da_attrs ds_var) "units" = Some theirs ->
  truthy ours = true ->
  theirs <> ATTR_NOT_FOUND ->
  truthy theirs = true ->
  units_equivalent ours theirs = true ->
  units_equal ours theirs = false ->
  reconcile_units (p, (our_var, ds_var))
  = Returns
      (set_log p
         (Some (records
                ++ [LogRecord WARNING "Caught %s."
                      [AExn (ValueError
                               (mismatch_message "units" (ov_name our_var)
                                                 theirs ours))]])%list),
       (setattr our_var "units" (to_cfunits theirs), ds_var))
      tt.
Proof.
  intros Hlog Hours Hget Htours Hnf Httheirs Hequiv Hneq.
  apply value_eqb_neq in Hnf.
  assert (Hattr : getattr our_var "units" = Ok ours) by (now subst ours).
  unfold reconcile_units, bind, get, on_self, on_objects, zoom, try_except.
  cbn [fst snd].
  unfold check_unit, bind, get, dict_get_default, ret. rewrite Hget, Hnf.
  cbn [fst snd].
  rewrite reconcile_attr_agree with (ours := ours) (theirs := theirs) by assumption.
  cbn [fst snd].
  rewrite reconcile_attr_differ with (ours := ours) (theirs := theirs) by assumption.
  cbn [fst snd is_ValueError].
  unfold self_log, modify. rewrite Hlog. cbn [fst snd].
  rewrite setattr_setattr. reflexivity.
Qed.

Lemma reconcile_units_equivalent_not_equal_witness :
  reconcile_units (parser, (zg_var, zg_km))
  = Returns
      (set_log parser
         (Some [LogRecord WARNING "Caught %s."
                  [AExn (ValueError
                           (mismatch_message "units" (VStr "zg")
                              (VStr "km") (VStr "m")))]]),
       (setattr zg_var "units" (VUnits "km"), zg_km))
      tt.
Proof.
  exact (@reconcile_units_equivalent_not_equal units parser [] zg_var zg_km
           (VStr "m") (VStr "km")
           eq_refl eq_refl eq_refl eq_refl ltac:(discriminate) eq_refl
           eq_refl eq_refl).
Defined.

(* ------------------------------------------------------------------ *)
(** ** guess_attr and normalize_attr *)

Lemma sum_bool_zero {A} (f : A -> bool) (l : list A) :
  (forall x, In x l -> f x = false) -> sum_bool (map f l) = 0.
Proof.
  induction l as [|a l IH]; simpl; intros H; [reflexivity|].
  rewrite (H a) by now left. simpl. apply IH. intros x Hx. apply H. now right.
Qed.

Lemma sum_bool_count {A} (f : A -> bool) (l : list A) :
  sum_bool (map f l) = List.length (filter f l).
Proof.
  induction l as [|a l IH]; simpl; [reflexivity|].
  destruct (f a); simpl; now rewrite IH.
Qed.

Lemma sum_bool_one_NoDup (x : string) (l : list string) :
  NoDup l -> In x l -> sum_bool (map (fun opt => String.eqb opt x) l) = 1.
Proof.
  induction l as [|a l IH]; simpl; [tauto|].
  intros Hnd Hin. inversion Hnd as [|? ? Hnotin Hnd']; subst.
  destruct (String.eqb_spec a x).
  - subst. rewrite sum_bool_zero; [reflexivity|].
    intros y Hy. apply String.eqb_neq. congruence.
  - destruct Hin; [congruence|]. simpl. auto.
Qed.

Lemma filter_tagged {A} (f : A -> bool) (l : list A) :
  map snd (filter fst (map (fun x => (f x, x)) l)) = filter f l.
Proof.
  induction l as [|a l IH]; simpl; [reflexivity|].
  destruct (f a); simpl; now rewrite IH.
Qed.

(** No option matches, verbatim or folded: the default, or [KeyError]. *)
Lemma guess_attr_no_match desc attr_name options default comparison_func :
  (forall opt, In opt options ->
     compare_with comparison_func opt attr_name = false
     /\ compare_with comparison_func (str_munge opt) (str_munge attr_name) = false) ->
  guess_attr desc attr_name options default comparison_func
  = match default with
    | Some dflt => Ok dflt
    | None => Err (KeyError attr_name)
    end.
Proof.
  intros H. unfold guess_attr. fold (compare_with comparison_func).
  rewrite sum_bool_zero by (intros; now apply H). simpl.
  rewrite map_map. simpl.
  rewrite sum_bool_zero by (intros; now apply H). reflexivity.
Qed.

(** No verbatim match and two or more folded matches: the default, or
    [KeyError]. *)
Lemma guess_attr_ambiguous desc attr_name options default :
  ~ In attr_name options ->
  2 <= List.length
         (filter (fun opt => String.eqb (str_munge opt) (str_munge attr_name))
                 options) ->
  guess_attr desc attr_name options default None
  = match default with
    | Some dflt => Ok dflt
    | None => Err (KeyError attr_name)
    end.
Proof.
  intros Hout Hmany. unfold guess_attr.
  rewrite sum_bool_zero.
  2:{ intros opt Hopt. apply String.eqb_neq. congruence. }
  simpl. rewrite map_map. simpl. rewrite sum_bool_count.
  destruct (Nat.eqb_spec
              (List.length
                 (filter (fun opt => String.eqb (str_munge opt) (str_munge attr_name))
                         options)) 1) as [E|E]; [lia|reflexivity].
Qed.

(** No verbatim match and exactly one folded match: the statement that logs
    the correction is reached, and raises. *)
Lemma guess_attr_unique_fold desc attr_name options default :
  ~ In attr_name options ->
  List.length
    (filter (fun opt => String.eqb (str_munge opt) (str_munge attr_name))
            options) = 1 ->
  guess_attr desc attr_name options default None = Err (NameError "self").
Proof.
  intros Hout Hone. unfold guess_attr.
  rewrite sum_bool_zero.
  2:{ intros opt Hopt. apply String.eqb_neq. congruence. }
  simpl. rewrite map_map. simpl. rewrite sum_bool_count, Hone. simpl.
  rewrite (filter_tagged
             (fun opt => String.eqb (str_munge opt) (str_munge attr_name))).
  destruct (filter _ options); [discriminate|reflexivity].
Qed.

(** C3: the attribute name "Gregorian" is not among the calendar names, its
    folded form is that of exactly one of them, "gregorian", and
    [guess_attr] does not return that option: it raises [NameError], with or
    without a default, since the method is static and logs through [self]. *)
Theorem guess_attr_unique_fold_raises :
  ~ In "Gregorian" _cf_calendars
  /\ filter (fun opt => String.eqb (str_munge opt) (str_munge "Gregorian"))
            _cf_calendars = ["gregorian"]
  /\ guess_attr "calendar" "Gregorian" _cf_calendars None None
     = Err (NameError "self")
  /\ guess_attr "calendar" "Gregorian" _cf_calendars
                (Some "proleptic_gregorian") None
     = Err (NameError "self").
Proof.
  split; [|repeat split].
  simpl. intros H.
  repeat (destruct H as [H|H]; [discriminate|]). exact H.
Qed.

(** C4: [normalize_attr] on a source dict whose only key starts with the
    prefix writes the sentinel, not the value under that key; on a source
    dict whose key matches [key_name] up to case, and on one with two keys
    that start with the prefix, it raises [NameError]. *)
Theorem normalize_attr_prefix_and_fold :
  normalize_attr [] [("unit_of_measure", VStr "K")] "units" (Some "unit")
  = Ok [("units", ATTR_NOT_FOUND)]
  /\ normalize_attr [] [("Units", VStr "K")] "units" (Some "unit")
     = Err (NameError "self")
  /\ normalize_attr [] [("unit", VStr "K"); ("unit_long", VStr "kelvin")]
                    "units" (Some "unit")
     = Err (NameError "self").
Proof. repeat split. Qed.

(** C8: [normalize_unit] rewrites "mb" to "millibar", leaves "5 mb" as it
    is, and rewrites the "mb" inside "number" and "kmb": the two lookarounds
    of its pattern exclude a neighbour that is not a letter. *)
Theorem normalize_unit_mb :
  normalize_unit [] [("units", VStr "mb")] = Ok [("units", VStr "millibar")]
  /\ normalize_unit [] [("units", VStr "5 mb")] = Ok [("units", VStr "5 mb")]
  /\ Str.contains "millibar" "5 mb" = false
  /\ normalize_unit [] [("units", VStr "number")]
     = Ok [("units", VStr "numillibarer")]
  /\ normalize_unit [] [("units", VStr "kmb")] = Ok [("units", VStr "kmillibar")].
Proof. repeat split. Qed.

(* ------------------------------------------------------------------ *)
(** ** reconcile_coord_bounds *)

(** C9: when the lookup of the bounds variable of the coordinate raises
    [KeyError], [reconcile_coord_bounds] returns; it has set [bounds_var] of
    the expected coordinate to [None] and left its other attributes, the
    parser and the dataset as they were. *)
Theorem reconcile_coord_bounds_not_found {CF : CFAccessor} {U : Units}
    (ds_coord_name key : string) (p : DatasetParser) (our_coord : OurVar)
    (ds : Dataset) :
  ds_get_bounds ds ds_coord_name = Err (KeyError key) ->
  reconcile_coord_bounds ds_coord_name (p, (our_coord, ds))
  = Returns
      (p, ({| ov_name := ov_name our_coord;
              ov_standard_name := ov_standard_name our_coord;
              ov_units := ov_units our_coord;
              ov_axis := ov_axis our_coord;
              ov_bounds_var := VNone;
              ov_extra := ov_extra our_coord |}, ds))
      tt.
Proof.
  intros Hget. unfold reconcile_coord_bounds, bind, get. cbn [fst snd].
  now rewrite Hget.
Qed.

Import ExampleAccessor.

Lemma reconcile_coord_bounds_not_found_witness :
  reconcile_coord_bounds "lat" (parser, (pr_var, pr_ds))
  = Returns (parser, (pr_var, pr_ds)) tt.
Proof.
  exact (@reconcile_coord_bounds_not_found accessor units "lat" "bounds"
           parser pr_var pr_ds eq_refl).
Defined.

(* ------------------------------------------------------------------ *)
(** ** normalize_attr and normalize_calendar *)

Lemma normalize_attr_not_found new_attr_d d key_name key_startswith :
  no_spelling_of key_name key_startswith (dict_keys d) = true ->
  normalize_attr new_attr_d d key_name (Some key_startswith)
  = Ok (dict_set new_attr_d key_name ATTR_NOT_FOUND).
Proof.
  intros H. unfold no_spelling_of in H. rewrite forallb_forall in H.
  unfold normalize_attr.
  rewrite guess_attr_no_match.
  2:{ intros opt Hopt. apply H in Hopt.
      repeat (apply andb_prop in Hopt; destruct Hopt as [Hopt ?]).
      simpl. split; now apply negb_true_iff. }
  rewrite guess_attr_no_match.
  2:{ intros opt Hopt. apply H in Hopt.
      repeat (apply andb_prop in Hopt; destruct Hopt as [Hopt ?]).
      simpl. split; now apply negb_true_iff. }
  reflexivity.
Qed.

Lemma guess_attr_verbatim desc attr_name options default :
  NoDup options -> In attr_name options ->
  guess_attr desc attr_name options default None = Ok attr_name.
Proof.
  intros Hnd Hin. unfold guess_attr.
  now rewrite sum_bool_one_NoDup.
Qed.

Lemma normalize_attr_verbatim new_attr_d d key_name key_startswith v :
  NoDup (dict_keys d) ->
  dict_get d key_name = Some v ->
  normalize_attr new_attr_d d key_name key_startswith
  = Ok (dict_set new_attr_d key_name v).
Proof.
  intros Hnd Hget. unfold normalize_attr.
  rewrite guess_attr_verbatim; [|assumption|].
  - simpl. rewrite String.eqb_refl. simpl. now rewrite Hget.
  - apply dict_in_keys. unfold dict_in. now rewrite Hget.
Qed.

Lemma _cf_calendars_NoDup : NoDup _cf_calendars.
Proof.
  unfold _cf_calendars.
  repeat (constructor;
          [simpl; intros H;
           repeat (destruct H as [H|H]; [discriminate|]); exact H|]).
  constructor.
Qed.

(** C7, as stated, fails: the value "std", under the key "calendar" or under
    the key "cal", becomes the default calendar, while "gregorian" stays
    "gregorian". *)
Lemma normalize_calendar_std :
  normalize_calendar (fallback_cal __init__) [("calendar", VStr "std")]
  = Ok [("calendar", VStr "proleptic_gregorian")]
  /\ normalize_calendar (fallback_cal __init__) [("cal", VStr "std")]
     = Ok [("cal", VStr "std"); ("calendar", VStr "proleptic_gregorian")]
  /\ normalize_calendar (fallback_cal __init__) [("calendar", VStr "gregorian")]
     = Ok [("calendar", VStr "gregorian")].
Proof. repeat split. Qed.

(** C7 (amended): [normalize_calendar] leaves the attribute dict without a
    calendar key when no key spells "calendar" or starts with "cal" (the key
    it writes with the sentinel is deleted again). When the dict has the key
    "calendar" with a string value: a value that is verbatim a calendar name
    is kept ("gregorian" stays "gregorian"); a value that folds to no
    calendar name, "std" among them, is replaced by the fallback calendar,
    which the parser initialises to "proleptic_gregorian". *)
Theorem normalize_calendar_cases (fallback : string) (attr_d : dict) :
  NoDup (dict_keys attr_d) ->
  (no_spelling_of "calendar" "cal" (dict_keys attr_d) = true ->
   normalize_calendar fallback attr_d = Ok attr_d
   /\ dict_in "calendar" attr_d = false)
  /\ (forall cal,
        dict_get attr_d "calendar" = Some (VStr cal) ->
        In cal _cf_calendars ->
        normalize_calendar fallback attr_d = Ok attr_d)
  /\ (forall cal,
        dict_get attr_d "calendar" = Some (VStr cal) ->
        (forall opt, In opt _cf_calendars -> str_munge opt <> str_munge cal) ->
        normalize_calendar fallback attr_d
        = Ok (dict_set attr_d "calendar" (VStr fallback)))
  /\ fallback_cal __init__ = "proleptic_gregorian"
  /\ (forall opt, In opt _cf_calendars -> str_munge opt <> str_munge "std").
Proof.
  intros Hnd. split; [|split; [|split; [|split]]].
  - intros Hno.
    assert (Hnone : dict_get attr_d "calendar" = None).
    { apply dict_get_None. intros Hin.
      unfold no_spelling_of in Hno. rewrite forallb_forall in Hno.
      apply Hno in Hin. now rewrite String.eqb_refl in Hin. }
    unfold normalize_calendar. rewrite normalize_attr_not_found by assumption.
    simpl. rewrite dict_get_set_eq.
    split; [now rewrite dict_del_set_fresh|].
    unfold dict_in. now rewrite Hnone.
  - intros cal Hget Hin. unfold normalize_calendar.
    rewrite normalize_attr_verbatim with (v := VStr cal) by assumption.
    simpl. rewrite dict_get_set_eq.
    rewrite guess_attr_verbatim by (auto using _cf_calendars_NoDup).
    simpl. rewrite (dict_set_same _ _ Hget). now rewrite (dict_set_same _ _ Hget).
  - intros cal Hget Hno. unfold normalize_calendar.
    rewrite normalize_attr_verbatim with (v := VStr cal) by assumption.
    simpl. rewrite dict_get_set_eq.
    rewrite guess_attr_no_match.
    + simpl. now rewrite (dict_set_same _ _ Hget).
    + intros opt Hopt. simpl. split; apply String.eqb_neq.
      * intros ->. now apply (Hno cal).
      * now apply Hno.
  - reflexivity.
  - intros opt Hopt. simpl in Hopt.
    repeat (destruct Hopt as [<-|Hopt]; [discriminate|]). contradiction.
Qed.

Lemma normalize_calendar_cases_witness :
  normalize_calendar "proleptic_gregorian" [("calendar", VStr "std")]
  = Ok [("calendar", VStr "proleptic_gregorian")].
Proof.
  pose (H := @normalize_calendar_cases "proleptic_gregorian"
               [("calendar", VStr "std")]
               ltac:(repeat constructor; simpl; tauto)).
  exact (proj1 (proj2 (proj2 H)) "std" eq_refl
               (proj2 (proj2 (proj2 (proj2 H))))).
Defined.

(* ------------------------------------------------------------------ *)
(** ** axes *)

Section AxesFacts.
Context {CF : CFAccessor}.

Lemma validate_axes_too_many var_name items empty_keys delete_keys dims_list :
  (exists k v, In (k, v) items /\ 2 <= List.length v) ->
  exists msg,
    validate_axes var_name items empty_keys delete_keys dims_list
    = Err (TypeError msg).
Proof.
  revert empty_keys delete_keys dims_list.
  induction items as [|[k0 v0] items IH]; intros ek dk dl (k & v & Hin & Hlen).
  - destruct Hin.
  - simpl. destruct v0 as [|a [|b v0]].
    + apply IH. destruct Hin as [Heq|Hin].
      * inversion Heq; subst. simpl in Hlen. lia.
      * eauto.
    + assert (Hrest : exists k v, In (k, v) items /\ 2 <= List.length v).
      { destruct Hin as [Heq|Hin].
        - inversion Heq; subst. simpl in Hlen. lia.
        - eauto. }
      destruct (negb (str_in a dl)); now apply IH.
    + eauto.
Qed.

Lemma collect_coords_dataset ds filter_set ax coord_names new_coords :
  exists cs,
    collect_coords ds None filter_set ax coord_names new_coords = Ok cs.
Proof.
  revert new_coords.
  induction coord_names as [|c rest IH]; intros acc; simpl; [eauto|].
  destruct (String.eqb c "" || _); [apply IH|].
  destruct (dict_get (ds_variables ds) c); simpl; apply IH.
Qed.

Lemma dict_set_In {V} (d : mapping V) k v k' v' :
  In (k', v') (dict_set d k v) -> In (k', v') d \/ (k', v') = (k, v).
Proof.
  induction d as [|[k0 v0] d IH]; simpl.
  - intros [H|[]]. now right.
  - destruct (String.eqb_spec k0 k); simpl.
    + subst. intros [H|H]; [now right|left; now right].
    + intros [H|H]; [left; now left|]. apply IH in H. tauto.
Qed.

Lemma fill_axes_dataset ds filter_set items d :
  (forall ax names, In (ax, names) items ->
     names = Str.sorted (axis_names ds None ax)) ->
  exists d',
    fill_axes ds None filter_set items d = Ok d'
    /\ forall ax e, In (ax, e) d' ->
         In (ax, e) d
         \/ exists cs,
              e = Many cs
              /\ collect_coords ds None filter_set ax
                   (Str.sorted (axis_names ds None ax)) [] = Ok cs.
Proof.
  revert d. induction items as [|[ax names] items IH]; intros d Hitems; simpl.
  - eauto.
  - assert (Hnames : names = Str.sorted (axis_names ds None ax))
      by (apply Hitems; now left).
    assert (Hrest : forall ax names, In (ax, names) items ->
                      names = Str.sorted (axis_names ds None ax))
      by (intros; apply Hitems; now right).
    destruct (collect_coords_dataset ds filter_set ax names []) as [cs Hcs].
    rewrite Hcs. simpl. destruct cs as [|c0 more]; [now apply IH|].
    destruct (IH (dict_set d ax (Many (c0 :: more))) Hrest) as (d' & Hd' & Hin').
    exists d'. split; [assumption|].
    intros ax' e' Hin. apply Hin' in Hin. destruct Hin as [Hin|Hin]; [|now right].
    apply dict_set_In in Hin. destruct Hin as [Hin|Heq]; [now left|].
    inversion Heq; subst. right. eauto.
Qed.

Lemma sorted_nonempty_In (vardict : mapping (list string)) ax names :
  In (ax, names) (sorted_nonempty vardict) ->
  exists v, In (ax, v) vardict /\ names = Str.sorted v.
Proof.
  unfold sorted_nonempty. rewrite in_map_iff.
  intros ([k v] & Heq & Hin). apply filter_In in Hin.
  inversion Heq; subst. exists v. tauto.
Qed.

End AxesFacts.

Lemma insert_sorted_perm (x : string) (l : list string) :
  Permutation (Str.insert_sorted x l) (x :: l).
Proof.
  induction l as [|y l IH]; simpl; [reflexivity|].
  destruct (String.leb x y); [reflexivity|].
  rewrite IH. apply perm_swap.
Qed.

Lemma sorted_perm (l : list string) : Permutation (Str.sorted l) l.
Proof.
  induction l as [|x l IH]; simpl; [reflexivity|].
  unfold Str.sorted in *. simpl. rewrite insert_sorted_perm. now constructor.
Qed.

Lemma insert_sorted_Sorted (x : string) (l : list string) :
  Sorted str_le l -> Sorted str_le (Str.insert_sorted x l).
Proof.
  induction l as [|y l IH]; intros Hl; simpl.
  - repeat constructor.
  - destruct (String.leb x y) eqn:E.
    + constructor; [assumption|]. constructor. exact E.
    + inversion Hl as [|? ? Hl' Hhd]; subst.
      assert (Hyx : str_le y x).
      { destruct (String.leb_total x y) as [H|H]; [congruence|exact H]. }
      constructor; [now apply IH|].
      destruct l as [|z l]; simpl.
      * now constructor.
      * destruct (String.leb x z); constructor; [exact Hyx|].
        now inversion Hhd.
Qed.

Lemma sorted_Sorted (l : list string) : Sorted str_le (Str.sorted l).
Proof.
  induction l as [|x l IH]; [constructor|].
  unfold Str.sorted in *. simpl. now apply insert_sorted_Sorted.
Qed.

Lemma filter_keys_NoDup {V} (f : string * V -> bool) (d : mapping V) :
  NoDup (dict_keys d) -> NoDup (dict_keys (filter f d)).
Proof.
  induction d as [|[k v] d IH]; simpl; intros Hnd; [constructor|].
  inversion Hnd as [|? ? Hout Hnd']; subst.
  destruct (f (k, v)); simpl; [|auto].
  constructor; [|auto].
  intros Hin. apply Hout. unfold dict_keys in *.
  apply in_map_iff in Hin. destruct Hin as ([k' v'] & Hk & Hin).
  apply filter_In in Hin. apply in_map_iff. exists (k', v'). tauto.
Qed.

Lemma sorted_nonempty_keys (vardict : mapping (list string)) :
  dict_keys (sorted_nonempty vardict)
  = dict_keys (filter (fun kv => match snd kv with [] => false | _ => true end)
                      vardict).
Proof.
  unfold sorted_nonempty, dict_keys. rewrite map_map. reflexivity.
Qed.

Lemma _AXIS_NAMES_NoDup : NoDup _AXIS_NAMES.
Proof.
  unfold _AXIS_NAMES.
  repeat (constructor; [simpl; intuition discriminate|]). constructor.
Qed.

Lemma vardict_keys {A} (f : string -> A) (keys : list string) :
  dict_keys (map (fun key => (key, f key)) keys) = keys.
Proof.
  unfold dict_keys. rewrite map_map. simpl. apply map_id.
Qed.

Lemma str_in_In (x : string) (l : list string) : str_in x l = true <-> In x l.
Proof.
  unfold str_in. rewrite existsb_exists. split.
  - intros (y & Hy & Heq). apply String.eqb_eq in Heq. now subst.
  - intros H. exists x. split; [exact H|apply String.eqb_refl].
Qed.

Lemma list_remove_perm (x : string) (l : list string) :
  In x l -> Permutation l (x :: list_remove x l).
Proof.
  induction l as [|y l IH]; simpl; [tauto|].
  destruct (String.eqb_spec y x).
  - subst. reflexivity.
  - intros [Heq|Hin]; [congruence|].
    rewrite (IH Hin) at 1. apply perm_swap.
Qed.

Lemma NoDup_app_disjoint {A} (l1 l2 : list A) (x : A) :
  NoDup (l1 ++ l2)%list -> In x l1 -> In x l2 -> False.
Proof.
  induction l1 as [|a l1 IH]; simpl; [tauto|].
  intros Hnd [->|Hin] H2; inversion Hnd as [|? ? Hout Hnd']; subst.
  - apply Hout. apply in_or_app. now right.
  - now apply IH.
Qed.

(** What the loop of [_old_axes_dict] has done when it ends: each key went
    to the empty keys, to the keys to delete, or stands for the dimension it
    took out of [dims_list]. *)
Lemma validate_axes_spec (name : string) (items : mapping (list string)) :
  forall ek dk dl ek' dk' dl',
    validate_axes name items ek dk dl = Ok (ek', dk', dl') ->
    exists eks dks (kp : list (string * string)),
      ek' = (ek ++ eks)%list
      /\ dk' = (dk ++ dks)%list
      /\ Permutation (map fst items) (eks ++ dks ++ map fst kp)%list
      /\ Permutation dl (map snd kp ++ dl')%list
      /\ (forall k, In k eks -> In (k, []) items)
      /\ (forall k, In k dks -> exists v0, In (k, [v0]) items)
      /\ (forall k v0, In (k, v0) kp -> In (k, [v0]) items).
Proof.
  induction items as [|[k v] items IH]; intros ek dk dl ek' dk' dl' H.
  - simpl in H. inversion H; subst. exists [], [], [].
    rewrite !app_nil_r. simpl.
    split; [reflexivity|]. split; [reflexivity|]. split; [reflexivity|].
    split; [reflexivity|]. split; [tauto|]. split; tauto.
  - simpl in H. destruct v as [|v0 [|v1 v]]; [| |discriminate].
    + apply IH in H.
      destruct H as (eks & dks & kp & -> & -> & Hk & Hd & He & Hdel & Hkp).
      exists (k :: eks), dks, kp. rewrite <- app_assoc.
      split; [reflexivity|]. split; [reflexivity|].
      split; [simpl; now constructor|]. split; [exact Hd|].
      split; [|split].
      * intros k' [<-|Hin]; [now left|right; auto].
      * intros k' Hin. destruct (Hdel k' Hin) as [v0 Hv0]. exists v0. now right.
      * intros k' v0 Hin. right. auto.
    + destruct (negb (str_in v0 dl)) eqn:Ein.
      * apply IH in H.
        destruct H as (eks & dks & kp & -> & -> & Hk & Hd & He & Hdel & Hkp).
        exists eks, (k :: dks), kp. rewrite <- app_assoc.
        split; [reflexivity|]. split; [reflexivity|].
        split; [|split; [exact Hd|split; [|split]]].
        -- simpl. rewrite Hk. apply Permutation_middle.
        -- intros k' Hin. right. auto.
        -- intros k' [<-|Hin]; [exists v0; now left|].
           destruct (Hdel k' Hin) as [v Hv]. exists v. now right.
        -- intros k' v' Hin. right. auto.
      * apply negb_false_iff in Ein. apply str_in_In in Ein.
        apply IH in H.
        destruct H as (eks & dks & kp & -> & -> & Hk & Hd & He & Hdel & Hkp).
        exists eks, dks, ((k, v0) :: kp).
        split; [reflexivity|]. split; [reflexivity|].
        split; [|split; [|split; [|split]]].
        -- simpl. rewrite Hk. rewrite !app_assoc. apply Permutation_middle.
        -- simpl. rewrite (list_remove_perm _ _ Ein). now constructor.
        -- intros k' Hin. right. auto.
        -- intros k' Hin. destruct (Hdel k' Hin) as [v Hv]. exists v. now right.
        -- intros k' v' [Heq|Hin]; [inversion Heq; now left|right; auto].
Qed.

Lemma fold_clear_get (dks : list string) (vd : mapping (list string))
    (ax : string) :
  dict_get (fold_left (fun vd k => dict_set vd k []) dks vd) ax
  = if str_in ax dks then Some [] else dict_get vd ax.
Proof.
  revert vd. induction dks as [|k dks IH]; intros vd; simpl; [reflexivity|].
  rewrite IH. destruct (str_in ax dks) eqn:E.
  - now rewrite orb_true_r.
  - rewrite orb_false_r. destruct (String.eqb_spec ax k).
    + subst. apply dict_get_set_eq.
    + apply dict_get_set_ne. congruence.
Qed.

Lemma fold_clear_NoDup (dks : list string) (vd : mapping (list string)) :
  NoDup (dict_keys vd) ->
  NoDup (dict_keys (fold_left (fun vd k => dict_set vd k []) dks vd)).
Proof.
  revert vd. induction dks as [|k dks IH]; intros vd H; simpl; [exact H|].
  apply IH. now apply dict_set_NoDup.
Qed.

Lemma sorted_nonempty_iff (vd : mapping (list string)) (ax : string)
    (names : list string) :
  NoDup (dict_keys vd) ->
  In (ax, names) (sorted_nonempty vd)
  <-> exists v, dict_get vd ax = Some v /\ v <> [] /\ names = Str.sorted v.
Proof.
  intros Hnd. unfold sorted_nonempty. rewrite in_map_iff. split.
  - intros ([k v] & Heq & Hin). apply filter_In in Hin.
    destruct Hin as [Hin Hne]. simpl in Heq, Hne. inversion Heq; subst.
    exists v. split; [now apply dict_get_NoDup|].
    split; [|reflexivity]. intros ->. discriminate.
  - intros (v & Hget & Hne & ->). exists (ax, v). split; [reflexivity|].
    apply filter_In. split; [now apply dict_get_In|].
    simpl. destruct v; [contradiction|reflexivity].
Qed.

(** The dict [_old_axes_dict] sorts and returns for a variable, in terms of
    what its loop found ([kp]: the axes kept with their dimension; [fill]: the
    one empty axis and the one dimension left over, if any). *)
Lemma axes_of_variable (vardict0 : mapping (list string))
    (eks dks : list string) (kp : list (string * string))
    (fill : option (string * string)) (d : mapping (list string))
    (dims : list string) :
  NoDup (dict_keys vardict0) ->
  Permutation (dict_keys vardict0) (eks ++ dks ++ map fst kp)%list ->
  Permutation dims
    (map snd kp ++ match fill with Some (_, x) => [x] | None => [] end)%list ->
  (forall k, In k eks -> In (k, []) vardict0) ->
  (forall k v0, In (k, v0) kp -> In (k, [v0]) vardict0) ->
  match fill with Some (e, _) => In e eks | None => True end ->
  d = sorted_nonempty
        (fold_left (fun vd k => dict_set vd k []) dks
           match fill with
           | Some (e, x) => dict_set vardict0 e [x]
           | None => vardict0
           end) ->
  (forall ax names, In (ax, names) d ->
     In ax (dict_keys vardict0)
     /\ exists dim, names = [dim] /\ In dim dims)
  /\ (forall dim, In dim dims -> exists ax, In (ax, [dim]) d)
  /\ NoDup (dict_keys d).
Proof.
  intros Hnd Hkeys Hdims Heks Hkp Hfill ->.
  set (vd1 := match fill with
              | Some (e, x) => dict_set vardict0 e [x]
              | None => vardict0
              end).
  assert (Hnd1 : NoDup (dict_keys vd1)).
  { subst vd1. destruct fill as [[e x]|]; [now apply dict_set_NoDup|exact Hnd]. }
  assert (Hnd2 : NoDup (dict_keys
                          (fold_left (fun vd k => dict_set vd k []) dks vd1)))
    by now apply fold_clear_NoDup.
  assert (Hall : NoDup (eks ++ dks ++ map fst kp)%list)
    by (eapply Permutation_NoDup; eassumption).
  assert (Hget1 : forall ax,
            dict_get vd1 ax
            = match fill with
              | Some (e, x) => if String.eqb e ax then Some [x]
                               else dict_get vardict0 ax
              | None => dict_get vardict0 ax
              end).
  { intros ax. subst vd1. destruct fill as [[e x]|]; [|reflexivity].
    destruct (String.eqb_spec e ax).
    - subst. apply dict_get_set_eq.
    - now apply dict_get_set_ne. }
  assert (Hkept : forall k v0, In (k, v0) kp ->
            dict_get (fold_left (fun vd k => dict_set vd k []) dks vd1) k
            = Some [v0]).
  { intros k v0 Hin.
    assert (Hk : In k (map fst kp))
      by (change k with (fst (k, v0)); now apply in_map).
    rewrite fold_clear_get.
    destruct (str_in k dks) eqn:E.
    { apply str_in_In in E. exfalso.
      apply NoDup_app_remove_l in Hall.
      exact (NoDup_app_disjoint _ _ _ Hall E Hk). }
    rewrite Hget1.
    assert (Hnot : ~ In k eks).
    { intros He. apply (NoDup_app_disjoint _ _ k Hall He).
      apply in_or_app. now right. }
    assert (Hv : dict_get vardict0 k = Some [v0])
      by (apply dict_get_NoDup; auto).
    destruct fill as [[e x]|]; [|exact Hv].
    destruct (String.eqb_spec e k); [subst; contradiction|exact Hv]. }
  split; [|split].
  - intros ax names Hin. apply sorted_nonempty_iff in Hin; [|exact Hnd2].
    destruct Hin as (v & Hget & Hne & ->).
    rewrite fold_clear_get in Hget.
    destruct (str_in ax dks) eqn:Edk; [inversion Hget; congruence|].
    rewrite Hget1 in Hget.
    assert (Hfilled : forall e x, fill = Some (e, x) -> e = ax ->
              v = [x] ->
              In ax (dict_keys vardict0)
              /\ exists dim, Str.sorted v = [dim] /\ In dim dims).
    { intros e x Hf <- ->. split.
      - rewrite Hf in Hfill. apply Heks in Hfill.
        change e with (fst (e, @nil string)). now apply in_map.
      - exists x. split; [reflexivity|].
        rewrite Hdims, Hf. apply in_or_app. right. now left. }
    assert (Hplain : dict_get vardict0 ax = Some v ->
              In ax (dict_keys vardict0)
              /\ exists dim, Str.sorted v = [dim] /\ In dim dims).
    { intros Hv.
      assert (Hax : In ax (dict_keys vardict0))
        by (apply dict_in_keys; now apply dict_in_get with (v := v)).
      split; [exact Hax|].
      rewrite Hkeys in Hax. apply in_app_or in Hax.
      destruct Hax as [He|Hax].
      { apply Heks in He. apply (dict_get_NoDup _ _ _ Hnd) in He. congruence. }
      apply in_app_or in Hax. destruct Hax as [Hd|Hk].
      { apply str_in_In in Hd. congruence. }
      apply in_map_iff in Hk. destruct Hk as ([k v0] & <- & Hk).
      pose proof (Hkp _ _ Hk) as Hitem.
      apply (dict_get_NoDup _ _ _ Hnd) in Hitem. simpl in Hv.
      assert (v = [v0]) by congruence. subst v.
      exists v0. split; [reflexivity|].
      rewrite Hdims. apply in_or_app. left.
      change v0 with (snd (k, v0)). now apply in_map. }
    destruct fill as [[e x]|]; [|now apply Hplain].
    destruct (String.eqb_spec e ax).
    + apply (Hfilled e x); [reflexivity|assumption|congruence].
    + now apply Hplain.
  - intros dim Hdim. rewrite Hdims in Hdim. apply in_app_or in Hdim.
    destruct Hdim as [Hdim|Hdim].
    + apply in_map_iff in Hdim. destruct Hdim as ([k v0] & <- & Hk).
      exists k. apply sorted_nonempty_iff; [exact Hnd2|].
      exists [v0]. split; [now apply Hkept|]. split; [discriminate|reflexivity].
    + destruct fill as [[e x]|]; [|destruct Hdim].
      destruct Hdim as [<-|[]].
      exists e. apply sorted_nonempty_iff; [exact Hnd2|].
      exists [x]. split; [|split; [discriminate|reflexivity]].
      rewrite fold_clear_get.
      destruct (str_in e dks) eqn:E.
      { apply str_in_In in E. exfalso.
        apply (NoDup_app_disjoint _ _ e Hall Hfill).
        apply in_or_app. now left. }
      rewrite Hget1. now rewrite String.eqb_refl.
  - rewrite sorted_nonempty_keys. now apply filter_keys_NoDup.
Qed.

(** The dict [_old_axes_dict] returns for a variable: one name under each
    label, a dimension of the variable, and every dimension under some
    label. *)
Lemma _old_axes_dict_variable_aux {CF : CFAccessor} (ds : Dataset)
    (name : string) (da : DataArray) (d : mapping (list string)) :
  dict_get (ds_variables ds) name = Some da ->
  _old_axes_dict ds (Some name) = Ok d ->
  (forall ax names, In (ax, names) d ->
     In ax _AXIS_NAMES /\ exists dim, names = [dim] /\ In dim (da_dims da))
  /\ (forall dim, In dim (da_dims da) -> exists ax, In (ax, [dim]) d)
  /\ NoDup (dict_keys d).
Proof.
  intros Hda. unfold _old_axes_dict, lookup_or_KeyError. rewrite Hda.
  cbn [rbind].
  set (vardict0 := map (fun key => (key, axis_names ds (Some name) key))
                       _AXIS_NAMES).
  assert (Hkeys0 : dict_keys vardict0 = _AXIS_NAMES) by apply vardict_keys.
  destruct (validate_axes name vardict0 [] [] (da_dims da))
    as [[[ek' dk'] dl']|] eqn:Eval; cbn [rbind]; [|discriminate].
  apply validate_axes_spec in Eval.
  destruct Eval as (eks & dks & kp & Hek & Hdk & Hk & Hd & He & _ & Hkp).
  simpl in Hek, Hdk. subst ek' dk'.
  assert (Hnd0 : NoDup (dict_keys vardict0))
    by (rewrite Hkeys0; apply _AXIS_NAMES_NoDup).
  intros H. rewrite <- Hkeys0.
  destruct dl' as [|x [|y dl']].
  - cbn [rbind] in H. inversion H as [Hd'].
    apply (@axes_of_variable vardict0 eks dks kp None); auto.
  - destruct eks as [|e [|e' eks]]; cbn [rbind] in H; try discriminate.
    inversion H as [Hd'].
    apply (@axes_of_variable vardict0 [e] dks kp (Some (e, x))); auto.
    now left.
  - discriminate.
Qed.

Lemma collect_coords_dataset_eq {CF : CFAccessor} (ds : Dataset)
    (filter_set : option (list string)) (ax : string)
    (coord_names : list string) (new_coords : list coord) :
  collect_coords ds None filter_set ax coord_names new_coords
  = Ok (new_coords
        ++ map (coord_for ds ax) (filter (kept_name filter_set) coord_names))%list.
Proof.
  revert new_coords.
  induction coord_names as [|c rest IH]; intros acc.
  - simpl. now rewrite app_nil_r.
  - assert (Hskip : String.eqb c ""
                    || match filter_set with
                       | Some fs => negb (str_in c fs)
                       | None => false
                       end
                    = negb (kept_name filter_set c)).
    { unfold kept_name. destruct (String.eqb c ""); [reflexivity|].
      destruct filter_set as [fs|]; simpl; [|reflexivity].
      now destruct (str_in c fs). }
    cbn [collect_coords filter]. rewrite Hskip.
    destruct (kept_name filter_set c); cbn [negb map]; [|apply IH].
    assert (Hcoord : coord_for ds ax c
                     = match dict_get (ds_variables ds) c with
                       | Some da => CoordArray da
                       | None =>
                           CoordPlaceholder
                             (mkPlaceholder c ax ATTR_NOT_FOUND ATTR_NOT_FOUND)
                       end) by reflexivity.
    rewrite Hcoord.
    destruct (dict_get (ds_variables ds) c); cbn [rbind];
      rewrite IH, <- app_assoc; reflexivity.
Qed.

Lemma vardict_get {A} (f : string -> A) (keys : list string) (ax : string) :
  In ax keys -> dict_get (map (fun key => (key, f key)) keys) ax = Some (f ax).
Proof.
  induction keys as [|k keys IH]; intros Hin; [destruct Hin|].
  simpl. destruct (String.eqb_spec k ax) as [->|Hne]; [reflexivity|].
  destruct Hin as [Heq|Hin]; [contradiction|]. now apply IH.
Qed.

Lemma sorted_nonempty_get (vd : mapping (list string)) (ax : string) :
  NoDup (dict_keys vd) ->
  dict_get (sorted_nonempty vd) ax
  = match dict_get vd ax with
    | Some (x :: l) => Some (Str.sorted (x :: l))
    | _ => None
    end.
Proof.
  intros Hnd.
  destruct (dict_get (sorted_nonempty vd) ax) as [names|] eqn:E.
  - apply dict_get_In in E. apply sorted_nonempty_iff in E; [|exact Hnd].
    destruct E as (v & -> & Hne & ->). destruct v; [contradiction|reflexivity].
  - destruct (dict_get vd ax) as [[|x l]|] eqn:Ev; try reflexivity.
    exfalso. apply dict_get_None in E. apply E.
    assert (Hin : In (ax, Str.sorted (x :: l)) (sorted_nonempty vd)).
    { apply sorted_nonempty_iff; [exact Hnd|]. exists (x :: l).
      split; [exact Ev|]. split; [discriminate|reflexivity]. }
    change ax with (fst (ax, Str.sorted (x :: l))). now apply in_map.
Qed.

(** The loop of [_old_axes_dict] goes through when no axis has two names
    and the names are the dimensions: every dimension is taken out. *)
Lemma validate_axes_ok (name : string) (items : mapping (list string)) :
  forall ek dk dl,
    (forall k v, In (k, v) items -> List.length v <= 1) ->
    Permutation dl (concat (map snd items)) ->
    exists ek', validate_axes name items ek dk dl = Ok (ek', dk, []).
Proof.
  induction items as [|[k v] items IH]; intros ek dk dl Hlen Hperm.
  - simpl in *. apply Permutation_sym, Permutation_nil in Hperm. subst. eauto.
  - assert (Hrest : forall k v, In (k, v) items -> List.length v <= 1)
      by (intros k' v' H'; apply (Hlen k' v'); now right).
    simpl. destruct v as [|v0 [|v1 v]].
    + now apply IH.
    + simpl in Hperm.
      assert (Hin : In v0 dl).
      { eapply Permutation_in; [apply Permutation_sym; exact Hperm|now left]. }
      pose proof (proj2 (str_in_In v0 dl) Hin) as Hin'. rewrite Hin'.
      cbn [negb]. apply IH; [exact Hrest|].
      apply Permutation_cons_inv with (a := v0).
      rewrite <- (list_remove_perm _ _ Hin). exact Hperm.
    + exfalso. specialize (Hlen k (v0 :: v1 :: v) (or_introl eq_refl)).
      simpl in Hlen. lia.
Qed.

Section FillAxes.
Variables (ds : Dataset) (filter_set : option (list string)).

Lemma kept_name_skip (c : string) :
  String.eqb c ""
  || match filter_set with
     | Some fs => negb (str_in c fs)
     | None => false
     end
  = negb (kept_name filter_set c).
Proof.
  unfold kept_name. destruct (String.eqb c ""); [reflexivity|].
  destruct filter_set as [fs|]; simpl; [|reflexivity].
  now destruct (str_in c fs).
Qed.

(** The one name of an axis that is a variable of the dataset. *)
Lemma collect_coords_present var_name ax n c :
  dict_get (ds_variables ds) n = Some c ->
  collect_coords ds var_name filter_set ax [n] []
  = Ok (if kept_name filter_set n then [CoordArray c] else []).
Proof.
  intros Hn. cbn [collect_coords]. rewrite kept_name_skip.
  destruct (kept_name filter_set n); cbn [negb]; [|reflexivity].
  now rewrite Hn.
Qed.

(** The one name of an axis of a variable, a dimension of it: [axes] goes on
    only if the dataset has a variable of that name. *)
Lemma collect_coords_single name da ax n cs :
  dict_get (ds_variables ds) name = Some da ->
  In n (da_dims da) ->
  collect_coords ds (Some name) filter_set ax [n] [] = Ok cs ->
  (kept_name filter_set n = false /\ cs = [])
  \/ exists c, kept_name filter_set n = true
               /\ dict_get (ds_variables ds) n = Some c
               /\ cs = [CoordArray c].
Proof.
  intros Hda Hdim. cbn [collect_coords]. rewrite kept_name_skip.
  destruct (kept_name filter_set n); cbn [negb].
  - destruct (dict_get (ds_variables ds) n) as [c|] eqn:En.
    + intros H. inversion H; subst. right. exists c. auto.
    + unfold lookup_or_KeyError. rewrite Hda. cbn [rbind].
      rewrite (proj2 (str_in_In n (da_dims da)) Hdim). cbn [rbind].
      discriminate.
  - intros H. inversion H; subst. now left.
Qed.

Lemma fill_axes_NoDup var_name items d d' :
  fill_axes ds var_name filter_set items d = Ok d' ->
  NoDup (dict_keys d) -> NoDup (dict_keys d').
Proof.
  revert d. induction items as [|[ax names] items IH]; intros d; simpl.
  - intros H; inversion H; now subst.
  - destruct (collect_coords ds var_name filter_set ax names []) as [cs|];
      simpl; [|discriminate].
    destruct cs as [|c0 more]; [apply IH|].
    destruct var_name as [name|].
    + destruct more; [|discriminate].
      intros H Hnd. eapply IH; [exact H|]. now apply dict_set_NoDup.
    + intros H Hnd. eapply IH; [exact H|]. now apply dict_set_NoDup.
Qed.

(** What [fill_axes] leaves under each label when it returns: the
    coordinates collected for the label, if there are any. *)
Lemma fill_axes_get var_name items d d' :
  fill_axes ds var_name filter_set items d = Ok d' ->
  NoDup (dict_keys items) ->
  forall ax,
    dict_get d' ax
    = match dict_get items ax with
      | Some names =>
          match collect_coords ds var_name filter_set ax names [] with
          | Ok (c0 :: more) =>
              Some match var_name with
                   | Some _ => One c0
                   | None => Many (c0 :: more)
                   end
          | _ => dict_get d ax
          end
      | None => dict_get d ax
      end.
Proof.
  revert d. induction items as [|[a ns] items IH]; intros d H Hnd ax.
  - simpl in H. inversion H; subst. reflexivity.
  - simpl in H. inversion Hnd as [|? ? Hfresh Hnd']; subst.
    destruct (collect_coords ds var_name filter_set a ns []) as [cs|] eqn:E;
      simpl in H; [|discriminate].
    assert (Hrest : dict_get items a = None) by (now apply dict_get_None).
    cbn [dict_get].
    destruct (String.eqb_spec a ax) as [Heq|Hne].
    + subst ax. rewrite E.
      destruct cs as [|c0 more].
      * rewrite (IH _ H Hnd' a), Hrest. reflexivity.
      * destruct var_name as [name|].
        -- destruct more; [|discriminate].
           rewrite (IH _ H Hnd' a), Hrest. apply dict_get_set_eq.
        -- rewrite (IH _ H Hnd' a), Hrest. apply dict_get_set_eq.
    + destruct cs as [|c0 more].
      * apply (IH _ H Hnd' ax).
      * destruct var_name as [name|].
        -- destruct more; [|discriminate].
           rewrite (IH _ H Hnd' ax).
           now rewrite dict_get_set_ne by exact Hne.
        -- rewrite (IH _ H Hnd' ax).
           now rewrite dict_get_set_ne by exact Hne.
Qed.

Lemma fill_axes_variable_ok name items d :
  (forall ax names, In (ax, names) items ->
     exists n, names = [n] /\ dict_in n (ds_variables ds) = true) ->
  exists d', fill_axes ds (Some name) filter_set items d = Ok d'.
Proof.
  revert d. induction items as [|[ax names] items IH]; intros d Hitems;
    [simpl; eauto|].
  destruct (Hitems ax names (or_introl eq_refl)) as (n & -> & Hn).
  assert (Hrest : forall ax names, In (ax, names) items ->
            exists n, names = [n] /\ dict_in n (ds_variables ds) = true)
    by (intros ax' names' H'; apply (Hitems ax' names'); now right).
  unfold dict_in in Hn.
  destruct (dict_get (ds_variables ds) n) as [c|] eqn:En; [|discriminate].
  cbn [fill_axes]. rewrite (@collect_coords_present (Some name) ax n c En).
  destruct (kept_name filter_set n); cbn [rbind]; now apply IH.
Qed.

End FillAxes.

(** C6: for a single variable, the dict [axes] returns has each axis label
    once and, under it, one coordinate: the variable of the dataset whose
    name [_old_axes_dict] has for the label, a dimension of the variable
    (and in the filter); and [axes] does return such a dict when the accessor
    gives no axis two names, the names it gives are the dimensions of the
    variable, and the dataset has a variable for each. When the accessor
    gives two or more coordinates of the variable for one axis, [axes]
    raises a [TypeError]. For the whole dataset [axes] never raises, and the
    entry of an axis is the list of all the coordinates kept for it, however
    many. *)
Theorem axes_one_coordinate_per_axis {CF : CFAccessor} (ds : Dataset)
    (filter_set : option (list string)) :
  (forall var_name da d,
     dict_get (ds_variables ds) var_name = Some da ->
     axes ds (Some var_name) filter_set = Ok d ->
     NoDup (dict_keys d)
     /\ exists axes_d,
          _old_axes_dict ds (Some var_name) = Ok axes_d
          /\ forall ax e,
               dict_get d ax = Some e
               <-> exists n c,
                     dict_get axes_d ax = Some [n]
                     /\ kept_name filter_set n = true
                     /\ In n (da_dims da)
                     /\ dict_get (ds_variables ds) n = Some c
                     /\ e = One (CoordArray c))
  /\ (forall var_name da,
        dict_get (ds_variables ds) var_name = Some da ->
        (forall ax, In ax _AXIS_NAMES ->
           List.length (axis_names ds (Some var_name) ax) <= 1) ->
        Permutation (da_dims da)
          (concat (map (axis_names ds (Some var_name)) _AXIS_NAMES)) ->
        (forall n, In n (da_dims da) -> dict_in n (ds_variables ds) = true) ->
        exists d,
          axes ds (Some var_name) filter_set = Ok d
          /\ forall ax n,
               In ax _AXIS_NAMES ->
               axis_names ds (Some var_name) ax = [n] ->
               kept_name filter_set n = true ->
               exists c,
                 dict_get (ds_variables ds) n = Some c
                 /\ dict_get d ax = Some (One (CoordArray c)))
  /\ (forall var_name ax,
        dict_in var_name (ds_variables ds) = true ->
        In ax _AXIS_NAMES ->
        2 <= List.length (axis_names ds (Some var_name) ax) ->
        exists msg, axes ds (Some var_name) filter_set = Err (TypeError msg))
  /\ (exists d,
        axes ds None filter_set = Ok d
        /\ NoDup (dict_keys d)
        /\ forall ax e,
             dict_get d ax = Some e
             <-> In ax _AXIS_NAMES
                 /\ exists c cs,
                      map (coord_for ds ax)
                          (filter (kept_name filter_set)
                                  (Str.sorted (axis_names ds None ax)))
                      = c :: cs
                      /\ e = Many (c :: cs)).
Proof.
  split; [|split; [|split]].
  - intros var_name da d Hda Hrun. unfold axes in Hrun.
    destruct (_old_axes_dict ds (Some var_name)) as [axes_d|] eqn:Eold;
      cbn [rbind] in Hrun; [|discriminate].
    destruct (@_old_axes_dict_variable_aux CF ds var_name da axes_d Hda Eold)
      as (Hitems & _ & Hnd).
    split; [eapply fill_axes_NoDup; [exact Hrun|constructor]|].
    exists axes_d. split; [reflexivity|].
    intros ax e.
    rewrite (@fill_axes_get ds filter_set (Some var_name) axes_d [] d
               Hrun Hnd ax).
    cbn [dict_get].
    split.
    + destruct (dict_get axes_d ax) as [names|] eqn:Eax; [|discriminate].
      pose proof (dict_get_In _ _ Eax) as Hin.
      destruct (Hitems ax names Hin) as (_ & n & -> & Hdim).
      destruct (collect_coords ds (Some var_name) filter_set ax [n] [])
        as [cs|] eqn:Ecs; [|discriminate].
      destruct (@collect_coords_single ds filter_set var_name da ax n cs
                  Hda Hdim Ecs)
        as [[_ ->]|(c & Hk & Hc & ->)]; [discriminate|].
      intros H. inversion H; subst. exists n, c. auto.
    + intros (n & c & Hget & Hk & Hdim & Hc & ->). rewrite Hget.
      rewrite (@collect_coords_present ds filter_set (Some var_name) ax n c
                 Hc), Hk.
      reflexivity.
  - intros var_name da Hda Hlen Hperm Hds.
    assert (Hold : _old_axes_dict ds (Some var_name)
                   = Ok (sorted_nonempty
                           (map (fun key =>
                                   (key, axis_names ds (Some var_name) key))
                                _AXIS_NAMES))).
    { unfold _old_axes_dict, lookup_or_KeyError. rewrite Hda. cbn [rbind].
      destruct (@validate_axes_ok var_name
                  (map (fun key => (key, axis_names ds (Some var_name) key))
                       _AXIS_NAMES) [] [] (da_dims da)) as [ek' Hval].
      - intros k v Hin. apply in_map_iff in Hin.
        destruct Hin as (key & Heq & Hkey). inversion Heq; subst.
        now apply Hlen.
      - now rewrite map_map.
      - rewrite Hval. reflexivity. }
    set (vd := map (fun key => (key, axis_names ds (Some var_name) key))
                   _AXIS_NAMES) in *.
    assert (Hndv : NoDup (dict_keys vd)).
    { subst vd. rewrite vardict_keys. apply _AXIS_NAMES_NoDup. }
    destruct (@_old_axes_dict_variable_aux CF ds var_name da _ Hda Hold)
      as (Hitems & _ & Hnd).
    destruct (@fill_axes_variable_ok ds filter_set var_name
                (sorted_nonempty vd) []) as [d Hd].
    { intros ax names Hin. destruct (Hitems ax names Hin) as (_ & n & -> & Hdim).
      exists n. split; [reflexivity|now apply Hds]. }
    exists d. split; [unfold axes; rewrite Hold; exact Hd|].
    intros ax n Hax Hnames Hkept.
    assert (Hdim : In n (da_dims da)).
    { eapply Permutation_in; [apply Permutation_sym; exact Hperm|].
      apply in_concat. exists [n]. split; [|now left].
      rewrite <- Hnames. now apply in_map. }
    pose proof (Hds n Hdim) as Hn. unfold dict_in in Hn.
    destruct (dict_get (ds_variables ds) n) as [c|] eqn:En; [|discriminate].
    exists c. split; [reflexivity|].
    rewrite (@fill_axes_get ds filter_set (Some var_name) _ [] d Hd Hnd ax).
    rewrite sorted_nonempty_get by exact Hndv.
    subst vd. rewrite vardict_get by exact Hax. rewrite Hnames.
    change (Str.sorted [n]) with [n].
    rewrite (@collect_coords_present ds filter_set (Some var_name) ax n c
               En), Hkept.
    reflexivity.
  - intros var_name ax Hvar Hax Hlen. unfold axes, _old_axes_dict.
    unfold dict_in in Hvar. unfold lookup_or_KeyError.
    destruct (dict_get (ds_variables ds) var_name) as [da|]; [|discriminate].
    simpl.
    destruct (validate_axes_too_many var_name
                (map (fun key => (key, axis_names ds (Some var_name) key))
                     _AXIS_NAMES) [] [] (da_dims da)) as [msg Hmsg].
    { exists ax, (axis_names ds (Some var_name) ax). split; [|assumption].
      apply (in_map (fun key => (key, axis_names ds (Some var_name) key))
                    _AXIS_NAMES ax Hax). }
    exists msg. unfold _AXIS_NAMES in Hmsg. simpl in Hmsg. now rewrite Hmsg.
  - set (vd := map (fun key => (key, axis_names ds None key)) _AXIS_NAMES).
    assert (Hkeys : dict_keys vd = _AXIS_NAMES) by apply vardict_keys.
    assert (Hndv : NoDup (dict_keys vd))
      by (rewrite Hkeys; apply _AXIS_NAMES_NoDup).
    assert (Hnd : NoDup (dict_keys (sorted_nonempty vd)))
      by (rewrite sorted_nonempty_keys; now apply filter_keys_NoDup).
    destruct (fill_axes_dataset ds filter_set (sorted_nonempty vd) [])
      as (d & Hd & _).
    { intros ax names H. apply sorted_nonempty_In in H.
      destruct H as (v & Hv & ->). apply in_map_iff in Hv.
      destruct Hv as (key & Heq & _). inversion Heq; now subst. }
    exists d. split; [exact Hd|].
    split; [eapply fill_axes_NoDup; [exact Hd|constructor]|].
    intros ax e.
    rewrite (@fill_axes_get ds filter_set None _ [] d Hd Hnd ax).
    rewrite sorted_nonempty_get by exact Hndv. cbn [dict_get].
    destruct (in_dec string_dec ax _AXIS_NAMES) as [Hax|Hax].
    + subst vd. rewrite vardict_get by exact Hax.
      destruct (axis_names ds None ax) as [|x l] eqn:Enames.
      * split; [discriminate|].
        intros (_ & c & cs & Hmap & _). discriminate Hmap.
      * rewrite collect_coords_dataset_eq. cbn [app].
        destruct (map (coord_for ds ax)
                      (filter (kept_name filter_set) (Str.sorted (x :: l))))
          as [|c cs] eqn:Emap.
        -- split; [discriminate|].
           intros (_ & c & cs & Hmap & _). discriminate Hmap.
        -- split.
           ++ intros H. inversion H; subst. split; [exact Hax|].
              exists c, cs. split; reflexivity.
           ++ intros (_ & c' & cs' & Hmap & ->). now inversion Hmap.
    + assert (Hnone : dict_get vd ax = None)
        by (apply dict_get_None; rewrite Hkeys; exact Hax).
      rewrite Hnone. split; [discriminate|]. intros [Hin _]. contradiction.
Qed.

(** The accessor of the examples on [pr_ds] and on [two_lon_ds]: the
    variable [pr] of [pr_ds] has its three dimensions under X, Y and T; the
    two X coordinates of [two_lon_ds] are an error for the variable [pr],
    and one entry for the dataset. *)
Lemma axes_one_coordinate_per_axis_witness :
  (let d := [ ("X", One (CoordArray (snd (coordinate "lon" "X"
                                             [("bounds", VStr "lon_bnds")]))));
              ("Y", One (CoordArray (snd (coordinate "lat" "Y" []))));
              ("T", One (CoordArray (snd (coordinate "time" "T"
                                             [("calendar", VStr "noleap")])))) ] in
   axes pr_ds (Some "pr") None = Ok d
   /\ NoDup (dict_keys d)
   /\ exists axes_d,
        _old_axes_dict pr_ds (Some "pr") = Ok axes_d
        /\ forall ax e,
             dict_get d ax = Some e
             <-> exists n c,
                   dict_get axes_d ax = Some [n]
                   /\ kept_name None n = true
                   /\ In n ["time"; "lat"; "lon"]
                   /\ dict_get (ds_variables pr_ds) n = Some c
                   /\ e = One (CoordArray c))
  /\ (exists d,
        axes pr_ds (Some "pr") None = Ok d
        /\ forall ax n,
             In ax _AXIS_NAMES ->
             axis_names pr_ds (Some "pr") ax = [n] ->
             kept_name None n = true ->
             exists c,
               dict_get (ds_variables pr_ds) n = Some c
               /\ dict_get d ax = Some (One (CoordArray c)))
  /\ (exists msg, axes two_lon_ds (Some "pr") None = Err (TypeError msg))
  /\ (exists d,
        axes two_lon_ds None None = Ok d
        /\ NoDup (dict_keys d)
        /\ forall ax e,
             dict_get d ax = Some e
             <-> In ax _AXIS_NAMES
                 /\ exists c cs,
                      map (coord_for two_lon_ds ax)
                          (filter (kept_name None)
                                  (Str.sorted (axis_names two_lon_ds None ax)))
                      = c :: cs
                      /\ e = Many (c :: cs)).
Proof.
  split; [|split; [|split]].
  - cbv zeta. split; [reflexivity|].
    exact (proj1 (@axes_one_coordinate_per_axis accessor pr_ds None)
                 "pr" _ _ eq_refl eq_refl).
  - apply (proj1 (proj2 (@axes_one_coordinate_per_axis accessor pr_ds None))
                 "pr" _ eq_refl).
    + intros ax [<-|[<-|[<-|[<-|[]]]]]; simpl; lia.
    + change (Permutation ["time"; "lat"; "lon"] ["lon"; "lat"; "time"]).
      eapply perm_trans; [apply perm_swap|].
      eapply perm_trans; [apply perm_skip, perm_swap|]. apply perm_swap.
    + intros n [<-|[<-|[<-|[]]]]; reflexivity.
  - exact (proj1 (proj2 (proj2
             (@axes_one_coordinate_per_axis accessor two_lon_ds None)))
             "pr" "X" eq_refl ltac:(simpl; tauto) ltac:(simpl; lia)).
  - exact (proj2 (proj2 (proj2
             (@axes_one_coordinate_per_axis accessor two_lon_ds None)))).
Defined.

(* ------------------------------------------------------------------ *)
(** ** normalize_ds_attrs and restore_attrs *)

Lemma extends_refl a : extends a a.
Proof. intros k v H. exact H. Qed.

Lemma extends_trans a b c : extends a b -> extends b c -> extends a c.
Proof. intros Hab Hbc k v H. auto. Qed.

Lemma restored_cons k v items a :
  restored ((k, v) :: items) a
  = restored items (if negb (dict_in k a) then dict_set a k v else a).
Proof. reflexivity. Qed.

Lemma restored_extends items a : extends a (restored items a).
Proof.
  revert a.
  induction items as [|[k v] items IH]; intros a; [apply extends_refl|].
  rewrite restored_cons.
  eapply extends_trans; [|apply IH].
  intros k' v' H. unfold dict_in.
  destruct (dict_get a k) eqn:E; simpl; [assumption|].
  rewrite dict_get_set_ne; [assumption|]. congruence.
Qed.

Lemma restored_has_keys items a k :
  In k (dict_keys items) -> dict_in k (restored items a) = true.
Proof.
  revert a.
  induction items as [|[k0 v0] items IH]; intros a Hin; [destruct Hin|].
  rewrite restored_cons.
  destruct Hin as [Heq|Hin]; [simpl in Heq; subst k0|now apply IH].
  assert (H1 : exists x,
             dict_get (if negb (dict_in k a) then dict_set a k v0 else a) k
             = Some x).
  { unfold dict_in. destruct (dict_get a k) eqn:E; simpl.
    - eauto.
    - rewrite dict_get_set_eq. eauto. }
  destruct H1 as [x Hx].
  apply dict_in_get with (v := x). now apply (@restored_extends items).
Qed.

Lemma restored_fresh items a k v :
  dict_get a k = None -> dict_get items k = Some v ->
  dict_get (restored items a) k = Some v.
Proof.
  revert a.
  induction items as [|[k0 v0] items IH]; intros a Hnone Hget;
    [discriminate|].
  rewrite restored_cons. simpl in Hget.
  destruct (String.eqb_spec k0 k).
  - subst k0. inversion Hget; subst v0. unfold dict_in. rewrite Hnone. simpl.
    apply (@restored_extends items). apply dict_get_set_eq.
  - apply IH; [|assumption]. unfold dict_in.
    destruct (dict_get a k0); simpl; [assumption|].
    now rewrite dict_get_set_ne.
Qed.

Lemma restored_absent items a k :
  dict_get a k = None -> dict_get items k = None ->
  dict_get (restored items a) k = None.
Proof.
  revert a.
  induction items as [|[k0 v0] items IH]; intros a Hnone Hget; [exact Hnone|].
  rewrite restored_cons. simpl in Hget.
  destruct (String.eqb_spec k0 k); [discriminate|].
  apply IH; [|exact Hget]. unfold dict_in.
  destruct (dict_get a k0); simpl; [assumption|].
  now rewrite dict_get_set_ne.
Qed.

(** [restored] as a map: an attribute that is there keeps its value, and a
    key that is not there gets what the backup has for it, if anything. *)
Lemma restored_get items a k :
  dict_get (restored items a) k
  = match dict_get a k with
    | Some v => Some v
    | None => dict_get items k
    end.
Proof.
  destruct (dict_get a k) as [v|] eqn:Ea.
  - now apply (@restored_extends items).
  - destruct (dict_get items k) as [v|] eqn:Ei.
    + now apply restored_fresh.
    + now apply restored_absent.
Qed.

Lemma restored_self d : NoDup (dict_keys d) -> restored d d = d.
Proof.
  intros Hnd. unfold restored.
  assert (H : forall items, (forall k v, In (k, v) items -> dict_in k d = true) ->
            fold_left (fun a kv =>
                         if negb (dict_in (fst kv) a)
                         then dict_set a (fst kv) (snd kv) else a) items d = d).
  { induction items as [|[k v] items IH]; intros Hin; simpl; [reflexivity|].
    rewrite (Hin k v) by now left. simpl. apply IH.
    intros k' v' H'. apply (Hin k' v'). now right. }
  apply H. intros k v Hin. unfold dict_in.
  now rewrite (dict_get_NoDup _ _ _ Hnd Hin).
Qed.

Lemma _restore_one_cons name k v items p attrs_d :
  _restore_one name ((k, v) :: items) (p, attrs_d)
  = let a1 := if negb (dict_in k attrs_d) then dict_set attrs_d k v
              else attrs_d in
    match dict_get a1 k with
    | None => Raises (p, a1) (KeyError k)
    | Some cur =>
        if negb (value_eqb v cur) && negb (value_eqb v ATTR_NOT_FOUND) then
          match self_log DEBUG "%s: discrepancy for attr '%s': '%s' != '%s'."
                         [AStr name; AStr k; AVal v; AVal cur] p with
          | Returns p1 _ => _restore_one name items (p1, a1)
          | Raises p1 e => Raises (p1, a1) e
          end
        else _restore_one name items (p, a1)
    end.
Proof.
  cbv zeta. simpl. unfold bind, modify, get, lift, lookup_or_KeyError, zoom.
  cbn [fst snd].
  destruct (dict_get _ k) as [cur|]; [|reflexivity].
  destruct (negb (value_eqb v cur) && negb (value_eqb v ATTR_NOT_FOUND));
    [|reflexivity].
  cbn [fst snd]. now destruct (self_log _ _ _ p).
Qed.

(** [_restore_one] returns when the parser has a log: it leaves [restored]
    and, in the parser, changes the log only. *)
Lemma _restore_one_run name items p attrs_d records :
  log p = Some records ->
  exists records',
    _restore_one name items (p, attrs_d)
    = Returns (set_log p (Some records'), restored items attrs_d) tt.
Proof.
  revert p attrs_d records.
  induction items as [|[k v] items IH]; intros p a records Hlog.
  - exists records. simpl. unfold ret, restored. simpl.
    destruct p; simpl in *; now subst.
  - rewrite _restore_one_cons, restored_cons. cbv zeta.
    set (a1 := if negb (dict_in k a) then dict_set a k v else a).
    assert (Hcur : exists cur, dict_get a1 k = Some cur).
    { subst a1. unfold dict_in. destruct (dict_get a k) eqn:E; simpl.
      - eauto.
      - rewrite dict_get_set_eq. eauto. }
    destruct Hcur as [cur Hcur]. rewrite Hcur.
    destruct (negb (value_eqb v cur) && negb (value_eqb v ATTR_NOT_FOUND)).
    + unfold self_log. rewrite Hlog. cbv beta iota.
      destruct (IH (set_log p (Some (records ++
                  [LogRecord DEBUG "%s: discrepancy for attr '%s': '%s' != '%s'."
                             [AStr name; AStr k; AVal v; AVal cur]])%list))
                   a1 _ eq_refl) as [records' Hrun].
      exists records'. exact Hrun.
    + destruct (IH p a1 records Hlog) as [records' Hrun].
      exists records'. exact Hrun.
Qed.

(** Without a discrepancy nothing is logged. *)
Lemma _restore_one_same name d p :
  NoDup (dict_keys d) ->
  _restore_one name d (p, d) = Returns (p, d) tt.
Proof.
  intros Hnd.
  assert (H : forall items,
            (forall k v, In (k, v) items -> dict_get d k = Some v) ->
            _restore_one name items (p, d) = Returns (p, d) tt).
  { induction items as [|[k v] items IH]; intros Hin; [reflexivity|].
    rewrite _restore_one_cons. cbv zeta.
    unfold dict_in. rewrite (Hin k v) by now left. simpl.
    rewrite (Hin k v) by now left. rewrite value_eqb_refl. simpl.
    apply IH. intros k' v' H'. apply Hin. now right. }
  apply H. intros k v Hin. now apply dict_get_NoDup.
Qed.

Lemma strip_attrs_NoDup d : NoDup (dict_keys (strip_attrs d)).
Proof.
  unfold strip_attrs.
  assert (H : forall acc : dict, NoDup (dict_keys acc) ->
            NoDup (dict_keys
                     (fold_left (fun acc kv =>
                                   dict_set acc (Str.strip (fst kv)) (strip_ (snd kv)))
                                d acc))).
  { induction d as [|[k v] d IH]; intros acc Hacc; simpl; [assumption|].
    apply IH. now apply dict_set_NoDup. }
  apply H. constructor.
Qed.

Lemma strip_attrs_keys d k :
  In k (dict_keys (strip_attrs d)) -> In k (map Str.strip (dict_keys d)).
Proof.
  unfold strip_attrs.
  assert (H : forall acc : dict,
            In k (dict_keys
                    (fold_left (fun acc kv =>
                                  dict_set acc (Str.strip (fst kv)) (strip_ (snd kv)))
                               d acc)) ->
            In k (dict_keys acc) \/ In k (map Str.strip (dict_keys d))).
  { induction d as [|[k0 v0] d IH]; intros acc; simpl; [tauto|].
    intros Hin. apply IH in Hin. destruct Hin as [Hin|Hin]; [|tauto].
    apply dict_keys_set_incl in Hin. destruct Hin as [->|Hin]; tauto. }
  intros Hin. apply H in Hin. destruct Hin as [[]|Hin]. exact Hin.
Qed.

Lemma var_attrs_set_eq ds var d :
  dict_in var (ds_variables ds) = true ->
  var_attrs (set_var_attrs ds var d) var = d.
Proof.
  unfold dict_in, var_attrs, set_var_attrs.
  destruct (dict_get (ds_variables ds) var) eqn:E; [|discriminate].
  intros _. simpl. now rewrite dict_get_set_eq.
Qed.

Lemma var_attrs_set_ne ds var var' d :
  var <> var' -> var_attrs (set_var_attrs ds var d) var' = var_attrs ds var'.
Proof.
  intros Hne. unfold var_attrs, set_var_attrs.
  destruct (dict_get (ds_variables ds) var); [|reflexivity].
  simpl. now rewrite dict_get_set_ne.
Qed.

Lemma set_var_attrs_keys ds var d :
  dict_keys (ds_variables (set_var_attrs ds var d)) = dict_keys (ds_variables ds).
Proof.
  unfold set_var_attrs.
  destruct (dict_get (ds_variables ds) var) eqn:E; [|reflexivity].
  simpl. apply dict_keys_set_present. unfold dict_in. now rewrite E.
Qed.

Lemma set_var_attrs_ds_attrs ds var d :
  ds_attrs (set_var_attrs ds var d) = ds_attrs ds.
Proof.
  unfold set_var_attrs. now destruct (dict_get (ds_variables ds) var).
Qed.

Lemma normalize_vars_cons var rest p ds :
  normalize_vars (var :: rest) (p, ds)
  = match dict_get (ds_variables ds) var with
    | None => Raises (p, ds) (KeyError var)
    | Some da =>
        match normalized_var_attrs (fallback_cal p) (da_attrs da) with
        | Ok entry =>
            normalize_vars rest
              (set_var_attrs_restore p
                 (dict_set (var_attrs_restore p) var entry), ds)
        | Err e => Raises (p, ds) e
        end
    end.
Proof.
  simpl. unfold bind, get, lift, lookup_or_KeyError, put. cbn [fst snd].
  destruct (dict_get (ds_variables ds) var) as [da|]; [|reflexivity].
  destruct (normalized_var_attrs _ _); reflexivity.
Qed.

Lemma restore_vars_cons var rest p ds :
  restore_vars (var :: rest) (p, ds)
  = match dict_get (var_attrs_restore p) var with
    | None => Raises (p, ds) (KeyError var)
    | Some backup =>
        match _restore_one var backup (p, var_attrs ds var) with
        | Returns t _ => restore_vars rest (fst t, set_var_attrs ds var (snd t))
        | Raises t e => Raises (fst t, set_var_attrs ds var (snd t)) e
        end
    end.
Proof.
  simpl. unfold bind, get, lift, lookup_or_KeyError, zoom. cbn [fst snd].
  destruct (dict_get (var_attrs_restore p) var) as [backup|]; [|reflexivity].
  cbv beta iota delta [fst snd].
  destruct (_restore_one var backup (p, var_attrs ds var)); reflexivity.
Qed.

Lemma normalize_vars_run ds vars p :
  (forall var, In var vars ->
     In var (dict_keys (ds_variables ds))
     /\ exists e, normalized_var_attrs (fallback_cal p) (var_attrs ds var) = Ok e) ->
  exists m,
    normalize_vars vars (p, ds) = Returns (set_var_attrs_restore p m, ds) tt
    /\ (forall var, In var vars ->
          exists e, entry_of (fallback_cal p) ds m var e)
    /\ (forall var e, entry_of (fallback_cal p) ds (var_attrs_restore p) var e ->
          entry_of (fallback_cal p) ds m var e).
Proof.
  revert p. induction vars as [|var rest IH]; intros p Hvars.
  - exists (var_attrs_restore p). split; [|split].
    + simpl. unfold ret. now destruct p.
    + intros var [].
    + auto.
  - rewrite normalize_vars_cons.
    destruct (Hvars var (or_introl eq_refl)) as (Hin & e & He).
    apply dict_in_keys in Hin. unfold dict_in in Hin.
    assert (Hattrs : var_attrs ds var
                     = match dict_get (ds_variables ds) var with
                       | Some da => da_attrs da | None => [] end) by reflexivity.
    destruct (dict_get (ds_variables ds) var) as [da|] eqn:Eda; [|discriminate].
    rewrite <- Hattrs, He.
    set (p1 := set_var_attrs_restore p (dict_set (var_attrs_restore p) var e)).
    destruct (IH p1) as (m & Hrun & Hnew & Hold).
    { intros v Hv. apply Hvars. now right. }
    exists m. split; [exact Hrun|]. split.
    + intros v [<-|Hv]; [|now apply Hnew].
      exists e. apply Hold. split; [|exact He].
      subst p1. simpl. apply dict_get_set_eq.
    + intros v e' [Hget He']. apply Hold. subst p1. simpl.
      destruct (string_dec var v) as [<-|Hne].
      * split; [|congruence]. rewrite dict_get_set_eq. congruence.
      * split; [|exact He']. now rewrite dict_get_set_ne.
Qed.

Lemma restore_vars_run vars p ds records :
  log p = Some records ->
  (forall var, In var vars ->
     In var (dict_keys (ds_variables ds))
     /\ exists e, dict_get (var_attrs_restore p) var = Some e) ->
  exists records' ds',
    restore_vars vars (p, ds) = Returns (set_log p (Some records'), ds') tt
    /\ ds_attrs ds' = ds_attrs ds
    /\ dict_keys (ds_variables ds') = dict_keys (ds_variables ds)
    /\ (forall var, extends (var_attrs ds var) (var_attrs ds' var))
    /\ (forall var e, In var vars ->
          dict_get (var_attrs_restore p) var = Some e ->
          var_restored ds ds' var e).
Proof.
  revert p ds records.
  induction vars as [|var rest IH]; intros p ds records Hlog Hvars.
  - exists records, ds. split; [|split; [|split; [|split]]]; auto.
    + simpl. unfold ret. destruct p; simpl in *; now subst.
    + intros var. apply extends_refl.
    + intros var e [].
  - rewrite restore_vars_cons.
    destruct (Hvars var (or_introl eq_refl)) as (Hin & e & He). rewrite He.
    destruct (_restore_one_run var e p (var_attrs ds var) Hlog) as [r1 Hr1].
    rewrite Hr1. cbn [fst snd].
    set (ds1 := set_var_attrs ds var (restored e (var_attrs ds var))).
    assert (Hkeys1 : dict_keys (ds_variables ds1) = dict_keys (ds_variables ds))
      by apply set_var_attrs_keys.
    assert (Hvar1 : var_attrs ds1 var = restored e (var_attrs ds var)).
    { subst ds1. apply var_attrs_set_eq. now apply dict_in_keys. }
    assert (Hext1 : forall v, extends (var_attrs ds v) (var_attrs ds1 v)).
    { intros v. destruct (string_dec var v) as [<-|Hne].
      - rewrite Hvar1. apply restored_extends.
      - subst ds1. rewrite var_attrs_set_ne by assumption. apply extends_refl. }
    destruct (IH (set_log p (Some r1)) ds1 r1 eq_refl)
      as (r2 & ds2 & Hrun & Hattrs & Hkeys & Hext & Hrest).
    { intros v Hv. rewrite Hkeys1. apply Hvars. now right. }
    exists r2, ds2. split; [exact Hrun|].
    split; [rewrite Hattrs; apply set_var_attrs_ds_attrs|].
    split; [congruence|].
    split; [intros v; eapply extends_trans; [apply Hext1|apply Hext]|].
    intros v e' Hv He'.
    destruct (string_dec var v) as [<-|Hne].
    + assert (e' = e) by congruence. subst e'. split.
      * intros k Hk.
        assert (Hk1 : dict_in k (var_attrs ds1 var) = true)
          by (rewrite Hvar1; now apply restored_has_keys).
        unfold dict_in in Hk1.
        destruct (dict_get (var_attrs ds1 var) k) as [x|] eqn:Ex; [|discriminate].
        apply dict_in_get with (v := x). now apply Hext.
      * intros k x Hnone Hget. apply Hext. rewrite Hvar1.
        now apply restored_fresh.
    + destruct Hv as [Hv|Hv]; [contradiction|].
      destruct (Hrest v e' Hv He') as [Hkeys' Hfresh]. split; [exact Hkeys'|].
      intros k x Hnone Hget. apply Hfresh; [|exact Hget].
      subst ds1. now rewrite var_attrs_set_ne.
Qed.

Lemma restored_noop (items : list (string * value)) (a : dict) :
  (forall k, In k (dict_keys items) -> dict_in k a = true) ->
  restored items a = a.
Proof.
  induction items as [|[k v] items IH]; intros H; [reflexivity|].
  rewrite restored_cons. rewrite (H k) by now left. simpl.
  apply IH. intros k' Hk'. apply H. now right.
Qed.

Lemma restored_idempotent (items : list (string * value)) (a : dict) :
  restored items (restored items a) = restored items a.
Proof. apply restored_noop. intros k Hk. now apply restored_has_keys. Qed.

(** What [restore_vars] leaves of each variable when it returns: [restored]
    of its backup for a variable of the list, the attributes it had for any
    other. *)
Lemma restore_vars_exact vars p ds records q ds' :
  log p = Some records ->
  (forall var, In var vars -> In var (dict_keys (ds_variables ds))) ->
  restore_vars vars (p, ds) = Returns (q, ds') tt ->
  forall var,
    (In var vars ->
     exists e, dict_get (var_attrs_restore p) var = Some e
               /\ var_attrs ds' var = restored e (var_attrs ds var))
    /\ (~ In var vars -> var_attrs ds' var = var_attrs ds var).
Proof.
  revert p ds records.
  induction vars as [|v rest IH]; intros p ds records Hlog Hvars Hrun var.
  - simpl in Hrun. unfold ret in Hrun. inversion Hrun; subst.
    split; [intros []|reflexivity].
  - rewrite restore_vars_cons in Hrun.
    destruct (dict_get (var_attrs_restore p) v) as [e|] eqn:He;
      [|discriminate].
    destruct (_restore_one_run v e p (var_attrs ds v) Hlog) as [r1 Hr1].
    rewrite Hr1 in Hrun. cbn [fst snd] in Hrun.
    set (ds1 := set_var_attrs ds v (restored e (var_attrs ds v))) in *.
    assert (Hv1 : var_attrs ds1 v = restored e (var_attrs ds v)).
    { subst ds1. apply var_attrs_set_eq. apply dict_in_keys.
      apply Hvars. now left. }
    assert (Hrest : forall x, In x rest -> In x (dict_keys (ds_variables ds1))).
    { intros x Hx. subst ds1. rewrite set_var_attrs_keys. apply Hvars.
      now right. }
    destruct (IH (set_log p (Some r1)) ds1 r1 eq_refl Hrest Hrun var)
      as [Hin Hout].
    change (var_attrs_restore (set_log p (Some r1)))
      with (var_attrs_restore p) in Hin.
    destruct (string_dec v var) as [<-|Hne].
    + split; [|intros Hnot; exfalso; apply Hnot; now left].
      intros _. exists e. split; [exact He|].
      destruct (in_dec string_dec v rest) as [Hv|Hv].
      * destruct (Hin Hv) as (e' & He' & Heq).
        assert (e' = e) by congruence. subst e'.
        rewrite Heq, Hv1. apply restored_idempotent.
      * rewrite (Hout Hv). exact Hv1.
    + assert (Hsame : var_attrs ds1 var = var_attrs ds var)
        by (subst ds1; now apply var_attrs_set_ne).
      split.
      * intros [Heq|Hv]; [contradiction|].
        destruct (Hin Hv) as (e' & He' & Heq). exists e'.
        split; [exact He'|]. now rewrite Heq, Hsame.
      * intros Hnot. rewrite Hout; [exact Hsame|].
        intros Hv. apply Hnot. now right.
Qed.

Lemma normalize_attr_shape new_attr_d d key_name key_startswith x :
  normalize_attr new_attr_d d key_name key_startswith = Ok x ->
  exists v, x = dict_set new_attr_d key_name v.
Proof.
  unfold normalize_attr. intros H.
  repeat match type of H with
         | context [match ?t with _ => _ end] =>
             destruct t eqn:?; cbn [rbind] in H
         end;
    try discriminate; inversion H; eauto.
Qed.

Lemma dict_set_set {V} (d : mapping V) k v v' :
  dict_set (dict_set d k v) k v' = dict_set d k v'.
Proof.
  induction d as [|[k0 v0] d IH]; simpl.
  - now rewrite String.eqb_refl.
  - destruct (String.eqb_spec k0 k); simpl.
    + subst. now rewrite String.eqb_refl.
    + destruct (String.eqb_spec k0 k); [congruence|]. now rewrite IH.
Qed.

Lemma normalize_unit_shape new_attr_d d x :
  normalize_unit new_attr_d d = Ok x ->
  exists v, x = dict_set new_attr_d "units" v.
Proof.
  unfold normalize_unit.
  destruct (normalize_attr new_attr_d d "units" (Some "unit")) as [nd|e] eqn:E;
    simpl; [|discriminate].
  apply normalize_attr_shape in E. destruct E as [v ->].
  rewrite dict_get_set_eq.
  destruct v; intros H; inversion H; subst; eauto.
  rewrite dict_set_set. eauto.
Qed.

(** The dict stored for a variable has the keys "standard_name" and "units",
    the latter with the value [normalize_unit] found. *)
Lemma normalized_var_attrs_shape fallback attrs e :
  normalized_var_attrs fallback attrs = Ok e ->
  exists d' v1 v2,
    e = dict_set (dict_set d' "standard_name" v1) "units" v2
    /\ normalize_unit [("standard_name", v1)] (strip_attrs attrs)
       = Ok [("standard_name", v1); ("units", v2)].
Proof.
  unfold normalized_var_attrs, normalize_standard_name.
  destruct (normalize_attr [] (strip_attrs attrs) "standard_name"
                           (Some "standard")) as [nd1|] eqn:E1;
    simpl; [|discriminate].
  apply normalize_attr_shape in E1. destruct E1 as [v1 ->]. simpl.
  destruct (normalize_unit [("standard_name", v1)] (strip_attrs attrs))
    as [nd2|] eqn:E2; simpl; [|discriminate].
  destruct (normalize_unit_shape _ _ E2) as [v2 Hnd2]. simpl in Hnd2. subst nd2.
  destruct (normalize_calendar fallback (strip_attrs attrs)) as [d'|];
    simpl; [|discriminate].
  intros H; inversion H; subst. exists d', v1, v2. split; [reflexivity|].
  exact E2.
Qed.

Lemma normalized_var_attrs_keys fallback attrs e :
  normalized_var_attrs fallback attrs = Ok e ->
  In "standard_name" (dict_keys e) /\ In "units" (dict_keys e).
Proof.
  intros H. apply normalized_var_attrs_shape in H.
  destruct H as (d' & v1 & v2 & -> & _).
  split; apply dict_in_keys.
  - apply dict_in_get with (v := v1).
    rewrite dict_get_set_ne by discriminate. apply dict_get_set_eq.
  - apply dict_in_get with (v := v2). apply dict_get_set_eq.
Qed.

Lemma bind_returns {S A B} (c : M S A) (k : A -> M S B) (s s' : S) (a : A) :
  c s = Returns s' a -> bind c k s = k a s'.
Proof. unfold bind. now intros ->. Qed.

Lemma normalize_ds_attrs_eq p ds :
  normalize_ds_attrs (p, ds)
  = normalize_vars (dict_keys (ds_variables ds))
      (set_attrs_backup p (strip_attrs (ds_attrs ds)),
       set_ds_attrs ds (strip_attrs (ds_attrs ds))).
Proof. reflexivity. Qed.

Lemma restore_attrs_eq p ds :
  restore_attrs (p, ds)
  = match _restore_one "Dataset" (attrs_backup p) (p, ds_attrs ds) with
    | Returns t _ =>
        restore_vars (dict_keys (ds_variables ds))
                     (fst t, set_ds_attrs ds (snd t))
    | Raises t e => Raises (fst t, set_ds_attrs ds (snd t)) e
    end.
Proof.
  unfold restore_attrs, bind, get, zoom. cbv beta iota delta [fst snd].
  destruct (_restore_one "Dataset" (attrs_backup p) (p, ds_attrs ds));
    reflexivity.
Qed.

(** The run of [normalize_ds_attrs] followed by [restore_attrs], when the
    parser has a log and the normaliser returns on every variable. *)
Lemma normalize_then_restore_run p records ds :
  log p = Some records ->
  (forall var, In var (dict_keys (ds_variables ds)) ->
     exists e, normalized_var_attrs (fallback_cal p) (var_attrs ds var) = Ok e) ->
  exists p' ds',
    (normalize_ds_attrs ;;; restore_attrs)%M (p, ds) = Returns (p', ds') tt
    /\ ds_attrs ds' = strip_attrs (ds_attrs ds)
    /\ dict_keys (ds_variables ds') = dict_keys (ds_variables ds)
    /\ forall var, In var (dict_keys (ds_variables ds)) ->
         exists e,
           normalized_var_attrs (fallback_cal p) (var_attrs ds var) = Ok e
           /\ var_attrs ds' var = restored e (var_attrs ds var).
Proof.
  intros Hlog Hnorm.
  set (ds1 := set_ds_attrs ds (strip_attrs (ds_attrs ds))).
  set (p1 := set_attrs_backup p (strip_attrs (ds_attrs ds))).
  assert (Hvars1 : forall var, var_attrs ds1 var = var_attrs ds var) by reflexivity.
  destruct (@normalize_vars_run ds1 (dict_keys (ds_variables ds)) p1)
    as (m & Hrun1 & Hentries & _).
  { intros var Hvar. split; [exact Hvar|]. rewrite Hvars1. now apply Hnorm. }
  set (p2 := set_var_attrs_restore p1 m) in *.
  destruct (@restore_vars_run (dict_keys (ds_variables ds)) p2 ds1 records Hlog)
    as (r3 & ds3 & Hrun3 & Hattrs3 & Hkeys3 & _ & _).
  { intros var Hvar. split; [exact Hvar|].
    destruct (Hentries var Hvar) as (e & He & _). eauto. }
  pose proof (@restore_vars_exact (dict_keys (ds_variables ds)) p2 ds1 records
                _ _ Hlog (fun var Hvar => Hvar) Hrun3) as Hexact.
  exists (set_log p2 (Some r3)), ds3. split; [|split; [|split]].
  - rewrite bind_returns with (s' := (p2, ds1)) (a := tt).
    + rewrite restore_attrs_eq.
      change (attrs_backup p2) with (ds_attrs ds1).
      rewrite _restore_one_same by apply strip_attrs_NoDup.
      exact Hrun3.
    + rewrite normalize_ds_attrs_eq. exact Hrun1.
  - exact Hattrs3.
  - exact Hkeys3.
  - intros var Hvar. destruct (Hentries var Hvar) as (e & Hget & He).
    exists e. split; [exact He|].
    destruct (proj1 (Hexact var) Hvar) as (e' & Hget' & Heq).
    change (var_attrs_restore p2) with m in Hget'.
    assert (e' = e) by congruence. subst e'.
    rewrite Heq. now rewrite Hvars1.
Qed.

(** C5, as stated, fails: on [pr_ds], with nothing between the two calls, the
    dataset-level dict comes back stripped of white space and the attribute
    dict of [lat] comes back with two more keys. *)
Lemma round_trip_changes_attrs :
  exists p' ds',
    (normalize_ds_attrs ;;; restore_attrs)%M (parser, pr_ds) = Returns (p', ds') tt
    /\ ds_attrs pr_ds = [(" title ", VStr " precipitation ")]
    /\ ds_attrs ds' = [("title", VStr "precipitation")]
    /\ var_attrs pr_ds "lat" = [("axis", VStr "Y")]
    /\ var_attrs ds' "lat"
       = [("axis", VStr "Y"); ("standard_name", ATTR_NOT_FOUND);
          ("units", ATTR_NOT_FOUND)].
Proof.
  eexists. eexists.
  split; [vm_compute; reflexivity|].
  repeat split.
Qed.

Lemma no_spelling_of_incl key_name key_startswith keys keys' :
  (forall k, In k keys' -> In k keys) ->
  no_spelling_of key_name key_startswith keys = true ->
  no_spelling_of key_name key_startswith keys' = true.
Proof.
  unfold no_spelling_of. rewrite !forallb_forall. auto.
Qed.

Lemma normalize_unit_not_found new_attr_d d :
  no_spelling_of "units" "unit" (dict_keys d) = true ->
  normalize_unit new_attr_d d = Ok (dict_set new_attr_d "units" ATTR_NOT_FOUND).
Proof.
  intros H. unfold normalize_unit.
  rewrite normalize_attr_not_found by assumption.
  simpl. now rewrite dict_get_set_eq.
Qed.

(** The backup of a variable holds the sentinel under "standard_name", and
    under "units", when no attribute key of the variable spells it. *)
Lemma normalized_var_attrs_not_found fallback attrs e :
  normalized_var_attrs fallback attrs = Ok e ->
  (no_spelling_of "standard_name" "standard"
                  (map Str.strip (dict_keys attrs)) = true ->
   dict_get e "standard_name" = Some ATTR_NOT_FOUND)
  /\ (no_spelling_of "units" "unit" (map Str.strip (dict_keys attrs)) = true ->
      dict_get e "units" = Some ATTR_NOT_FOUND).
Proof.
  intros He. unfold normalized_var_attrs, normalize_standard_name in He.
  destruct (normalize_attr [] (strip_attrs attrs) "standard_name"
                           (Some "standard")) as [nd1|] eqn:E1;
    cbn [rbind] in He; [|discriminate].
  destruct (normalize_unit nd1 (strip_attrs attrs)) as [nd2|] eqn:E2;
    cbn [rbind] in He; [|discriminate].
  destruct (normalize_calendar fallback (strip_attrs attrs)) as [d'|];
    cbn [rbind] in He; [|discriminate].
  inversion He; subst e. clear He.
  pose proof (normalize_attr_shape _ _ _ _ E1) as [v1 Hnd1]. subst nd1.
  pose proof (normalize_unit_shape _ _ E2) as [v2 Hnd2]. subst nd2.
  split; intros Hno.
  - rewrite normalize_attr_not_found in E1
      by (eapply no_spelling_of_incl; [apply strip_attrs_keys|exact Hno]).
    inversion E1 as [Hv1]. simpl in Hv1.
    assert (v1 = ATTR_NOT_FOUND) by congruence. subst v1.
    unfold dict_update. simpl.
    rewrite dict_get_set_ne by discriminate. apply dict_get_set_eq.
  - rewrite normalize_unit_not_found in E2
      by (eapply no_spelling_of_incl; [apply strip_attrs_keys|exact Hno]).
    inversion E2 as [Hv2]. simpl in Hv2.
    assert (v2 = ATTR_NOT_FOUND) by congruence. subst v2.
    unfold dict_update. simpl. apply dict_get_set_eq.
Qed.

Lemma no_spelling_of_absent key_name key_startswith (a : dict) :
  Str.strip key_name = key_name ->
  no_spelling_of key_name key_startswith (map Str.strip (dict_keys a)) = true ->
  dict_get a key_name = None.
Proof.
  intros Hstrip Hno. apply dict_get_None. intros Hin.
  unfold no_spelling_of in Hno. rewrite forallb_forall in Hno.
  specialize (Hno (Str.strip key_name) (in_map Str.strip _ _ Hin)).
  rewrite Hstrip, String.eqb_refl in Hno. discriminate.
Qed.

(** C5 (amended): when the parser has a log and the normaliser returns on
    the attributes of every variable, [normalize_ds_attrs] followed by
    [restore_attrs], with nothing in between, returns; the dataset-level
    attribute dict is the stripped one and the variables are the same. For
    every variable, with [e] the backup the normaliser made of its
    attributes: each attribute the variable had is there with its value; a
    key the variable lacked is there exactly if [e] has it, with the value
    of [e]; and so the keys "standard_name" and "units" are there, holding
    the sentinel when no attribute key of the variable spells them. *)
Theorem normalize_then_restore (p : DatasetParser) (records : list log_record)
    (ds : Dataset) :
  log p = Some records ->
  (forall var, In var (dict_keys (ds_variables ds)) ->
     exists e, normalized_var_attrs (fallback_cal p) (var_attrs ds var) = Ok e) ->
  exists p' ds',
    (normalize_ds_attrs ;;; restore_attrs)%M (p, ds) = Returns (p', ds') tt
    /\ ds_attrs ds' = strip_attrs (ds_attrs ds)
    /\ dict_keys (ds_variables ds') = dict_keys (ds_variables ds)
    /\ forall var, In var (dict_keys (ds_variables ds)) ->
         exists e,
           normalized_var_attrs (fallback_cal p) (var_attrs ds var) = Ok e
           /\ extends (var_attrs ds var) (var_attrs ds' var)
           /\ (forall k, dict_get (var_attrs ds var) k = None ->
                 dict_get (var_attrs ds' var) k = dict_get e k)
           /\ dict_in "standard_name" (var_attrs ds' var) = true
           /\ dict_in "units" (var_attrs ds' var) = true
           /\ (no_spelling_of "standard_name" "standard"
                  (map Str.strip (dict_keys (var_attrs ds var))) = true ->
               dict_get (var_attrs ds' var) "standard_name"
               = Some ATTR_NOT_FOUND)
           /\ (no_spelling_of "units" "unit"
                  (map Str.strip (dict_keys (var_attrs ds var))) = true ->
               dict_get (var_attrs ds' var) "units" = Some ATTR_NOT_FOUND).
Proof.
  intros Hlog Hnorm.
  destruct (normalize_then_restore_run p ds Hlog Hnorm)
    as (p' & ds' & Hrun & Hattrs & Hkeys & Hvars).
  exists p', ds'. repeat (split; [assumption|]).
  intros var Hvar. destruct (Hvars var Hvar) as (e & He & Heq).
  exists e. split; [exact He|]. rewrite Heq.
  assert (Hfresh : forall k, dict_get (var_attrs ds var) k = None ->
            dict_get (restored e (var_attrs ds var)) k = dict_get e k).
  { intros k Hk. now rewrite restored_get, Hk. }
  destruct (normalized_var_attrs_keys _ _ He) as [Hsn Hun].
  destruct (normalized_var_attrs_not_found _ _ He) as [Hsn0 Hun0].
  split; [apply restored_extends|]. split; [exact Hfresh|].
  split; [now apply restored_has_keys|]. split; [now apply restored_has_keys|].
  split; intros Hno.
  - rewrite Hfresh by (now apply no_spelling_of_absent with (key_startswith := "standard")).
    now apply Hsn0.
  - rewrite Hfresh by (now apply no_spelling_of_absent with (key_startswith := "unit")).
    now apply Hun0.
Qed.

Lemma pr_ds_normalises (var : string) :
  In var (dict_keys (ds_variables pr_ds)) ->
  exists e,
    normalized_var_attrs (fallback_cal parser) (var_attrs pr_ds var) = Ok e.
Proof.
  simpl. intros H.
  repeat (destruct H as [<-|H]; [eexists; vm_compute; reflexivity|]).
  contradiction.
Qed.

Lemma normalize_then_restore_witness :
  exists p' ds',
    (normalize_ds_attrs ;;; restore_attrs)%M (parser, pr_ds) = Returns (p', ds') tt
    /\ ds_attrs ds' = strip_attrs (ds_attrs pr_ds)
    /\ dict_keys (ds_variables ds') = dict_keys (ds_variables pr_ds)
    /\ forall var, In var (dict_keys (ds_variables pr_ds)) ->
         exists e,
           normalized_var_attrs (fallback_cal parser) (var_attrs pr_ds var) = Ok e
           /\ extends (var_attrs pr_ds var) (var_attrs ds' var)
           /\ (forall k, dict_get (var_attrs pr_ds var) k = None ->
                 dict_get (var_attrs ds' var) k = dict_get e k)
           /\ dict_in "standard_name" (var_attrs ds' var) = true
           /\ dict_in "units" (var_attrs ds' var) = true
           /\ (no_spelling_of "standard_name" "standard"
                  (map Str.strip (dict_keys (var_attrs pr_ds var))) = true ->
               dict_get (var_attrs ds' var) "standard_name"
               = Some ATTR_NOT_FOUND)
           /\ (no_spelling_of "units" "unit"
                  (map Str.strip (dict_keys (var_attrs pr_ds var))) = true ->
               dict_get (var_attrs ds' var) "units" = Some ATTR_NOT_FOUND).
Proof.
  exact (@normalize_then_restore parser [] pr_ds eq_refl pr_ds_normalises).
Defined.

(* ------------------------------------------------------------------ *)
(** ** Missing units *)

Lemma check_unit_not_found (ds_var : DataArray) (q : DatasetParser) :
  dict_get_default (da_attrs ds_var) "units" ATTR_NOT_FOUND = ATTR_NOT_FOUND ->
  check_unit ds_var q
  = if skip_units q then
      self_log WARNING
               ("'units' attribute not found on " ++ da_name ds_var ++ ".") [] q
    else
      Raises q
        (TypeError
           [Lit "Netcdf metadata attribute 'units' not found on variable ";
            Lit (da_name ds_var);
            Lit ". Please provide this attribute in input model data or run with --disable_unit_checks."]).
Proof.
  intros H. unfold check_unit, bind, get. rewrite H. simpl.
  now destruct (skip_units q).
Qed.

(** Where the normaliser returns on every variable and the parser has its
    log: for a variable none of whose attribute keys spells "units" (as it
    is, folded, or by the prefix "unit"), [normalize_ds_attrs] followed by
    [restore_attrs] leaves the sentinel under the key "units" of the
    variable; [check_unit] on that variable does what it does on the
    variable without the key: it raises [TypeError] when [skip_units] is
    off, and only logs a warning when it is on. *)
Lemma missing_units_stored_when_normalised (p : DatasetParser)
    (records : list log_record) (ds : Dataset) (var : string) :
  log p = Some records ->
  (forall v, In v (dict_keys (ds_variables ds)) ->
     exists e, normalized_var_attrs (fallback_cal p) (var_attrs ds v) = Ok e) ->
  In var (dict_keys (ds_variables ds)) ->
  no_spelling_of "units" "unit"
                 (map Str.strip (dict_keys (var_attrs ds var))) = true ->
  exists p' ds' ds_var,
    (normalize_ds_attrs ;;; restore_attrs)%M (p, ds) = Returns (p', ds') tt
    /\ dict_get (ds_variables ds') var = Some ds_var
    /\ dict_get (da_attrs ds_var) "units" = Some ATTR_NOT_FOUND
    /\ forall q : DatasetParser,
         check_unit ds_var q
         = check_unit (set_da_attrs ds_var (dict_del (da_attrs ds_var) "units")) q
         /\ (skip_units q = false ->
             exists msg, check_unit ds_var q = Raises q (TypeError msg))
         /\ (skip_units q = true ->
             forall l, log q = Some l ->
               check_unit ds_var q
               = Returns
                   (set_log q
                      (Some (l ++ [LogRecord WARNING
                                     ("'units' attribute not found on "
                                      ++ da_name ds_var ++ ".") []])%list))
                   tt).
Proof.
  intros Hlog Hnorm Hvar Hno.
  destruct (normalize_then_restore_run p ds Hlog Hnorm)
    as (p' & ds' & Hrun & _ & Hkeys & Hvars).
  destruct (Hvars var Hvar) as (e & He & Heq).
  assert (Hin' : dict_in var (ds_variables ds') = true)
    by (apply dict_in_keys; now rewrite Hkeys).
  unfold dict_in in Hin'.
  destruct (dict_get (ds_variables ds') var) as [ds_var|] eqn:Evar;
    [|discriminate].
  assert (Hattrs : var_attrs ds' var = da_attrs ds_var)
    by (unfold var_attrs; now rewrite Evar).
  assert (Hunits : dict_get (da_attrs ds_var) "units" = Some ATTR_NOT_FOUND).
  { rewrite <- Hattrs, Heq, restored_get.
    rewrite (@no_spelling_of_absent "units" "unit" _ eq_refl Hno).
    now apply (normalized_var_attrs_not_found _ _ He). }
  exists p', ds', ds_var. repeat (split; [assumption|]).
  intros q.
  rewrite (check_unit_not_found ds_var q)
    by (unfold dict_get_default; now rewrite Hunits).
  rewrite (check_unit_not_found _ q)
    by (unfold dict_get_default; simpl; now rewrite dict_get_del).
  split; [reflexivity|]. split.
  - intros ->. eauto.
  - intros -> l Hl. unfold self_log. now rewrite Hl.
Qed.

(** C10 fails on [gregorian_ds]: [lat] has no attribute that spells "units",
    and [normalize_ds_attrs] raises [NameError] on the calendar of [time]
    ([guess_attr] logs the corrected spelling through [self] in a static
    method), with [time] before [lat] or after it; [restore_attrs] is not
    reached, the dataset is as it was, and [lat] has no "units" key. *)
Theorem missing_units_not_stored :
  no_spelling_of "units" "unit"
                 (map Str.strip (dict_keys (var_attrs gregorian_ds "lat"))) = true
  /\ normalize_calendar (fallback_cal parser)
       (strip_attrs (var_attrs gregorian_ds "time"))
     = Err (NameError "self")
  /\ (exists p',
        (normalize_ds_attrs ;;; restore_attrs)%M (parser, gregorian_ds)
        = Raises (p', gregorian_ds) (NameError "self"))
  /\ (exists p',
        (normalize_ds_attrs ;;; restore_attrs)%M
          (parser, set_ds_variables gregorian_ds
                     (rev (ds_variables gregorian_ds)))
        = Raises (p', set_ds_variables gregorian_ds
                        (rev (ds_variables gregorian_ds)))
                 (NameError "self"))
  /\ dict_get (var_attrs gregorian_ds "lat") "units" = None.
Proof.
  split; [reflexivity|]. split; [reflexivity|].
  split; [eexists; vm_compute; reflexivity|].
  split; [eexists; vm_compute; reflexivity|].
  reflexivity.
Qed.

(* ------------------------------------------------------------------ *)
(** * Further properties of the module *)

(** ** guess_attr *)

Lemma sum_bool_pos_In {A} (f : A -> bool) (l : list A) :
  1 <= sum_bool (map f l) -> exists x, In x l /\ f x = true.
Proof.
  induction l as [|a l IH]; simpl; [lia|].
  destruct (f a) eqn:E; [eauto|].
  simpl. intros H. destruct (IH H) as (x & Hx & Hfx). eauto.
Qed.

(** X1: when the expected name is one of the (distinct) options, [guess_attr]
    returns it as it is, whatever other spellings of it the options hold and
    whatever the default. *)
Theorem guess_attr_returns_expected_name (attr_desc attr_name : string)
    (options : list string) (default : option string) :
  NoDup options ->
  In attr_name options ->
  guess_attr attr_desc attr_name options default None = Ok attr_name.
Proof.
  intros Hnd Hin. now apply guess_attr_verbatim.
Qed.

Lemma guess_attr_returns_expected_name_witness :
  guess_attr "units" "units" ["Units"; "units"; "UNITS"] None None = Ok "units".
Proof.
  apply guess_attr_returns_expected_name.
  - repeat (constructor; [simpl; intuition discriminate|]). constructor.
  - simpl. tauto.
Defined.

Lemma guess_attr_never_corrects_aux (attr_desc attr_name : string)
    (options : list string) (default : option string)
    (comparison_func : option (string -> string -> bool)) (r : string) :
  guess_attr attr_desc attr_name options default comparison_func = Ok r ->
  (r = attr_name
   /\ exists opt, In opt options
                  /\ compare_with comparison_func opt attr_name = true)
  \/ default = Some r.
Proof.
  unfold guess_attr. fold (compare_with comparison_func).
  set (test_count :=
         sum_bool (map (fun opt => compare_with comparison_func opt attr_name)
                       options)).
  destruct (1 <? test_count)%nat; cbn [rbind]; [discriminate|].
  destruct (Nat.leb_spec 1 test_count) as [Hpos|Hzero].
  - intros H. inversion H; subst. left. split; [reflexivity|].
    now apply sum_bool_pos_In in Hpos.
  - destruct (_ =? 1)%nat.
    + destruct (map snd _); cbn [rbind static_self_log]; discriminate.
    + destruct default; [|discriminate]. intros H. inversion H. now right.
Qed.

(** X2: whatever [guess_attr] returns is the expected name itself, found
    among the options by the comparison, or the default: it never returns a
    corrected spelling. *)
Theorem guess_attr_never_corrects (attr_desc attr_name : string)
    (options : list string) (default : option string)
    (comparison_func : option (string -> string -> bool)) (r : string) :
  guess_attr attr_desc attr_name options default comparison_func = Ok r ->
  (r = attr_name
   /\ exists opt, In opt options
                  /\ compare_with comparison_func opt attr_name = true)
  \/ default = Some r.
Proof. apply guess_attr_never_corrects_aux. Qed.

Lemma guess_attr_never_corrects_witness :
  ("noleap" = "noleap"
   /\ exists opt, In opt _cf_calendars
                  /\ compare_with None opt "noleap" = true)
  \/ Some "proleptic_gregorian" = Some "noleap".
Proof.
  exact (@guess_attr_never_corrects "calendar" "noleap" _cf_calendars
           (Some "proleptic_gregorian") None "noleap" eq_refl).
Defined.

(** X3: when no option passes the comparison as it is and the number of
    options that pass it after folding is not one, [guess_attr] gives the
    default, and raises [KeyError] with the expected name if there is
    none. *)
Theorem guess_attr_falls_back (attr_desc attr_name : string)
    (options : list string) (default : option string)
    (comparison_func : option (string -> string -> bool)) :
  sum_bool (map (fun opt => compare_with comparison_func opt attr_name)
                options) = 0 ->
  sum_bool (map (fun opt => compare_with comparison_func (str_munge opt)
                                         (str_munge attr_name))
                options) <> 1 ->
  guess_attr attr_desc attr_name options default comparison_func
  = match default with
    | Some dflt => Ok dflt
    | None => Err (KeyError attr_name)
    end.
Proof.
  intros Hzero Hnot. unfold guess_attr. fold (compare_with comparison_func).
  rewrite Hzero. simpl. rewrite map_map. simpl.
  destruct (Nat.eqb_spec
              (sum_bool (map (fun opt => compare_with comparison_func
                                           (str_munge opt) (str_munge attr_name))
                             options)) 1); [contradiction|reflexivity].
Qed.

Lemma guess_attr_falls_back_witness :
  guess_attr "units" "units" ["Units"; "UNITS"; "long_name"] None None
  = Err (KeyError "units").
Proof.
  exact (@guess_attr_falls_back "units" "units" ["Units"; "UNITS"; "long_name"]
           None None eq_refl ltac:(simpl; lia)).
Defined.

(** X4: when two or more options pass the comparison as they are,
    [guess_attr] raises [NameError]: the statement that logs the multiple
    values reads [self] in a static method. *)
Theorem guess_attr_multiple_matches_raise (attr_desc attr_name : string)
    (options : list string) (default : option string)
    (comparison_func : option (string -> string -> bool)) :
  2 <= sum_bool (map (fun opt => compare_with comparison_func opt attr_name)
                     options) ->
  guess_attr attr_desc attr_name options default comparison_func
  = Err (NameError "self").
Proof.
  intros Hmany. unfold guess_attr. fold (compare_with comparison_func).
  destruct (Nat.ltb_spec 1
              (sum_bool (map (fun opt => compare_with comparison_func opt attr_name)
                             options))); [reflexivity|lia].
Qed.

Lemma guess_attr_multiple_matches_raise_witness :
  guess_attr "units" "unit" ["unit"; "units"] (Some "units")
             (Some Str.startswith)
  = Err (NameError "self").
Proof.
  exact (@guess_attr_multiple_matches_raise "units" "unit" ["unit"; "units"]
           (Some "units") (Some Str.startswith) ltac:(simpl; lia)).
Defined.

(** ** str_munge and the repair of "mb" *)

Lemma lower_alnum_not_upper (c : ascii) :
  Str.is_lower_alnum c = true -> Str.is_upper c = false.
Proof.
  unfold Str.is_lower_alnum, Str.is_lower, Str.is_digit, Str.is_upper,
    Str.in_range.
  intros H. apply orb_prop in H.
  apply andb_false_iff.
  destruct (Nat.leb_spec 65 (Str.code c)); [|now left].
  destruct (Nat.leb_spec (Str.code c) 90); [|now right].
  destruct H as [H|H]; apply andb_prop in H; destruct H as [Hlo Hhi];
    apply Nat.leb_le in Hlo, Hhi; lia.
Qed.

Lemma drop_non_alnum_all (s : string) :
  Forall (fun c => Str.is_lower_alnum c = true)
         (list_ascii_of_string (Str.drop_non_alnum s)).
Proof.
  induction s as [|c s IH]; simpl; [constructor|].
  destruct (Str.is_lower_alnum c) eqn:E; simpl; [constructor|]; assumption.
Qed.

Lemma str_munge_fixed (s : string) :
  Forall (fun c => Str.is_lower_alnum c = true) (list_ascii_of_string s) ->
  str_munge s = s.
Proof.
  unfold str_munge. induction s as [|c s IH]; simpl; [reflexivity|].
  intros H. inversion H as [|? ? Hc Hs]; subst.
  unfold Str.lower_char. rewrite (lower_alnum_not_upper _ Hc), Hc.
  now rewrite IH.
Qed.

(** X5: [str_munge] leaves only lower-case letters and digits, and folding
    a folded string changes nothing. *)
Theorem str_munge_idempotent (s : string) :
  Forall (fun c => Str.is_lower_alnum c = true)
         (list_ascii_of_string (str_munge s))
  /\ str_munge (str_munge s) = str_munge s.
Proof.
  assert (H : Forall (fun c => Str.is_lower_alnum c = true)
                     (list_ascii_of_string (str_munge s)))
    by apply drop_non_alnum_all.
  split; [exact H|]. now apply str_munge_fixed.
Qed.

Lemma sub_mb_without_mb (s : string) :
  has_mb s = false -> forall prev, Str.sub_mb prev s = s.
Proof.
  induction s as [|c1 rest IH]; intros H prev; [reflexivity|].
  destruct rest as [|c2 rest2]; [reflexivity|].
  change (has_mb (String c1 (String c2 rest2)))
    with ((Str.is_m c1 && Str.is_b c2) || has_mb (String c2 rest2)) in H.
  apply orb_false_iff in H. destruct H as [Hpair Hrest].
  change (Str.sub_mb prev (String c1 (String c2 rest2)))
    with (if Str.lookbehind_ok prev && (Str.is_m c1 && Str.is_b c2)
             && Str.lookahead_ok rest2
          then ("millibar" ++ Str.sub_mb (Some c2) rest2)%string
          else String c1 (Str.sub_mb (Some c1) (String c2 rest2))).
  rewrite Hpair, andb_false_r. simpl andb. cbv iota.
  now rewrite IH.
Qed.

(** X6: [normalize_unit] copies a units string in which no "m" is followed
    by a "b" (in either case) unchanged: the repair touches nothing else. *)
Theorem normalize_unit_keeps_other_units (new_attr_d attr_d : dict)
    (unit_str : string) :
  NoDup (dict_keys attr_d) ->
  dict_get attr_d "units" = Some (VStr unit_str) ->
  has_mb unit_str = false ->
  normalize_unit new_attr_d attr_d
  = Ok (dict_set new_attr_d "units" (VStr unit_str)).
Proof.
  intros Hnd Hget Hmb. unfold normalize_unit.
  rewrite normalize_attr_verbatim with (v := VStr unit_str) by assumption.
  cbn [rbind]. rewrite dict_get_set_eq.
  rewrite sub_mb_without_mb by assumption.
  now rewrite dict_set_set.
Qed.

Lemma normalize_unit_keeps_other_units_witness :
  normalize_unit [] [("long_name", VStr "rain"); ("units", VStr "kg m-2 s-1")]
  = Ok [("units", VStr "kg m-2 s-1")].
Proof.
  exact (@normalize_unit_keeps_other_units []
           [("long_name", VStr "rain"); ("units", VStr "kg m-2 s-1")]
           "kg m-2 s-1"
           ltac:(repeat (constructor; [simpl; intuition discriminate|]);
                 constructor)
           eq_refl eq_refl).
Defined.

(** ** normalize_attr and normalize_calendar *)

(** X7: when [normalize_attr] returns, the target dict differs from what it
    was in the key [key_name] only, and the value written there is the
    sentinel or a value the source dict holds. *)
Theorem normalize_attr_writes_one_key (new_attr_d d : dict)
    (key_name : string) (key_startswith : option string) (x : dict) :
  normalize_attr new_attr_d d key_name key_startswith = Ok x ->
  exists v,
    x = dict_set new_attr_d key_name v
    /\ (v = ATTR_NOT_FOUND \/ exists k, dict_get d k = Some v).
Proof.
  unfold normalize_attr, dict_get_default. intros H.
  repeat match type of H with
         | context [match ?t with _ => _ end] =>
             destruct t eqn:?; cbn [rbind] in H
         end;
    try discriminate; inversion H; eauto.
Qed.

Lemma normalize_attr_writes_one_key_witness :
  exists v,
    [("history", VStr "x"); ("units", VStr "K")]
    = dict_set [("history", VStr "x")] "units" v
    /\ (v = ATTR_NOT_FOUND
        \/ exists k, dict_get [("units", VStr "K")] k = Some v).
Proof.
  exact (@normalize_attr_writes_one_key [("history", VStr "x")]
           [("units", VStr "K")] "units" (Some "unit") _ eq_refl).
Defined.



(** X9: when [normalize_calendar] returns, the dict has no calendar key, or
    its calendar is one of the CF calendar names or the fallback calendar. *)
Theorem normalize_calendar_recognised (fallback : string) (attr_d d' : dict) :
  normalize_calendar fallback attr_d = Ok d' ->
  dict_get d' "calendar" = None
  \/ exists cal,
       dict_get d' "calendar" = Some (VStr cal)
       /\ (In cal _cf_calendars \/ cal = fallback).
Proof.
  unfold normalize_calendar.
  destruct (normalize_attr attr_d attr_d "calendar" (Some "cal")) as [d1|]
    eqn:E1; cbn [rbind]; [|discriminate].
  destruct (dict_get d1 "calendar") as [v|]; [|discriminate].
  destruct v; try discriminate.
  - intros H. inversion H. left. apply dict_get_del.
  - destruct (guess_attr "calendar" s _cf_calendars (Some fallback) None)
      as [c|] eqn:E2; cbn [rbind]; [|discriminate].
    intros H. inversion H. right. exists c. rewrite dict_get_set_eq.
    split; [reflexivity|].
    apply guess_attr_never_corrects_aux in E2.
    destruct E2 as [(-> & opt & Hin & Heq)|Hdef].
    + left. simpl in Heq. apply String.eqb_eq in Heq. now subst.
    + right. congruence.
Qed.

Lemma normalize_calendar_recognised_witness :
  dict_get [("calendar", VStr "proleptic_gregorian")] "calendar" = None
  \/ exists cal,
       dict_get [("calendar", VStr "proleptic_gregorian")] "calendar"
       = Some (VStr cal)
       /\ (In cal _cf_calendars \/ cal = "proleptic_gregorian").
Proof.
  exact (@normalize_calendar_recognised "proleptic_gregorian"
           [("calendar", VStr "lunar")] _ eq_refl).
Defined.

(** ** strip_attrs, normalize_ds_attrs and restore_attrs *)

Lemma lstrip_no_leading_space (s : string) :
  no_leading_space (Str.lstrip s) = true.
Proof.
  induction s as [|c s IH]; simpl; [reflexivity|].
  destruct (Str.is_space c) eqn:E; [assumption|]. simpl. now rewrite E.
Qed.

Lemma lstrip_fixed (s : string) :
  no_leading_space s = true -> Str.lstrip s = s.
Proof.
  destruct s as [|c s]; simpl; [reflexivity|].
  now destruct (Str.is_space c).
Qed.

Lemma rstrip_no_leading_space (s : string) :
  no_leading_space s = true -> no_leading_space (Str.rstrip s) = true.
Proof.
  destruct s as [|c s]; simpl; [reflexivity|].
  intros Hc. destruct (Str.rstrip s); simpl.
  - destruct (Str.is_space c) eqn:Ec; [discriminate|]. simpl. now rewrite Ec.
  - exact Hc.
Qed.

Lemma rstrip_idempotent (s : string) : Str.rstrip (Str.rstrip s) = Str.rstrip s.
Proof.
  induction s as [|c s IH]; simpl; [reflexivity|].
  destruct (Str.rstrip s) as [|a r] eqn:E.
  - destruct (Str.is_space c) eqn:Ec; simpl; [reflexivity|]. now rewrite Ec.
  - change (Str.rstrip (String c (String a r)))
      with (match Str.rstrip (String a r) with
            | EmptyString =>
                if Str.is_space c then EmptyString else String c EmptyString
            | r' => String c r'
            end).
    now rewrite IH.
Qed.

Lemma strip_idempotent (s : string) : Str.strip (Str.strip s) = Str.strip s.
Proof.
  unfold Str.strip.
  rewrite (lstrip_fixed (Str.rstrip (Str.lstrip s))).
  - apply rstrip_idempotent.
  - apply rstrip_no_leading_space, lstrip_no_leading_space.
Qed.

Lemma strip__idempotent (v : value) : strip_ (strip_ v) = strip_ v.
Proof. destruct v; simpl; try reflexivity. now rewrite strip_idempotent. Qed.

Lemma dict_set_Forall {V} (P : string * V -> Prop) (d : mapping V) k v :
  Forall P d -> P (k, v) -> Forall P (dict_set d k v).
Proof.
  intros Hd Hkv. induction d as [|[k0 v0] d IH]; simpl.
  - now constructor.
  - inversion Hd; subst. destruct (String.eqb_spec k0 k).
    + subst. now constructor.
    + constructor; auto.
Qed.

Lemma strip_attrs_stripped (d : dict) : Forall stripped (strip_attrs d).
Proof.
  unfold strip_attrs.
  assert (H : forall acc, Forall stripped acc ->
            Forall stripped
              (fold_left (fun acc kv =>
                            dict_set acc (Str.strip (fst kv)) (strip_ (snd kv)))
                         d acc)).
  { induction d as [|[k v] d IH]; intros acc Hacc; simpl; [assumption|].
    apply IH. apply dict_set_Forall; [assumption|].
    split; simpl; [apply strip_idempotent|apply strip__idempotent]. }
  apply H. constructor.
Qed.

Lemma dict_set_fresh {V} (d : mapping V) k v :
  dict_get d k = None -> dict_set d k v = (d ++ [(k, v)])%list.
Proof.
  induction d as [|[k0 v0] d IH]; simpl; [reflexivity|].
  destruct (String.eqb_spec k0 k); [discriminate|].
  intros H. now rewrite IH.
Qed.

Lemma strip_attrs_onto (d acc : dict) :
  NoDup (dict_keys (acc ++ d)%list) -> Forall stripped d ->
  fold_left (fun acc kv => dict_set acc (Str.strip (fst kv)) (strip_ (snd kv)))
            d acc
  = (acc ++ d)%list.
Proof.
  revert acc. induction d as [|[k v] d IH]; intros acc Hnd Hd; simpl.
  - now rewrite app_nil_r.
  - inversion Hd as [|? ? [Hk Hv] Hd']; subst. simpl in Hk, Hv.
    rewrite Hk, Hv.
    assert (Hfresh : dict_get acc k = None).
    { apply dict_get_None. intros Hin. unfold dict_keys in Hnd.
      rewrite map_app in Hnd. simpl in Hnd.
      apply NoDup_remove_2 in Hnd. apply Hnd. apply in_or_app. now left. }
    rewrite dict_set_fresh by exact Hfresh.
    rewrite IH; [now rewrite <- app_assoc| |assumption].
    now rewrite <- app_assoc.
Qed.

(** X10: stripping the attributes of a stripped dict changes nothing, and
    every key and string value of a stripped dict is free of leading and
    trailing white space. *)
Theorem strip_attrs_idempotent (d : dict) :
  strip_attrs (strip_attrs d) = strip_attrs d
  /\ forall k v, In (k, v) (strip_attrs d) ->
       Str.strip k = k /\ strip_ v = v.
Proof.
  split.
  - unfold strip_attrs at 1. rewrite strip_attrs_onto; [reflexivity| |].
    + apply strip_attrs_NoDup.
    + apply strip_attrs_stripped.
  - intros k v Hin.
    pose proof (strip_attrs_stripped d) as H. rewrite Forall_forall in H.
    exact (H (k, v) Hin).
Qed.

Lemma normalize_vars_frame (vars : list string) (p : DatasetParser)
    (ds : Dataset) :
  snd (state_after (normalize_vars vars (p, ds))) = ds
  /\ attrs_backup (fst (state_after (normalize_vars vars (p, ds))))
     = attrs_backup p.
Proof.
  revert p. induction vars as [|var rest IH]; intros p; [split; reflexivity|].
  rewrite normalize_vars_cons.
  destruct (dict_get (ds_variables ds) var) as [da|]; [|split; reflexivity].
  destruct (normalized_var_attrs (fallback_cal p) (da_attrs da)) as [entry|];
    [|split; reflexivity].
  exact (IH (set_var_attrs_restore p
               (dict_set (var_attrs_restore p) var entry))).
Qed.

(** X11: whether it returns or raises, [normalize_ds_attrs] leaves every
    variable of the dataset, attributes included, as it was; it replaces the
    dataset-level attributes by their stripped copy and backs that copy
    up. *)
Theorem normalize_ds_attrs_leaves_variables (p : DatasetParser) (ds : Dataset) :
  let st := state_after (normalize_ds_attrs (p, ds)) in
  ds_variables (snd st) = ds_variables ds
  /\ ds_attrs (snd st) = strip_attrs (ds_attrs ds)
  /\ attrs_backup (fst st) = strip_attrs (ds_attrs ds).
Proof.
  cbv zeta. rewrite normalize_ds_attrs_eq.
  destruct (normalize_vars_frame (dict_keys (ds_variables ds))
              (set_attrs_backup p (strip_attrs (ds_attrs ds)))
              (set_ds_attrs ds (strip_attrs (ds_attrs ds)))) as [Hds Hbackup].
  rewrite Hds, Hbackup. repeat split.
Qed.

Lemma set_var_attrs_same (ds : Dataset) (var : string) :
  set_var_attrs ds var (var_attrs ds var) = ds.
Proof.
  unfold set_var_attrs, var_attrs.
  destruct (dict_get (ds_variables ds) var) as [da|] eqn:E; [|reflexivity].
  assert (Hda : set_da_attrs da (da_attrs da) = da) by now destruct da.
  rewrite Hda, (dict_set_same _ _ E). now destruct ds.
Qed.

Lemma restore_vars_noop (vars : list string) (p : DatasetParser) (ds : Dataset)
    (records : list log_record) :
  log p = Some records ->
  (forall var, In var vars ->
     exists e, dict_get (var_attrs_restore p) var = Some e
               /\ forall k, In k (dict_keys e) ->
                    dict_in k (var_attrs ds var) = true) ->
  exists records',
    restore_vars vars (p, ds) = Returns (set_log p (Some records'), ds) tt.
Proof.
  revert p records. induction vars as [|var rest IH]; intros p records Hlog H.
  - exists records. simpl. unfold ret. destruct p; simpl in *; now subst.
  - rewrite restore_vars_cons.
    destruct (H var (or_introl eq_refl)) as (e & He & Hkeys). rewrite He.
    destruct (_restore_one_run var e p (var_attrs ds var) Hlog) as [r1 Hr1].
    rewrite Hr1. cbn [fst snd].
    rewrite (restored_noop _ _ Hkeys), set_var_attrs_same.
    destruct (IH (set_log p (Some r1)) r1 eq_refl) as [r2 Hr2].
    { intros v Hv. apply H. now right. }
    exists r2. exact Hr2.
Qed.

(** X12: [restore_attrs] restores once and for all: when the parser has a
    log and a backup for every variable, it returns, and run again on the
    dataset it left it returns and leaves that dataset as it is. *)
Theorem restore_attrs_twice (p : DatasetParser) (ds : Dataset)
    (records : list log_record) :
  log p = Some records ->
  (forall var, In var (dict_keys (ds_variables ds)) ->
     exists e, dict_get (var_attrs_restore p) var = Some e) ->
  exists p1 ds1,
    restore_attrs (p, ds) = Returns (p1, ds1) tt
    /\ exists p2, restore_attrs (p1, ds1) = Returns (p2, ds1) tt.
Proof.
  intros Hlog Hbackups.
  destruct (_restore_one_run "Dataset" (attrs_backup p) p (ds_attrs ds) Hlog)
    as [r1 Hr1].
  set (ds0 := set_ds_attrs ds (restored (attrs_backup p) (ds_attrs ds))).
  destruct (@restore_vars_run (dict_keys (ds_variables ds))
              (set_log p (Some r1)) ds0 r1 eq_refl)
    as (r2 & ds1 & Hrun & Hattrs & Hkeys & _ & Hrest).
  { intros var Hvar. split; [exact Hvar|]. now apply Hbackups. }
  exists (set_log p (Some r2)), ds1. split.
  - rewrite restore_attrs_eq, Hr1. exact Hrun.
  - destruct (_restore_one_run "Dataset" (attrs_backup p)
                (set_log p (Some r2)) (ds_attrs ds1) eq_refl) as [r3 Hr3].
    destruct (@restore_vars_noop (dict_keys (ds_variables ds1))
                (set_log p (Some r3)) ds1 r3 eq_refl) as [r4 Hr4].
    { intros var Hvar. rewrite Hkeys in Hvar.
      destruct (Hbackups var Hvar) as [e He]. exists e. split; [exact He|].
      now apply (Hrest var e Hvar He). }
    exists (set_log p (Some r4)).
    rewrite restore_attrs_eq.
    change (attrs_backup (set_log p (Some r2))) with (attrs_backup p).
    rewrite Hr3. cbn [fst snd].
    rewrite Hattrs. subst ds0. cbn [ds_attrs set_ds_attrs].
    rewrite restored_idempotent.
    assert (Hsame : set_ds_attrs ds1 (restored (attrs_backup p) (ds_attrs ds))
                    = ds1).
    { change (restored (attrs_backup p) (ds_attrs ds))
        with (ds_attrs (set_ds_attrs ds (restored (attrs_backup p) (ds_attrs ds)))).
      rewrite <- Hattrs. now destruct ds1. }
    rewrite Hsame. exact Hr4.
Qed.

Lemma restore_attrs_twice_witness :
  exists p1 ds1,
    restore_attrs (set_var_attrs_restore parser
                     [("lat", [("units", VStr "degrees_north")])],
                   mkDataset [] [("lat", mkDataArray "lat" [] ["lat"])])
    = Returns (p1, ds1) tt
    /\ exists p2, restore_attrs (p1, ds1) = Returns (p2, ds1) tt.
Proof.
  apply (@restore_attrs_twice
           (set_var_attrs_restore parser
              [("lat", [("units", VStr "degrees_north")])])
           (mkDataset [] [("lat", mkDataArray "lat" [] ["lat"])]) []).
  - reflexivity.
  - simpl. intros var [<-|[]]. eexists. reflexivity.
Defined.

(** ** compare_attr and its callers *)

(** X13: whatever its arguments and whether it returns or raises,
    [compare_attr] leaves the dataset variable as it was, and leaves the
    expected variable as it was or with the one attribute [our_attr_name]
    set to the dataset's value. *)
Theorem compare_attr_frame (our_attr_name ds_attr_name : string)
    (our_attr ds_attr : value)
    (comparison_func : option (value -> value -> bool))
    (update_our_var update_ds : bool) (tiebreaker : option string)
    (our_var : OurVar) (ds_var : option DataArray) :
  let st :=
    state_after
      (compare_attr our_attr_name our_attr ds_attr_name ds_attr comparison_func
                    update_our_var update_ds tiebreaker (our_var, ds_var)) in
  snd st = ds_var
  /\ (fst st = our_var \/ fst st = setattr our_var our_attr_name ds_attr).
Proof.
  cbv zeta. unfold compare_attr.
  destruct (bad_tiebreaker tiebreaker); [simpl; tauto|].
  destruct (value_eqb ds_attr ATTR_NOT_FOUND || negb (truthy ds_attr)).
  { destruct update_ds; simpl; tauto. }
  destruct (negb (truthy our_attr)).
  { destruct (update_our_var && negb (value_eqb ds_attr ATTR_NOT_FOUND));
      [|simpl; tauto].
    unfold bind, get, modify, lift, ret. cbn [fst snd].
    destruct (negb (String.eqb our_attr_name "name"
                    && value_eqb (ov_name our_var) ds_attr)); simpl; tauto. }
  destruct (negb (match comparison_func with
                  | Some f => f
                  | None => value_eqb
                  end our_attr ds_attr)); [|simpl; tauto].
  destruct (update_our_var && negb (value_eqb ds_attr ATTR_NOT_FOUND));
    simpl; tauto.
Qed.

Lemma compare_attr_missing_in_dataset_aux (our_attr_name ds_attr_name : string)
    (our_attr ds_attr : value)
    (comparison_func : option (value -> value -> bool))
    (update_our_var update_ds : bool) (tiebreaker : option string)
    (our_var : OurVar) (ds_var : option DataArray) :
  bad_tiebreaker tiebreaker = false ->
  ds_attr = ATTR_NOT_FOUND \/ truthy ds_attr = false ->
  compare_attr our_attr_name our_attr ds_attr_name ds_attr comparison_func
               update_our_var update_ds tiebreaker (our_var, ds_var)
  = Raises (our_var, ds_var)
      (if update_ds then NameError "self"
       else TypeError [Lit "No "; Lit ds_attr_name; Lit " for '";
                       Fmt (ov_name our_var); Lit "' (= "; Fmt our_attr;
                       Lit ") found in dataset."]).
Proof.
  intros Htb Hmissing. unfold compare_attr. rewrite Htb.
  assert (Hcond : value_eqb ds_attr ATTR_NOT_FOUND || negb (truthy ds_attr)
                  = true).
  { destruct Hmissing as [->|Hfalse]; [reflexivity|].
    rewrite Hfalse. apply orb_true_r. }
  rewrite Hcond. now destruct update_ds.
Qed.

(** X14: when the dataset-side value is the sentinel or empty (and the
    tiebreaker is a valid one), [compare_attr] raises and changes neither
    side: a [TypeError] naming the attribute when the dataset may not be
    updated, and, when it may, a [NameError] from the statement that logs
    the update, so that the dataset is never filled in. *)
Theorem compare_attr_missing_in_dataset (our_attr_name ds_attr_name : string)
    (our_attr ds_attr : value)
    (comparison_func : option (value -> value -> bool))
    (update_our_var update_ds : bool) (tiebreaker : option string)
    (our_var : OurVar) (ds_var : option DataArray) :
  bad_tiebreaker tiebreaker = false ->
  ds_attr = ATTR_NOT_FOUND \/ truthy ds_attr = false ->
  compare_attr our_attr_name our_attr ds_attr_name ds_attr comparison_func
               update_our_var update_ds tiebreaker (our_var, ds_var)
  = Raises (our_var, ds_var)
      (if update_ds then NameError "self"
       else TypeError [Lit "No "; Lit ds_attr_name; Lit " for '";
                       Fmt (ov_name our_var); Lit "' (= "; Fmt our_attr;
                       Lit ") found in dataset."]).
Proof. apply compare_attr_missing_in_dataset_aux. Qed.

Lemma compare_attr_missing_in_dataset_witness :
  compare_attr "standard_name" (VStr "precipitation_flux") "standard_name"
               ATTR_NOT_FOUND None false true None
               (pr_var, Some (mkDataArray "pr" [] []))
  = Raises (pr_var, Some (mkDataArray "pr" [] [])) (NameError "self").
Proof.
  exact (@compare_attr_missing_in_dataset "standard_name" "standard_name"
           (VStr "precipitation_flux") ATTR_NOT_FOUND None false true None
           pr_var (Some (mkDataArray "pr" [] [])) eq_refl (or_introl eq_refl)).
Defined.

Lemma reconcile_name_iff (ds_var_name : string)
    (update_name : bool) (our_var our_var' : OurVar) :
  ds_var_name <> "" ->
  reconcile_name (VStr ds_var_name) update_name our_var = Returns our_var' tt
  <-> ov_name our_var = VStr ds_var_name /\ our_var' = our_var.
Proof.
  intros Hne. apply String.eqb_neq in Hne.
  unfold reconcile_name, bind, get, zoom, compare_attr. cbn [fst snd].
  cbn [bad_tiebreaker value_eqb truthy orb andb negb]. rewrite Hne.
  cbn [negb orb].
  destruct update_name.
  - cbn [truthy String.eqb negb andb]. unfold bind, get, modify, lift, ret.
    cbn [fst snd].
    destruct (value_eqb (ov_name our_var) (VStr ds_var_name)) eqn:E.
    + apply value_eqb_eq in E. cbn.
      assert (Hsame : mkOurVar (VStr ds_var_name) (ov_standard_name our_var)
                        (ov_units our_var) (ov_axis our_var)
                        (ov_bounds_var our_var) (ov_extra our_var) = our_var)
        by (rewrite <- E; now destruct our_var).
      rewrite Hsame. split.
      * intros H; inversion H; now subst.
      * intros [_ ->]. reflexivity.
    + apply value_eqb_neq in E. cbn. split; [discriminate|tauto].
  - destruct (truthy (ov_name our_var)) eqn:Et; cbn [negb].
    + destruct (value_eqb (ov_name our_var) (VStr ds_var_name)) eqn:E.
      * apply value_eqb_eq in E. cbn. split.
        -- intros H; inversion H; now subst.
        -- intros [_ ->]. reflexivity.
      * apply value_eqb_neq in E. cbn. split; [discriminate|tauto].
    + unfold bind, get, modify, lift, ret. cbn [fst snd].
      destruct (value_eqb (ov_name our_var) (VStr ds_var_name)) eqn:E.
      * apply value_eqb_eq in E. rewrite E in Et. simpl in Et.
        rewrite Hne in Et. discriminate.
      * apply value_eqb_neq in E. cbn. split; [discriminate|tauto].
Qed.

Lemma reconcile_name_returns_iff_same_aux (ds_var_name : string)
    (update_name : bool) (our_var : OurVar) :
  ds_var_name <> "" ->
  ov_name our_var = VStr ds_var_name ->
  reconcile_name (VStr ds_var_name) update_name our_var = Returns our_var tt.
Proof.
  intros Hne Hname. now apply reconcile_name_iff.
Qed.

(** X15: for a non-empty dataset name, [reconcile_name] returns exactly when
    the expected variable already has that name, and then leaves the
    variable as it is; with [update_name] or without, it never returns
    having renamed the variable. *)
Theorem reconcile_name_returns_iff_same (ds_var_name : string)
    (update_name : bool) (our_var our_var' : OurVar) :
  ds_var_name <> "" ->
  reconcile_name (VStr ds_var_name) update_name our_var = Returns our_var' tt
  <-> ov_name our_var = VStr ds_var_name /\ our_var' = our_var.
Proof. apply reconcile_name_iff. Qed.

Lemma reconcile_name_returns_iff_same_witness :
  reconcile_name (VStr "pr") true pr_var = Returns pr_var tt
  <-> ov_name pr_var = VStr "pr" /\ pr_var = pr_var.
Proof.
  exact (@reconcile_name_returns_iff_same "pr" true pr_var pr_var
           ltac:(discriminate)).
Defined.

(** X16: when the dataset has no variable of the given name,
    [reconcile_names] raises [ValueError] and changes nothing. *)
Theorem reconcile_names_unknown_variable (ds_var_name : string)
    (update_name : bool) (our_var : OurVar) (ds : Dataset) :
  dict_in ds_var_name (ds_variables ds) = false ->
  exists msg,
    reconcile_names ds_var_name update_name (our_var, ds)
    = Raises (our_var, ds) (ValueError msg)
    /\ In (Lit ds_var_name) msg.
Proof.
  intros Hout. unfold reconcile_names, bind, get. cbn [fst snd].
  rewrite Hout. cbn [negb]. eexists. split; [reflexivity|].
  simpl. tauto.
Qed.

Lemma reconcile_names_unknown_variable_witness :
  exists msg,
    reconcile_names "pr_var" false (pr_var, pr_ds)
    = Raises (pr_var, pr_ds) (ValueError msg)
    /\ In (Lit "pr_var") msg.
Proof.
  exact (@reconcile_names_unknown_variable "pr_var" false pr_var pr_ds eq_refl).
Defined.

(** ** reconcile_units and reconcile_coord_bounds *)

Lemma check_unit_present (ds_var : DataArray) (theirs : value)
    (p : DatasetParser) :
  dict_get (da_attrs ds_var) "units" = Some theirs ->
  value_eqb theirs ATTR_NOT_FOUND = false ->
  check_unit ds_var p = Returns p tt.
Proof.
  intros Hget Hnf. unfold check_unit, bind, get, dict_get_default, ret.
  now rewrite Hget, Hnf.
Qed.

(** X17: when both sides carry units that are equivalent and equal,
    [reconcile_units] returns and changes nothing: neither variable, nor the
    log. *)
Theorem reconcile_units_equal {U : Units} (p : DatasetParser)
    (our_var : OurVar) (ds_var : DataArray) (theirs : value) :
  dict_get (da_attrs ds_var) "units" = Some theirs ->
  theirs <> ATTR_NOT_FOUND ->
  truthy theirs = true ->
  truthy (ov_units our_var) = true ->
  units_equivalent (ov_units our_var) theirs = true ->
  units_equal (ov_units our_var) theirs = true ->
  reconcile_units (p, (our_var, ds_var)) = Returns (p, (our_var, ds_var)) tt.
Proof.
  intros Hget Hnf Httheirs Htours Hequiv Hequal.
  apply value_eqb_neq in Hnf.
  unfold reconcile_units, bind, get, on_self, on_objects, zoom, try_except.
  cbn [fst snd].
  rewrite (check_unit_present _ _ Hget Hnf). cbn [fst snd].
  rewrite reconcile_attr_agree
    with (ours := ov_units our_var) (theirs := theirs) by easy.
  cbn [fst snd].
  rewrite reconcile_attr_agree
    with (ours := ov_units our_var) (theirs := theirs) by easy.
  reflexivity.
Qed.

Lemma reconcile_units_equal_witness :
  reconcile_units
    (__init__, (pr_var, mkDataArray "pr" [("units", VStr "kg m-2 s-1")] []))
  = Returns
      (__init__, (pr_var, mkDataArray "pr" [("units", VStr "kg m-2 s-1")] []))
      tt.
Proof.
  exact (@reconcile_units_equal units __init__ pr_var
           (mkDataArray "pr" [("units", VStr "kg m-2 s-1")] [])
           (VStr "kg m-2 s-1") eq_refl ltac:(discriminate) eq_refl eq_refl
           eq_refl eq_refl).
Defined.

(** X18: when both sides carry units and they are not equivalent,
    [reconcile_units] raises the [ValueError] of the mismatch, and the
    expected variable has the dataset's units (as they are, not in canonical
    form) when the error propagates; the parser and the dataset variable are
    unchanged. *)
Theorem reconcile_units_not_equivalent {U : Units} (p : DatasetParser)
    (our_var : OurVar) (ds_var : DataArray) (theirs : value) :
  dict_get (da_attrs ds_var) "units" = Some theirs ->
  theirs <> ATTR_NOT_FOUND ->
  truthy theirs = true ->
  truthy (ov_units our_var) = true ->
  units_equivalent (ov_units our_var) theirs = false ->
  reconcile_units (p, (our_var, ds_var))
  = Raises (p, (setattr our_var "units" theirs, ds_var))
      (ValueError (mismatch_message "units" (ov_name our_var) theirs
                                    (ov_units our_var))).
Proof.
  intros Hget Hnf Httheirs Htours Hequiv.
  apply value_eqb_neq in Hnf.
  unfold reconcile_units, bind, get, on_self, on_objects, zoom, try_except.
  cbn [fst snd].
  rewrite (check_unit_present _ _ Hget Hnf). cbn [fst snd].
  rewrite reconcile_attr_differ
    with (ours := ov_units our_var) (theirs := theirs) by easy.
  reflexivity.
Qed.

Lemma reconcile_units_not_equivalent_witness :
  reconcile_units (__init__, (pr_var, mkDataArray "pr" [("units", VStr "m")] []))
  = Raises (__init__, (setattr pr_var "units" (VStr "m"),
                       mkDataArray "pr" [("units", VStr "m")] []))
      (ValueError (mismatch_message "units" (VStr "pr") (VStr "m")
                                    (VStr "kg m-2 s-1"))).
Proof.
  exact (@reconcile_units_not_equivalent units __init__ pr_var
           (mkDataArray "pr" [("units", VStr "m")] []) (VStr "m")
           eq_refl ltac:(discriminate) eq_refl eq_refl eq_refl).
Defined.

(** X19: when the dataset variable has no units (no key, or the sentinel
    under it), [reconcile_units] raises and leaves both variables as they
    were: a [TypeError] from [check_unit] when [skip_units] is off; and when
    it is on (the parser having its log), a [NameError] after the warning of
    [check_unit] has been logged, since the update of the dataset that
    [skip_units] allows is never reached in [compare_attr]. *)
Theorem reconcile_units_without_units {U : Units} (p : DatasetParser)
    (records : list log_record) (our_var : OurVar) (ds_var : DataArray) :
  dict_get_default (da_attrs ds_var) "units" ATTR_NOT_FOUND = ATTR_NOT_FOUND ->
  log p = Some records ->
  (skip_units p = false ->
   exists msg,
     reconcile_units (p, (our_var, ds_var))
     = Raises (p, (our_var, ds_var)) (TypeError msg))
  /\ (skip_units p = true ->
      reconcile_units (p, (our_var, ds_var))
      = Raises
          (set_log p
             (Some (records
                    ++ [LogRecord WARNING
                          ("'units' attribute not found on "
                           ++ da_name ds_var ++ ".") []])%list),
           (our_var, ds_var))
          (NameError "self")).
Proof.
  intros Hmissing Hlog. split; intros Hskip.
  - unfold reconcile_units, bind, get, on_self, on_objects, zoom, try_except.
    cbn [fst snd]. rewrite (check_unit_not_found _ _ Hmissing), Hskip.
    eexists. reflexivity.
  - unfold reconcile_units, bind, get, on_self, on_objects, zoom, try_except.
    cbn [fst snd]. rewrite (check_unit_not_found _ _ Hmissing), Hskip.
    unfold self_log. rewrite Hlog. cbn [fst snd].
    unfold reconcile_attr, bind, get, lift, zoom. cbn [fst snd].
    rewrite Hmissing.
    change (getattr our_var "units") with (Ok (ov_units our_var)).
    cbv beta iota. cbn [fst snd].
    rewrite compare_attr_missing_in_dataset_aux by (auto; reflexivity).
    reflexivity.
Qed.

Lemma reconcile_units_without_units_witness :
  exists msg,
    reconcile_units (parser, (pr_var, mkDataArray "pr" [] []))
    = Raises (parser, (pr_var, mkDataArray "pr" [] [])) (TypeError msg).
Proof.
  exact (proj1 (@reconcile_units_without_units units parser [] pr_var
                  (mkDataArray "pr" [] []) eq_refl eq_refl) eq_refl).
Defined.

Lemma set_var_attrs_found (ds : Dataset) (var : string) (da : DataArray) :
  dict_get (ds_variables ds) var = Some da ->
  set_var_attrs ds var (da_attrs da) = ds.
Proof.
  intros H. rewrite <- (set_var_attrs_same ds var) at 2.
  unfold var_attrs. now rewrite H.
Qed.

Lemma on_ds_var_unchanged {A} (name : string) (c : M (OurVar * DataArray) A)
    (our_var : OurVar) (ds : Dataset) (da : DataArray) (a : A) :
  dict_get (ds_variables ds) name = Some da ->
  c (our_var, da) = Returns (our_var, da) a ->
  on_ds_var name c (our_var, ds) = Returns (our_var, ds) a.
Proof.
  intros Hget Hc. unfold on_ds_var, bind, get, lift, lookup_or_KeyError, zoom.
  cbn [fst snd]. rewrite Hget. cbn [fst snd]. rewrite Hc. cbn [fst snd].
  now rewrite (set_var_attrs_found _ _ Hget).
Qed.

Lemma ds_get_bounds_found {CF : CFAccessor} (ds : Dataset) (name b : string)
    (bounds : DataArray) :
  ds_get_bounds ds name = Ok (b, bounds) ->
  dict_get (ds_variables ds) b = Some bounds.
Proof.
  unfold ds_get_bounds, lookup_or_KeyError.
  destruct (get_bounds ds name) as [b'|]; cbn [rbind]; [|discriminate].
  destruct (dict_get (ds_variables ds) b') eqn:E; cbn [rbind]; [|discriminate].
  intros H. inversion H; subst. exact E.
Qed.

(** X20: when the bounds variable of the coordinate is found and carries a
    standard name and units that agree with those of the expected
    coordinate, [reconcile_coord_bounds] returns with [bounds_var] set to
    that variable; the dataset is unchanged, and the parser has logged one
    debug record if the names of the coordinate and of the bounds differ
    and nothing otherwise. *)
Theorem reconcile_coord_bounds_found {CF : CFAccessor} {U : Units}
    (ds_coord_name b : string) (bounds : DataArray) (p : DatasetParser)
    (records : list log_record) (our_coord : OurVar) (ds : Dataset)
    (std_name bounds_units : value) :
  log p = Some records ->
  ds_get_bounds ds ds_coord_name = Ok (b, bounds) ->
  dict_get (da_attrs bounds) "standard_name" = Some std_name ->
  std_name <> ATTR_NOT_FOUND -> truthy std_name = true ->
  ov_standard_name our_coord = std_name ->
  dict_get (da_attrs bounds) "units" = Some bounds_units ->
  bounds_units <> ATTR_NOT_FOUND -> truthy bounds_units = true ->
  truthy (ov_units our_coord) = true ->
  units_equal (ov_units our_coord) bounds_units = true ->
  reconcile_coord_bounds ds_coord_name (p, (our_coord, ds))
  = Returns
      (set_log p
         (Some (if value_eqb (ov_name our_coord) (VStr (da_name bounds))
                then records
                else (records
                      ++ [LogRecord DEBUG
                            "Updating %s for '%s' to value '%s' from dataset."
                            [AStr "bounds"; AVal (ov_name our_coord);
                             AStr (da_name bounds)]])%list)),
       (setattr our_coord "bounds_var" (VArray (da_name bounds)), ds))
      tt.
Proof.
  intros Hlog Hb Hsn Hsnf Hsnt Hours Hun Hunf Hunt Hourt Heq.
  apply value_eqb_neq in Hsnf, Hunf.
  pose proof (ds_get_bounds_found _ _ Hb) as Hget.
  unfold reconcile_coord_bounds, bind at 1, get at 1. cbn [fst snd].
  rewrite Hb.
  unfold bind at 1, on_objects at 1, zoom at 1. cbn [fst snd].
  rewrite on_ds_var_unchanged with (da := bounds) (a := tt); [|assumption|].
  2:{ apply reconcile_attr_agree with (ours := std_name) (theirs := std_name);
        try assumption.
      - now rewrite <- Hours.
      - apply value_eqb_refl. }
  cbn [fst snd].
  unfold bind at 1, on_objects at 1, zoom at 1. cbn [fst snd].
  rewrite on_ds_var_unchanged with (da := bounds) (a := tt); [|assumption|].
  2:{ now apply reconcile_attr_agree
        with (ours := ov_units our_coord) (theirs := bounds_units). }
  cbn [fst snd].
  unfold bind, get, modify, on_self, zoom, ret, self_log. cbn [fst snd].
  destruct (value_eqb (ov_name our_coord) (VStr (da_name bounds)));
    cbn [negb fst snd].
  - destruct p; simpl in *; now subst.
  - rewrite Hlog. reflexivity.
Qed.

Lemma reconcile_coord_bounds_found_witness :
  reconcile_coord_bounds "lon" (parser, (lon_coord, lon_bnds_ds))
  = Returns
      (set_log parser
         (Some [LogRecord DEBUG
                  "Updating %s for '%s' to value '%s' from dataset."
                  [AStr "bounds"; AVal (VStr "lon"); AStr "lon_bnds"]]),
       (setattr lon_coord "bounds_var" (VArray "lon_bnds"), lon_bnds_ds))
      tt.
Proof.
  exact (@reconcile_coord_bounds_found accessor units "lon" "lon_bnds"
           (mkDataArray "lon_bnds"
              [("standard_name", VStr "longitude");
               ("units", VStr "degrees_east")] ["lon"; "bnds"])
           parser [] lon_coord lon_bnds_ds (VStr "longitude")
           (VStr "degrees_east")
           eq_refl eq_refl eq_refl ltac:(discriminate) eq_refl eq_refl
           eq_refl ltac:(discriminate) eq_refl eq_refl eq_refl).
Defined.

(** ** The axis classifier *)

(** X21: for the whole dataset [_old_axes_dict] never raises; the dict it
    returns has each axis label at most once, and under an axis label the
    names the accessor gives for that axis, all of them, in ascending order,
    and at least one. *)
Theorem _old_axes_dict_dataset {CF : CFAccessor} (ds : Dataset) :
  exists d,
    _old_axes_dict ds None = Ok d
    /\ NoDup (dict_keys d)
    /\ forall ax names, In (ax, names) d ->
         In ax _AXIS_NAMES
         /\ names <> []
         /\ Permutation names (axis_names ds None ax)
         /\ Sorted str_le names.
Proof.
  eexists. split; [reflexivity|]. split.
  - rewrite sorted_nonempty_keys. apply filter_keys_NoDup.
    rewrite vardict_keys. apply _AXIS_NAMES_NoDup.
  - intros ax names Hin. unfold sorted_nonempty in Hin.
    apply in_map_iff in Hin. destruct Hin as ([k v] & Heq & Hin).
    apply filter_In in Hin. destruct Hin as [Hin Hne].
    apply in_map_iff in Hin. destruct Hin as (key & Hkey & Hax).
    simpl in Heq, Hne. inversion Heq; subst. inversion Hkey; subst.
    split; [assumption|]. split; [|split].
    + intros Hnil.
      pose proof (sorted_perm (axis_names ds None ax)) as Hperm.
      rewrite Hnil in Hperm. apply Permutation_nil in Hperm.
      now rewrite Hperm in Hne.
    + apply sorted_perm.
    + apply sorted_Sorted.
Qed.

(** ** The patch of the accessor *)

Lemma _ax_to_coord_keys (key : string) :
  dict_in key _ax_to_coord = true -> In key _AXIS_NAMES.
Proof. intros H. apply dict_in_keys in H. exact H. Qed.

(** X22: the patched [_get_axis_coord] answers as the function it wraps
    whenever that function finds something or the key is not one of X, Y, Z,
    T; for an axis the wrapped function finds nothing for, it answers with
    what the wrapped function finds for the coordinate of that axis
    (longitude, latitude, vertical, time); and patching twice is patching
    once. *)
Theorem new_get_axis_coord_extends {Obj : Type}
    (old : Obj -> string -> list string) (var : Obj) (key : string) :
  (old var key <> [] \/ ~ In key _AXIS_NAMES ->
   new_get_axis_coord old var key = old var key)
  /\ (old var "X" = [] -> new_get_axis_coord old var "X" = old var "longitude")
  /\ (old var "Y" = [] -> new_get_axis_coord old var "Y" = old var "latitude")
  /\ (old var "Z" = [] -> new_get_axis_coord old var "Z" = old var "vertical")
  /\ (old var "T" = [] -> new_get_axis_coord old var "T" = old var "time")
  /\ new_get_axis_coord (new_get_axis_coord old) var key
     = new_get_axis_coord old var key.
Proof.
  split; [|split; [|split; [|split; [|split]]]].
  - intros [Hne|Hkey]; unfold new_get_axis_coord.
    + destruct (old var key); [contradiction|reflexivity].
    + destruct (dict_in key _ax_to_coord) eqn:E;
        [now apply _ax_to_coord_keys in E|].
      now rewrite orb_true_r.
  - intros H. unfold new_get_axis_coord. now rewrite H.
  - intros H. unfold new_get_axis_coord. now rewrite H.
  - intros H. unfold new_get_axis_coord. now rewrite H.
  - intros H. unfold new_get_axis_coord. now rewrite H.
  - unfold new_get_axis_coord at 1.
    destruct (new_get_axis_coord old var key) eqn:Enew; [|reflexivity].
    destruct (dict_in key _ax_to_coord) eqn:Ein; [|reflexivity].
    cbn [orb negb].
    apply _ax_to_coord_keys in Ein. simpl in Ein.
    destruct Ein as [<-|[<-|[<-|[<-|[]]]]]; simpl;
      unfold new_get_axis_coord in Enew |- *; simpl in Enew |- *;
      match type of Enew with
      | context [old var ?k] => destruct (old var k) eqn:E1
      end; simpl in Enew |- *; try discriminate;
      rewrite Enew; reflexivity.
Qed.

(** ** The axes of one variable *)

(** X23: when [_old_axes_dict] returns for a variable, the dict has each
    axis label at most once; under each label it has exactly one name, a
    dimension of the variable; and every dimension of the variable is the
    name under some label. *)
Theorem _old_axes_dict_variable {CF : CFAccessor} (ds : Dataset)
    (name : string) (da : DataArray) (d : mapping (list string)) :
  dict_get (ds_variables ds) name = Some da ->
  _old_axes_dict ds (Some name) = Ok d ->
  (forall ax names, In (ax, names) d ->
     In ax _AXIS_NAMES /\ exists dim, names = [dim] /\ In dim (da_dims da))
  /\ (forall dim, In dim (da_dims da) -> exists ax, In (ax, [dim]) d)
  /\ NoDup (dict_keys d).
Proof. exact (@_old_axes_dict_variable_aux CF ds name da d). Qed.

Lemma _old_axes_dict_variable_witness :
  (forall ax names,
     In (ax, names) [("X", ["lon"]); ("Y", ["lat"]); ("T", ["time"])] ->
     In ax _AXIS_NAMES
     /\ exists dim, names = [dim] /\ In dim ["time"; "lat"; "lon"])
  /\ (forall dim, In dim ["time"; "lat"; "lon"] ->
        exists ax,
          In (ax, [dim]) [("X", ["lon"]); ("Y", ["lat"]); ("T", ["time"])])
  /\ NoDup (dict_keys [("X", ["lon"]); ("Y", ["lat"]); ("T", ["time"])]).
Proof.
  exact (@_old_axes_dict_variable accessor pr_ds "pr"
           (mkDataArray "pr" [("units", VStr "mm/day");
                              ("standard_name", VStr "precipitation_flux")]
                        ["time"; "lat"; "lon"])
           [("X", ["lon"]); ("Y", ["lat"]); ("T", ["time"])]
           eq_refl eq_refl).
Defined.

(** ** The coordinates of the whole dataset *)

(** X24: in the dict [axes] returns for the whole dataset, the entry of an
    axis is a list with exactly these coordinates: one for each name the
    accessor gives for the axis that is not empty and, when a filter is
    given, is in the filter; the coordinate is the variable of that name, or
    a placeholder with that name, the axis and the sentinel as standard name
    and units when the dataset has no such variable. *)
Theorem axes_dataset_coordinates {CF : CFAccessor} (ds : Dataset)
    (filter_set : option (list string)) (d : mapping axis_entry) :
  axes ds None filter_set = Ok d ->
  forall ax e, In (ax, e) d ->
    exists cs,
      e = Many cs
      /\ forall c, In c cs <->
           exists n, In n (axis_names ds None ax)
                     /\ kept_name filter_set n = true
                     /\ c = coord_for ds ax n.
Proof.
  intros Hrun ax e Hin. unfold axes, _old_axes_dict in Hrun.
  cbn [rbind] in Hrun.
  destruct (fill_axes_dataset ds filter_set
              (sorted_nonempty
                 (map (fun key => (key, axis_names ds None key)) _AXIS_NAMES))
              []) as (d' & Hd' & Hentries).
  { intros ax' names H. apply sorted_nonempty_In in H.
    destruct H as (v & Hv & ->). apply in_map_iff in Hv.
    destruct Hv as (key & Heq & _). inversion Heq; now subst. }
  rewrite Hd' in Hrun. inversion Hrun; subst d'.
  destruct (Hentries ax e Hin) as [[]|(cs & -> & Hcs)].
  exists cs. split; [reflexivity|].
  rewrite collect_coords_dataset_eq in Hcs. inversion Hcs; subst cs.
  intros c. simpl. rewrite in_map_iff. split.
  - intros (n & <- & Hn). apply filter_In in Hn. destruct Hn as [Hn Hkept].
    exists n. split; [|tauto].
    eapply Permutation_in; [apply sorted_perm|exact Hn].
  - intros (n & Hn & Hkept & ->). exists n. split; [reflexivity|].
    apply filter_In. split; [|exact Hkept].
    eapply Permutation_in; [apply Permutation_sym, sorted_perm|exact Hn].
Qed.

Lemma axes_dataset_coordinates_witness :
  axes two_lon_ds None (Some ["lon"; "height"])
  = Ok [("X", Many [CoordArray (snd (coordinate "lon" "X" []))])]
  /\ forall ax e,
       In (ax, e) [("X", Many [CoordArray (snd (coordinate "lon" "X" []))])] ->
       exists cs,
         e = Many cs
         /\ forall c, In c cs <->
              exists n, In n (axis_names two_lon_ds None ax)
                        /\ kept_name (Some ["lon"; "height"]) n = true
                        /\ c = coord_for two_lon_ds ax n.
Proof.
  split; [reflexivity|].
  exact (@axes_dataset_coordinates accessor two_lon_ds
           (Some ["lon"; "height"]) _ eq_refl).
Defined.

(** ** reconcile_names *)

(** X25: for a variable the dataset has under the expected name,
    [reconcile_names] returns and changes nothing when the dataset variable
    carries the expected standard name; when the dataset variable has no
    standard name it raises [NameError] and changes nothing, so that the
    expected standard name is not copied to the dataset. *)
Theorem reconcile_names_same_name (ds_var_name : string) (update_name : bool)
    (our_var : OurVar) (ds : Dataset) (da : DataArray) :
  ds_var_name <> "" ->
  ov_name our_var = VStr ds_var_name ->
  dict_get (ds_variables ds) ds_var_name = Some da ->
  (forall std_name,
     dict_get (da_attrs da) "standard_name" = Some std_name ->
     std_name <> ATTR_NOT_FOUND -> truthy std_name = true ->
     ov_standard_name our_var = std_name ->
     reconcile_names ds_var_name update_name (our_var, ds)
     = Returns (our_var, ds) tt)
  /\ (dict_get_default (da_attrs da) "standard_name" ATTR_NOT_FOUND
      = ATTR_NOT_FOUND ->
      reconcile_names ds_var_name update_name (our_var, ds)
      = Raises (our_var, ds) (NameError "self")).
Proof.
  intros Hne Hname Hda.
  assert (Hin : dict_in ds_var_name (ds_variables ds) = true)
    by (now apply dict_in_get with (v := da)).
  assert (Hrn : reconcile_name (VStr ds_var_name) update_name our_var
                = Returns our_var tt)
    by (now apply reconcile_name_returns_iff_same_aux).
  assert (Hhead : reconcile_names ds_var_name update_name (our_var, ds)
                  = on_ds_var ds_var_name
                      (reconcile_attr "standard_name" None None true true)
                      (our_var, ds)).
  { unfold reconcile_names, bind at 1, get at 1. cbn [fst snd].
    rewrite Hin. cbn [negb]. unfold bind at 1, zoom at 1. cbn [fst snd].
    now rewrite Hrn. }
  rewrite Hhead. split.
  - intros std_name Hsn Hnf Ht Hours.
    apply value_eqb_neq in Hnf.
    apply on_ds_var_unchanged with (da := da); [assumption|].
    unfold reconcile_attr, bind, get, lift, zoom, dict_get_default.
    cbn [fst snd].
    change (getattr our_var "standard_name") with (Ok (ov_standard_name our_var)).
    cbv beta iota. rewrite Hsn, Hours.
    rewrite compare_attr_agree; auto. simpl. apply value_eqb_refl.
  - intros Hmissing.
    unfold on_ds_var, bind, get, lift, lookup_or_KeyError, zoom.
    cbn [fst snd]. rewrite Hda. cbn [fst snd].
    unfold reconcile_attr, bind, get, lift, zoom. cbn [fst snd].
    change (getattr our_var "standard_name") with (Ok (ov_standard_name our_var)).
    cbv beta iota. cbn [fst snd]. rewrite Hmissing.
    rewrite compare_attr_missing_in_dataset_aux by (auto; reflexivity).
    cbn [fst snd]. now rewrite (set_var_attrs_found _ _ Hda).
Qed.

Lemma reconcile_names_same_name_witness :
  reconcile_names "pr" false (pr_var, pr_ds) = Returns (pr_var, pr_ds) tt.
Proof.
  exact (proj1 (@reconcile_names_same_name "pr" false pr_var pr_ds
                  (mkDataArray "pr"
                     [("units", VStr "mm/day");
                      ("standard_name", VStr "precipitation_flux")]
                     ["time"; "lat"; "lon"])
                  ltac:(discriminate) eq_refl eq_refl)
               (VStr "precipitation_flux") eq_refl ltac:(discriminate)
               eq_refl eq_refl).
Defined.

(** ** formula_terms *)

Lemma sappend_assoc (a b c : string) : ((a ++ b) ++ c = a ++ (b ++ c))%string.
Proof. induction a as [|x a IH]; simpl; [reflexivity|now rewrite IH]. Qed.

Lemma sappend_nil_r (a : string) : (a ++ "" = a)%string.
Proof. induction a as [|x a IH]; simpl; [reflexivity|now rewrite IH]. Qed.

Lemma sub_colon_word (w : string) :
  plain w -> w <> "" ->
  forall after_colon pending s,
    sub_colon after_colon pending (w ++ s)
    = (pending ++ w ++ sub_colon false "" s)%string.
Proof.
  induction w as [|c w IH]; intros Hw Hne b p s; [contradiction|].
  inversion Hw as [|? ? [Hsp Hco] Hw']; subst.
  simpl. rewrite Hco, Hsp. f_equal. f_equal.
  destruct w as [|c' w']; [reflexivity|].
  rewrite IH; [reflexivity|exact Hw'|discriminate].
Qed.

Lemma sub_colon_pending (c : ascii) (s pending : string) :
  plain_char c ->
  sub_colon false pending (String c s)
  = (pending ++ sub_colon false "" (String c s))%string.
Proof. intros [Hsp Hco]. simpl. now rewrite Hco, Hsp. Qed.

Lemma sub_colon_mapping (k v rest : string) :
  term_name k -> term_name v ->
  sub_colon false "" (k ++ ": " ++ v ++ rest)
  = (k ++ ":" ++ v ++ sub_colon false "" rest)%string.
Proof.
  intros [Hk Hkp] [Hv Hvp].
  rewrite (sub_colon_word Hkp Hk). simpl.
  now rewrite (sub_colon_word Hvp Hv).
Qed.

Lemma sub_colon_render (terms : list (string * string)) :
  term_names terms ->
  sub_colon false "" (render_terms terms)
  = join_space (map mapping_of terms).
Proof.
  induction terms as [|[k v] terms IH]; intros Hall; [reflexivity|].
  inversion Hall as [|? ? [Hk Hv] Hrest]; subst. simpl in Hk, Hv.
  destruct terms as [|[k2 v2] terms].
  - pose proof (sub_colon_mapping "" Hk Hv) as Hone.
    rewrite sappend_nil_r in Hone.
    change (sub_colon false "" "") with EmptyString in Hone.
    rewrite sappend_nil_r in Hone. exact Hone.
  - change (render_terms ((k, v) :: (k2, v2) :: terms))
      with (k ++ ": " ++ v ++ " " ++ render_terms ((k2, v2) :: terms))%string.
    rewrite (sub_colon_mapping _ Hk Hv).
    change (join_space (map mapping_of ((k, v) :: (k2, v2) :: terms)))
      with (mapping_of (k, v) ++ " "
            ++ join_space (map mapping_of ((k2, v2) :: terms)))%string.
    rewrite <- (IH Hrest).
    unfold mapping_of at 1. cbn [fst snd]. rewrite !sappend_assoc.
    do 3 f_equal.
    inversion Hrest as [|? ? [[Hk2 Hk2p] _] _]; subst. simpl in Hk2, Hk2p.
    assert (Hstart : exists c s, plain_char c
                       /\ render_terms ((k2, v2) :: terms) = String c s).
    { destruct k2 as [|c k2']; [contradiction|].
      inversion Hk2p; subst. exists c.
      destruct terms as [|[k3 v3] terms]; simpl; eauto. }
    destruct Hstart as (c & s & Hc & ->).
    change (" " ++ String c s)%string with (String " " (String c s)).
    change (sub_colon false "" (String " " (String c s)))
      with (sub_colon false " " (String c s)).
    now rewrite sub_colon_pending.
Qed.

Lemma mapping_of_spaceless (k v : string) :
  term_name k -> term_name v ->
  mapping_of (k, v) <> ""
  /\ Forall (fun c => Str.is_space c = false)
            (list_ascii_of_string (mapping_of (k, v))).
Proof.
  intros [Hk Hkp] [Hv Hvp]. unfold mapping_of. simpl. split.
  - destruct k; [contradiction|discriminate].
  - clear Hk Hv. induction k as [|c k IH]; simpl.
    + constructor; [reflexivity|].
      eapply Forall_impl; [|exact Hvp]. now intros a [Ha _].
    + inversion Hkp as [|? ? [Hc _] Hk']; subst. constructor; auto.
Qed.

Lemma split_ws_spaceless (w : string) :
  Forall (fun c => Str.is_space c = false) (list_ascii_of_string w) ->
  forall cur s, split_ws cur (w ++ s) = split_ws (cur ++ w) s.
Proof.
  induction w as [|c w IH]; intros Hw cur s.
  - simpl. now rewrite sappend_nil_r.
  - inversion Hw as [|? ? Hsp Hw']; subst. simpl. rewrite Hsp.
    rewrite (IH Hw'). now rewrite sappend_assoc.
Qed.

Lemma split_ws_space (c : ascii) (cur s : string) :
  Str.is_space c = true ->
  split_ws cur (String c s)
  = if String.eqb cur "" then split_ws "" s else cur :: split_ws "" s.
Proof. intros Hc. simpl. now rewrite Hc. Qed.

Lemma split_ws_join (terms : list (string * string)) :
  term_names terms ->
  split_ws "" (join_space (map mapping_of terms)) = map mapping_of terms.
Proof.
  induction terms as [|[k v] terms IH]; intros Hall; [reflexivity|].
  inversion Hall as [|? ? [Hk Hv] Hrest]; subst. simpl in Hk, Hv.
  destruct (mapping_of_spaceless Hk Hv) as [Hne Hsp].
  apply String.eqb_neq in Hne.
  destruct terms as [|kv2 terms].
  - simpl. rewrite <- (sappend_nil_r (mapping_of (k, v))) at 1.
    rewrite (split_ws_spaceless (mapping_of (k, v)) Hsp). simpl. now rewrite Hne.
  - change (join_space (map mapping_of ((k, v) :: kv2 :: terms)))
      with (mapping_of (k, v) ++ " "
            ++ join_space (map mapping_of (kv2 :: terms)))%string.
    rewrite (split_ws_spaceless (mapping_of (k, v)) Hsp).
    change (" " ++ join_space (map mapping_of (kv2 :: terms)))%string
      with (String " " (join_space (map mapping_of (kv2 :: terms)))).
    change ("" ++ mapping_of (k, v))%string with (mapping_of (k, v)).
    rewrite split_ws_space by reflexivity.
    rewrite Hne, (IH Hrest). reflexivity.
Qed.

Lemma split_colon_word (w : string) :
  plain w -> forall cur s, split_colon cur (w ++ s) = split_colon (cur ++ w) s.
Proof.
  induction w as [|c w IH]; intros Hw cur s.
  - simpl. now rewrite sappend_nil_r.
  - inversion Hw as [|? ? [_ Hco] Hw']; subst. simpl. rewrite Hco.
    rewrite (IH Hw'). now rewrite sappend_assoc.
Qed.

Lemma split_colon_mapping (k v : string) :
  term_name k -> term_name v ->
  split_colon "" (mapping_of (k, v)) = [k; v].
Proof.
  intros [_ Hk] [_ Hv]. unfold mapping_of. cbn [fst snd].
  rewrite (split_colon_word Hk). simpl.
  rewrite <- (sappend_nil_r v) at 1.
  rewrite (split_colon_word Hv). reflexivity.
Qed.

Lemma read_terms_mappings (terms : list (string * string))
    (acc : mapping string) :
  term_names terms ->
  read_terms (map mapping_of terms) acc = Ok (dict_update acc terms).
Proof.
  revert acc. induction terms as [|[k v] terms IH]; intros acc Hall;
    [reflexivity|].
  inversion Hall as [|? ? [Hk Hv] Hrest]; subst. simpl in Hk, Hv.
  cbn [map read_terms]. rewrite (split_colon_mapping Hk Hv).
  now rewrite (IH _ Hrest).
Qed.

(** X26: [formula_terms] reads back a well-formed attribute: for terms
    whose names hold no white space and no colon and are not empty, the
    attribute "k1: v1 k2: v2 ..." gives the dict with [v] under [k] for each
    term in turn (a later term of the same name replacing an earlier one),
    and it does not raise. *)
Theorem formula_terms_reads_rendered (attrs : dict)
    (terms : list (string * string)) :
  term_names terms ->
  dict_get attrs "formula_terms" = Some (VStr (render_terms terms)) ->
  formula_terms attrs = Ok (dict_update [] terms).
Proof.
  intros Hall Hget. unfold formula_terms, dict_get_default. rewrite Hget.
  rewrite (sub_colon_render Hall), (split_ws_join Hall).
  now apply read_terms_mappings.
Qed.

Lemma formula_terms_reads_rendered_witness :
  formula_terms [("formula_terms", VStr "a: ps b: p0")]
  = Ok [("a", "ps"); ("b", "p0")].
Proof.
  apply (@formula_terms_reads_rendered [("formula_terms", VStr "a: ps b: p0")]
           [("a", "ps"); ("b", "p0")]).
  - repeat constructor; simpl; try discriminate; repeat constructor.
  - reflexivity.
Defined.

Lemma sub_colon_spaces (s pending : string) :
  Forall (fun c => Str.is_space c = true) (list_ascii_of_string s) ->
  sub_colon false pending s = (pending ++ s)%string.
Proof.
  revert pending. induction s as [|c s IH]; intros p Hs; simpl.
  - now rewrite sappend_nil_r.
  - inversion Hs as [|? ? Hc Hs']; subst.
    assert (Hco : is_colon c = false).
    { unfold is_colon. unfold Str.is_space, Str.in_range in Hc.
      destruct (Nat.eqb_spec (Str.code c) 58) as [E|]; [|reflexivity].
      rewrite E in Hc. discriminate. }
    rewrite Hco, Hc, (IH _ Hs'). now rewrite sappend_assoc.
Qed.

Lemma split_ws_spaces (s : string) :
  Forall (fun c => Str.is_space c = true) (list_ascii_of_string s) ->
  split_ws "" s = [].
Proof.
  induction s as [|c s IH]; intros Hs; [reflexivity|].
  inversion Hs as [|? ? Hc Hs']; subst. simpl. rewrite Hc. auto.
Qed.

(** X27: [formula_terms] returns the empty dict, and does not raise, when
    the variable has no [formula_terms] attribute or the attribute is a
    string of white space only. *)
Theorem formula_terms_without_terms (attrs : dict) :
  dict_get attrs "formula_terms" = None
  \/ (exists s, dict_get attrs "formula_terms" = Some (VStr s)
                /\ Forall (fun c => Str.is_space c = true)
                          (list_ascii_of_string s)) ->
  formula_terms attrs = Ok [].
Proof.
  unfold formula_terms, dict_get_default.
  intros [->|(s & -> & Hs)]; [reflexivity|].
  rewrite (sub_colon_spaces s "" Hs). simpl. now rewrite (split_ws_spaces s Hs).
Qed.

Lemma formula_terms_without_terms_witness :
  formula_terms [("units", VStr "Pa"); ("formula_terms", VStr "  ")] = Ok [].
Proof.
  apply formula_terms_without_terms. right. eexists. split; [reflexivity|].
  repeat constructor.
Defined.

(** X28: [formula_terms] raises [ValueError] when the attribute is a single
    word without a colon: the word is the only mapping, it splits at colons
    into one piece, and [key, value = ...] has not enough values to unpack. *)
Theorem formula_terms_word_without_colon (attrs : dict) (w : string) :
  term_name w ->
  dict_get attrs "formula_terms" = Some (VStr w) ->
  formula_terms attrs
  = Err (ValueError [Lit "not enough values to unpack (expected 2, got 1)"]).
Proof.
  intros [Hne Hw] Hget. unfold formula_terms, dict_get_default. rewrite Hget.
  assert (Hsub : sub_colon false "" w = w).
  { pose proof (sub_colon_word Hw Hne false "" "") as H.
    rewrite !sappend_nil_r in H. exact H. }
  assert (Hsp : Forall (fun c => Str.is_space c = false)
                       (list_ascii_of_string w)).
  { eapply Forall_impl; [|exact Hw]. now intros a [Ha _]. }
  assert (Hsplit : split_ws "" w = [w]).
  { pose proof (split_ws_spaceless w Hsp "" "") as H.
    rewrite sappend_nil_r in H. rewrite H. simpl.
    apply String.eqb_neq in Hne. now rewrite Hne. }
  assert (Hcolon : split_colon "" w = [w]).
  { pose proof (split_colon_word Hw "" "") as H.
    rewrite sappend_nil_r in H. exact H. }
  rewrite Hsub, Hsplit. cbn [read_terms]. now rewrite Hcolon.
Qed.

Lemma formula_terms_word_without_colon_witness :
  formula_terms [("formula_terms", VStr "ps")]
  = Err (ValueError [Lit "not enough values to unpack (expected 2, got 1)"]).
Proof.
  apply (@formula_terms_word_without_colon [("formula_terms", VStr "ps")] "ps").
  - split; [discriminate|repeat constructor].
  - reflexivity.
Defined.
